(** * Introducing asyncio: the notebook's snippets, embedded and verified

    The repository is one Jupyter notebook, [00_introducing_asyncio.ipynb].
    Its functions ([routine], [named_timer], [cpu_bound], [io_bound]) are
    embedded as Rocq functions over an explicit world (clock, random
    source, output trace). *)

From Stdlib Require Import ZArith List Finite Lia.
From stdpp Require Import base strings list pretty gmap.

Local Open Scope Z_scope.

(** ** The Python runtime the snippets run against *)

Module Runtime.

(** Exceptions the modelled primitives raise. *)
Inductive exn :=
| ValueError (msg : string)
| TypeError (msg : string)
| OverflowError (msg : string).

(** A call either returns a value or raises. *)
Inductive outcome (A : Type) :=
| Returned (a : A)
| Raised (e : exn).
Arguments Returned {A} a.
Arguments Raised {A} e.

(** What a snippet does to the outside, in order. *)
Inductive event :=
| Printed (line : string)      (* print(line) on standard output *)
| Slept (seconds : Z).         (* time.sleep(seconds) returned *)

(** Python floats are kept abstract: the snippets subtract two clock
    readings, round the difference and format it. *)
Class PyFloat (F : Type) := {
  fsub : F → F → F;            (* a - b *)
  fround : F → Z → F;          (* round(a, ndigits) *)
  frepr : F → string           (* how an f-string shows a *)
}.

Section World.
Context {F : Type} `{PyFloat F}.

(** The world a snippet runs in.  [time_src] lists what the successive
    calls of time.time() read, [rand_src] the raw draws of the random
    generator; [trace] is what has happened so far, oldest first. *)
Record world := mkWorld {
  time_src : nat → F;
  time_ix : nat;
  rand_src : nat → Z;
  rand_ix : nat;
  trace : list event
}.

Definition M (A : Type) : Type := world → outcome A * world.

Definition ret {A} (a : A) : M A := λ w, (Returned a, w).
Definition raise {A} (e : exn) : M A := λ w, (Raised e, w).
Definition bind {A B} (m : M A) (k : A → M B) : M B := λ w,
  match m w with
  | (Returned a, w') => k a w'
  | (Raised e, w') => (Raised e, w')
  end.

Definition emit (ev : event) : M unit := λ w,
  (Returned tt,
   mkWorld (time_src w) (time_ix w) (rand_src w) (rand_ix w) (trace w ++ [ev])).

(** time.time() *)
Definition time_time : M F := λ w,
  (Returned (time_src w (time_ix w)),
   mkWorld (time_src w) (S (time_ix w)) (rand_src w) (rand_ix w) (trace w)).

(** The longest sleep, in whole seconds: time.sleep keeps the length in
    nanoseconds in a signed 64-bit number, and C division rounds
    towards zero. *)
Definition sleep_max : Z := (2 ^ 63 - 1) `quot` 10 ^ 9.

(** time.sleep(secs) for an integer secs: the length is converted to
    nanoseconds first, which fails when it does not fit; then a negative
    length is refused. *)
Definition time_sleep (secs : Z) : M unit :=
  if (secs <? - sleep_max) || (sleep_max <? secs)
  then raise (OverflowError "timestamp too large to convert to C _PyTime_t")
  else if secs <? 0 then raise (ValueError "sleep length must be non-negative")
  else emit (Slept secs).

(** print(line) *)
Definition print (line : string) : M unit := emit (Printed line).

(** random.randint(a, b): an integer N with a <= N <= b, taken from the
    next raw draw; an empty range is refused. *)
Definition random_randint (a b : Z) : M Z := λ w,
  if b <? a then (Raised (ValueError "empty range for randrange()"), w)
  else (Returned (a + rand_src w (rand_ix w) `mod` (b - a + 1)),
        mkWorld (time_src w) (time_ix w) (rand_src w) (S (rand_ix w)) (trace w)).
End World.

Arguments world F : clear implicits.
Arguments M F A : clear implicits.

End Runtime.
Export Runtime.

Declare Scope py_scope.
Delimit Scope py_scope with py.
Notation "x <- m ;; k" := (bind m (λ x, k))
  (at level 100, m at next level, right associativity) : py_scope.
Notation "m ;;; k" := (bind m (λ _, k))
  (at level 100, right associativity) : py_scope.
Local Open Scope py_scope.

(** ** Builtins used by the snippets *)

(** len(range(start, stop, step)) for a non-zero step. *)
Definition range_len (start stop step : Z) : Z :=
  if 0 <? step then
    if start <? stop then (stop - start - 1) / step + 1 else 0
  else if step <? 0 then
    if stop <? start then (start - stop - 1) / (- step) + 1 else 0
  else 0.

(** list(range(start, stop, step)) for a non-zero step. *)
Definition range_items (start stop step : Z) : list Z :=
  map (λ i, start + Z.of_nat i * step)
      (seq 0 (Z.to_nat (range_len start stop step))).

(** range(start, stop, step) *)
Definition py_range {F} (start stop step : Z) : M F (list Z) :=
  if step =? 0 then raise (ValueError "range() arg 3 must not be zero")
  else ret (range_items start stop step).

(** sum(xs): start from 0 and add the items left to right. *)
Definition py_sum (xs : list Z) : Z := fold_left Z.add xs 0.

(** ** Code cell 7564be76: the sequential routine *)

Section Snippets.
Context {F : Type} `{PyFloat F}.

(** def routine(name: str) -> int *)
Definition routine (name : string) : M F Z :=
  sleep_time <- random_randint 1 5 ;;
  print (name +:+ " is sleeping for " +:+ pretty sleep_time +:+ " seconds.") ;;;
  time_sleep sleep_time ;;;
  print (name +:+ " has woken up.") ;;;
  ret (sleep_time ^ 10).

(** ** Code cell b75bba9d: the timing decorator and the two workloads *)

(** What a call passes: positional and keyword arguments. *)
Record call_args (V : Type) := mkArgs {
  args : list V;
  kwargs : list (string * V)
}.

(** def wrapper, taking star-args and star-star-kwargs, closed over
    [name] and [func] *)
Definition wrapper {V R} (name : string) (func : call_args V → M F R)
    (a : call_args V) : M F R :=
  start <- time_time ;;
  res <- func a ;;
  now <- time_time ;;
  let end_ := fround (fsub now start) 2 in
  print (name +:+ " elapsed time: " +:+ frepr end_) ;;;
  ret res.

(** def timer(func: typing.Callable), closed over [name] *)
Definition timer {V R} (name : string) (func : call_args V → M F R)
    : call_args V → M F R :=
  wrapper name func.

(** def named_timer(name: str = "func") *)
Definition named_timer {V R} (name : string)
    : (call_args V → M F R) → call_args V → M F R :=
  timer name.

(** named_timer() with the default name *)
Definition named_timer_default {V R}
    : (call_args V → M F R) → call_args V → M F R :=
  named_timer "func".

(** def cpu_bound(start: int, end: int, step: int) *)
Definition cpu_bound (start end_ step : Z) : M F Z :=
  nums <- py_range start end_ step ;;
  ret (py_sum (map (λ num, num ^ 2) nums)).

(** def io_bound(sleep_time) *)
Definition io_bound (sleep_time : Z) : M F unit :=
  time_sleep sleep_time.

(** ** Calling a def: arguments are matched to the parameter names *)

Definition quoted (n : string) : string := "'" +:+ n +:+ "'".

Fixpoint name_list_tail (names : list string) : string :=
  match names with
  | [] => EmptyString
  | [a] => quoted a
  | [a; b] => quoted a +:+ ", and " +:+ quoted b
  | a :: rest => quoted a +:+ ", " +:+ name_list_tail rest
  end.

(** How an error message lists parameter names: 'a'; 'a' and 'b';
    'a', 'b', and 'c'. *)
Definition name_list (names : list string) : string :=
  match names with
  | [a; b] => quoted a +:+ " and " +:+ quoted b
  | _ => name_list_tail names
  end.

Definition plural (n : nat) : string :=
  if Nat.eqb n 1 then EmptyString else "s".

(** One slot per parameter; the positional arguments fill the slots from
    the left, those beyond the last slot are left over. *)
Fixpoint positional {V} (names : list string) (pos : list V)
    : list (string * option V) :=
  match names, pos with
  | [], _ => []
  | n :: names', [] => (n, None) :: positional names' []
  | n :: names', v :: pos' => (n, Some v) :: positional names' pos'
  end.

(** A keyword argument goes to the slot of its name, which must exist
    and be empty. *)
Definition keyword {V} (fname : string) (slots : list (string * option V))
    (kv : string * V) : exn + list (string * option V) :=
  match List.find (λ s, bool_decide (fst s = fst kv)) slots with
  | None =>
      inl (TypeError (fname +:+ "() got an unexpected keyword argument "
                      +:+ quoted (fst kv)))
  | Some (_, Some _) =>
      inl (TypeError (fname +:+ "() got multiple values for argument "
                      +:+ quoted (fst kv)))
  | Some (_, None) =>
      inr (map (λ s, if bool_decide (fst s = fst kv)
                     then (fst s, Some (snd kv)) else s) slots)
  end.

Fixpoint keywords {V} (fname : string) (slots : list (string * option V))
    (kw : list (string * V)) : exn + list (string * option V) :=
  match kw with
  | [] => inr slots
  | kv :: kw' =>
      match keyword fname slots kv with
      | inl e => inl e
      | inr slots' => keywords fname slots' kw'
      end
  end.

Definition empty_slots {V} (slots : list (string * option V)) : list string :=
  omap (λ s, match snd s with None => Some (fst s) | Some _ => None end) slots.

(** Binding the arguments of a call to a def [fname] whose parameters
    [names] are plain (no default, no star): the positional arguments
    are placed, then the keyword arguments in the order given (the keys
    of a call are distinct); after that a positional argument left over
    is an error, and then an empty slot is. *)
Definition bind_params {V} (fname : string) (names : list string)
    (pos : list V) (kw : list (string * V)) : exn + list V :=
  match keywords fname (positional names pos) kw with
  | inl e => inl e
  | inr slots =>
      if (length names <? length pos)%nat then
        inl (TypeError
               (fname +:+ "() takes " +:+ pretty (Z.of_nat (length names))
                +:+ " positional argument" +:+ plural (length names)
                +:+ " but " +:+ pretty (Z.of_nat (length pos))
                +:+ (if Nat.eqb (length pos) 1 then " was" else " were")
                +:+ " given"))
      else
        match empty_slots slots with
        | [] => inr (omap snd slots)
        | missing =>
            inl (TypeError
                   (fname +:+ "() missing "
                    +:+ pretty (Z.of_nat (length missing))
                    +:+ " required positional argument"
                    +:+ plural (length missing) +:+ ": "
                    +:+ name_list missing))
        end
  end.

(** cpu_bound as a callable.  [bind_params] gives one value per
    parameter, so the last branch is never taken. *)
Definition cpu_bound_call (a : call_args Z) : M F Z :=
  match bind_params "cpu_bound" ["start"; "end"; "step"]
          (args _ a) (kwargs _ a) with
  | inl e => raise e
  | inr [start; end_; step] => cpu_bound start end_ step
  | inr _ => raise (TypeError "cpu_bound()")
  end.

(** ** Code cell 7564be76, below the def *)

(** repr of a list of integers *)
Definition repr_list (xs : list Z) : string :=
  "[" +:+ String.concat ", " (map pretty xs) +:+ "]".

Fixpoint for_each {A B} (f : A → M F B) (xs : list A) : M F (list B) :=
  match xs with
  | [] => ret []
  | x :: xs' => y <- f x ;; ys <- for_each f xs' ;; ret (y :: ys)
  end.

Definition cell_7564be76_top : M F (list Z) :=
  start <- time_time ;;
  indices <- py_range 3 0 (-1) ;;
  results <- for_each (λ i, routine ("R" +:+ pretty i)) indices ;;
  print ("Results = " +:+ repr_list results) ;;;
  now <- time_time ;;
  print ("Elapsed time: " +:+ frepr (fround (fsub now start) 2)) ;;;
  ret results.

(** ** Code cell 0064bcd7 *)

Definition cell_0064bcd7_top : M F Z :=
  named_timer "Squares" cpu_bound_call (mkArgs _ [1; 10000000; 1] []).
End Snippets.

Arguments mkArgs {V} args kwargs.
Arguments args {V} c.
Arguments kwargs {V} c.

(** ** A clock to run the snippets with *)

(** An idealised clock: a reading is a whole number of hundredths of a
    second and differences are exact.  It has no negative zero, and where
    round is asked for fewer than two digits a tie goes to the even
    neighbour (on a binary float the side depends on the stored
    value). *)
Definition two_digits (r : Z) : string :=
  if r `mod` 10 =? 0 then pretty (r / 10)
  else pretty (r / 10) +:+ pretty (r `mod` 10).

(** [m] without its trailing zeros, for m > 0. *)
Fixpoint strip_zeros (fuel : nat) (m : Z) : Z :=
  match fuel with
  | O => m
  | S fuel' => if m `mod` 10 =? 0 then strip_zeros fuel' (m / 10) else m
  end.

(** 1.2345e+16 for 1234500000000000000 hundredths *)
Definition repr_exponent (a : Z) : string :=
  let digits := pretty (strip_zeros (String.length (pretty a)) a) in
  let exponent := Z.of_nat (String.length (pretty a)) - 3 in
  match digits with
  | EmptyString => EmptyString
  | String d EmptyString => String d ("e+" +:+ pretty exponent)
  | String d rest => String d ("." +:+ rest +:+ "e+" +:+ pretty exponent)
  end.

(** repr of a float that is [a] hundredths, a >= 0: positional below
    1e16, with an exponent from there on. *)
Definition repr_magnitude (a : Z) : string :=
  if a <? 10 ^ 18
  then pretty (a / 100) +:+ "." +:+ two_digits (a `mod` 100)
  else repr_exponent a.

Definition repr_hundredths (a : Z) : string :=
  if a <? 0 then "-" +:+ repr_magnitude (- a) else repr_magnitude a.

(** [a] to the nearest multiple of [unit], a tie going to the even
    multiple. *)
Definition round_half_even (a unit : Z) : Z :=
  let q := a / unit in
  let r := a `mod` unit in
  if 2 * r <? unit then unit * q
  else if unit <? 2 * r then unit * (q + 1)
  else if Z.even q then unit * q else unit * (q + 1).

Definition round_hundredths (a ndigits : Z) : Z :=
  if 2 <=? ndigits then a else round_half_even a (10 ^ (2 - ndigits)).

Global Instance Hundredths : PyFloat Z :=
  {| fsub a b := a - b; fround := round_hundredths; frepr := repr_hundredths |}.

(** A world in which the clock reads 0.00, 5.00, 10.00, ... and the draws
    of the generator give 1, 3, 1, 1, ... *)
Definition demo_world : world Z :=
  mkWorld (λ n, 500 * Z.of_nat n) 0
          (λ n, if Nat.eqb n 1 then 2 else 0) 0 [].

(** ** What the functions are compared with *)

(** The sum of num squared over the numbers of a list. *)
Definition sum_squares_over (nums : list Z) : Z :=
  fold_right (λ num acc, num * num + acc) 0 nums.

(** [num] is one of the numbers start, start + step, start + 2*step, ...
    that lie before [stop] in the direction of [step]. *)
Definition in_range (start stop step num : Z) : Prop :=
  ∃ k, 0 <= k ∧ num = start + k * step ∧
       if 0 <? step then num < stop else stop < num.

(** The range has no number at all. *)
Definition range_empty (start stop step : Z) : Prop :=
  if 0 <? step then stop <= start else start <= stop.


(** * The notebook as data

    The code cells are kept as syntax trees, in the shape of Python's own
    [ast] module and restricted to the constructs the cells use. *)

Set Warnings "-register-all".

Module Py.

Inductive binop := Pow | Sub.
Inductive cmpop := Eq.

Inductive expr :=
| EName (id : string)
| EInt (n : Z)
| EStr (s : string)
| EJoinedStr (values : list expr)            (* an f-string *)
| EFormattedValue (value : expr)             (* {value} inside it *)
| EAttribute (value : expr) (attr : string)
| ECall (func : expr) (args : list expr)
| EStarred (value : expr)                    (* *value in a call *)
| EKeyword (arg : option string) (value : expr)
                                             (* arg=value, or **value *)
| EAwait (value : expr)
| EList (elts : list expr)
| ETuple (elts : list expr)
| EListComp (elt : expr) (target : string) (iter : expr)
| EBinOp (left : expr) (op : binop) (right : expr)
| ECompare (left : expr) (op : cmpop) (right : expr)
| ESubscript (value : expr) (slice : expr).

Inductive param_kind := Positional | VarPositional | VarKeyword.

Record param := mkParam {
  p_name : string;
  p_kind : param_kind;
  p_annotation : option expr;
  p_default : option expr
}.

Inductive stmt :=
| SImport (name : string)
| SFunctionDef (is_async : bool) (name : string) (params : list param)
    (returns : option expr) (body : list stmt)
| SAssign (target : string) (value : expr)
| SAnnAssign (target : string) (annotation value : expr)
| SExpr (value : expr)
| SReturn (value : expr)
| SIf (test : expr) (body : list stmt)
| SFor (target : string) (iter : expr) (body : list stmt)
| SDelete (target : expr).

End Py.
Export Py.

(** What the notebook file records under a code cell. *)
Inductive output :=
| OStream (name : string) (text : list string)
| OError (ename evalue : string)
| OExecuteResult (text : string).

Record cell := mkCell {
  cell_id : string;
  execution_count : nat;
  source : list stmt;
  outputs : list output
}.

(** The line feed, for the string constants that hold one. *)
Definition nl : string := String (Ascii.ascii_of_nat 10) EmptyString.

Definition lines (ls : list string) : string := String.concat nl ls.

Module Cells.

(** Shorthands for the constructors that recur in the cells. *)
Definition N (id : string) : expr := EName id.
Definition attr (base a : string) : expr := EAttribute (EName base) a.
Definition fv (e : expr) : expr := EFormattedValue e.
Definition print_ (e : expr) : stmt := SExpr (ECall (EName "print") [e]).
Definition plain (name : string) : param := mkParam name Positional None None.
(** threading.Thread(target=..., args=...) *)
Definition thread_ (target a : expr) : expr :=
  ECall (attr "threading" "Thread")
    [EKeyword (Some "target") target; EKeyword (Some "args") a].
(** named_timer(name)(f) *)
Definition timed (name : string) (f : expr) : expr :=
  ECall (ECall (N "named_timer") [EStr name]) [f].

(** In[1] *)
Definition cell_516564ee : cell := mkCell "516564ee" 1
  [ SImport "asyncio"; SImport "inspect"; SImport "random"; SImport "sys";
    SImport "time"; SImport "threading"; SImport "typing" ]
  [].

(** In[2]: the first routine, run three times in sequence *)
Definition cell_7564be76 : cell := mkCell "7564be76" 2
  [ SFunctionDef false "routine"
      [ mkParam "name" Positional (Some (N "str")) None ] (Some (N "int"))
      [ SExpr (EStr (lines
          [ "A short description of the routine.";
            "    ";
            "    Parameters";
            "    ----------";
            "    name : str";
            "        the name of routine";
            EmptyString;
            "    Returns";
            "    -------";
            "    int";
            "        sleep_time ** 10";
            "    " ]));
        SAnnAssign "sleep_time" (N "int")
          (ECall (attr "random" "randint") [EInt 1; EInt 5]);
        print_ (EJoinedStr [fv (N "name"); EStr " is sleeping for ";
                            fv (N "sleep_time"); EStr " seconds."]);
        SExpr (ECall (attr "time" "sleep") [N "sleep_time"]);
        print_ (EJoinedStr [fv (N "name"); EStr " has woken up."]);
        SReturn (EBinOp (N "sleep_time") Pow (EInt 10)) ];
    SAssign "start" (ECall (attr "time" "time") []);
    SAssign "results"
      (EListComp (ECall (N "routine") [EJoinedStr [EStr "R"; fv (N "i")]])
         "i" (ECall (N "range") [EInt 3; EInt 0; EInt (-1)]));
    print_ (EJoinedStr [EStr "Results = "; fv (N "results")]);
    print_ (EJoinedStr
      [ EStr "Elapsed time: ";
        fv (ECall (N "round")
            [EBinOp (ECall (attr "time" "time") []) Sub (N "start"); EInt 2]) ]) ]
  [ OStream "stdout"
      [ "R3 is sleeping for 1 seconds."; "R3 has woken up.";
        "R2 is sleeping for 3 seconds."; "R2 has woken up.";
        "R1 is sleeping for 1 seconds."; "R1 has woken up.";
        "Results = [1, 59049, 1]"; "Elapsed time: 5.0" ] ].

(** In[3]: reference counts *)
Definition cell_e1bcdd45 : cell := mkCell "e1bcdd45" 3
  [ SAssign "obj" (ECall (N "object") []);
    SAssign "lst" (EList []);
    print_ (EStr "Empty structures");
    print_ (EJoinedStr [EStr "obj: refcount = ";
                        fv (ECall (attr "sys" "getrefcount") [N "obj"])]);
    print_ (EJoinedStr [EStr "lst: refcount = ";
                        fv (ECall (attr "sys" "getrefcount") [N "lst"]); EStr nl]);
    SExpr (ECall (attr "lst" "append") [N "obj"]);
    print_ (EStr "lst.append(obj)");
    print_ (EJoinedStr [EStr "lst: refcount = ";
                        fv (ECall (attr "sys" "getrefcount") [N "lst"])]);
    print_ (EJoinedStr [EStr "obj: refcount = ";
                        fv (ECall (attr "sys" "getrefcount") [N "obj"]); EStr nl]);
    SDelete (ESubscript (N "lst") (EInt 0));
    print_ (EJoinedStr [EStr "del lst[0]: refcount = ";
                        fv (ECall (attr "sys" "getrefcount") [N "lst"])]) ]
  [ OStream "stdout"
      [ "Empty structures"; "obj: refcount = 2"; "lst: refcount = 2"; EmptyString;
        "lst.append(obj)"; "lst: refcount = 2"; "obj: refcount = 3"; EmptyString;
        "del lst[0]: refcount = 2" ] ].

(** In[4]: the timing decorator and the two workloads *)
Definition cell_b75bba9d : cell := mkCell "b75bba9d" 4
  [ SFunctionDef false "named_timer"
      [ mkParam "name" Positional (Some (N "str")) (Some (EStr "func")) ] None
      [ SFunctionDef false "timer"
          [ mkParam "func" Positional (Some (attr "typing" "Callable")) None ] None
          [ SFunctionDef false "wrapper"
              [ mkParam "args" VarPositional None None;
                mkParam "kwargs" VarKeyword None None ] None
              [ SAssign "start" (ECall (attr "time" "time") []);
                SAssign "res"
                  (ECall (N "func") [EStarred (N "args");
                                     EKeyword None (N "kwargs")]);
                SAssign "end"
                  (ECall (N "round")
                     [EBinOp (ECall (attr "time" "time") []) Sub (N "start");
                      EInt 2]);
                print_ (EJoinedStr [fv (N "name"); EStr " elapsed time: ";
                                    fv (N "end")]);
                SReturn (N "res") ];
            SReturn (N "wrapper") ];
        SReturn (N "timer") ];
    SFunctionDef false "cpu_bound"
      [ mkParam "start" Positional (Some (N "int")) None;
        mkParam "end" Positional (Some (N "int")) None;
        mkParam "step" Positional (Some (N "int")) None ] None
      [ SReturn (ECall (N "sum")
          [EListComp (EBinOp (N "num") Pow (EInt 2)) "num"
             (ECall (N "range") [N "start"; N "end"; N "step"])]) ];
    SFunctionDef false "io_bound" [ plain "sleep_time" ] None
      [ SExpr (ECall (attr "time" "sleep") [N "sleep_time"]) ] ]
  [].

(** In[5]: CPU-bound work performed sequentially *)
Definition cell_0064bcd7 : cell := mkCell "0064bcd7" 5
  [ SExpr (ECall (timed "Squares" (N "cpu_bound"))
             [EInt 1; EInt 10000000; EInt 1]) ]
  [ OStream "stdout" [ "Squares elapsed time: 3.01" ];
    OExecuteResult "333333283333335000000" ].

(** In[6]: threads for the CPU-bound work *)
Definition cell_2b82c36f : cell := mkCell "2b82c36f" 6
  [ SAssign "t1" (thread_ (timed "T1" (N "cpu_bound"))
                          (ETuple [EInt 1; EInt 100000; EInt 1]));
    SAssign "t2" (thread_ (timed "T2" (N "cpu_bound"))
                          (ETuple [EInt 100000; EInt 10000000; EInt 1]));
    SAssign "start" (ECall (attr "time" "time") []);
    SExpr (ECall (attr "t1" "start") []);
    SExpr (ECall (attr "t2" "start") []);
    SExpr (ECall (attr "t1" "join") []);
    SExpr (ECall (attr "t2" "join") []);
    print_ (EJoinedStr [EStr "CPU-bound work time: ";
                        fv (EBinOp (ECall (attr "time" "time") []) Sub (N "start"))]) ]
  [ OStream "stdout"
      [ "T1 elapsed time: 0.06"; "T2 elapsed time: 3.23";
        "CPU-bound work time: 3.239287853240967" ] ].

(** In[7]: I/O-bound work performed sequentially *)
Definition cell_03aa4871 : cell := mkCell "03aa4871" 7
  [ SAssign "start" (ECall (attr "time" "time") []);
    SExpr (ECall (timed "Sleepy_1" (N "io_bound")) [EInt 1]);
    SExpr (ECall (timed "Sleepy_2" (N "io_bound")) [EInt 2]);
    print_ (EJoinedStr [EStr "I/O-bound work time: ";
                        fv (EBinOp (ECall (attr "time" "time") []) Sub (N "start"))]) ]
  [ OStream "stdout"
      [ "Sleepy_1 elapsed time: 1.0"; "Sleepy_2 elapsed time: 2.0";
        "I/O-bound work time: 3.0023934841156006" ] ].

(** In[8]: threads for the I/O-bound work *)
Definition cell_5d21eed4 : cell := mkCell "5d21eed4" 8
  [ SAssign "t1" (thread_ (timed "T1" (N "io_bound")) (ETuple [EInt 1]));
    SAssign "t2" (thread_ (timed "T2" (N "io_bound")) (ETuple [EInt 2]));
    SAssign "start" (ECall (attr "time" "time") []);
    SExpr (ECall (attr "t1" "start") []);
    SExpr (ECall (attr "t2" "start") []);
    SExpr (ECall (attr "t1" "join") []);
    SExpr (ECall (attr "t2" "join") []);
    print_ (EJoinedStr [EStr "I/O-bound work time: ";
                        fv (EBinOp (ECall (attr "time" "time") []) Sub (N "start"))]) ]
  [ OStream "stdout"
      [ "T1 elapsed time: 1.0"; "T2 elapsed time: 2.0";
        "I/O-bound work time: 2.003573179244995" ] ].

(** In[9]: refactored threading, start and join in one loop *)
Definition cell_03c13abf : cell := mkCell "03c13abf" 9
  [ SAssign "threads"
      (EList [ thread_ (timed "T1_imp" (N "io_bound")) (ETuple [EInt 1]);
               thread_ (timed "T2_imp" (N "io_bound")) (ETuple [EInt 2]) ]);
    SAssign "start" (ECall (attr "time" "time") []);
    SFor "thread" (N "threads")
      [ SExpr (ECall (attr "thread" "start") []);
        SExpr (ECall (attr "thread" "join") []) ];
    print_ (EJoinedStr [EStr "I/O-bound improved (?) work time: ";
                        fv (EBinOp (ECall (attr "time" "time") []) Sub (N "start"))]) ]
  [ OStream "stdout"
      [ "T1_imp elapsed time: 1.0"; "T2_imp elapsed time: 2.0";
        "I/O-bound improved (?) work time: 3.0038859844207764" ] ].

(** In[10]: re-refactored threading, two loops *)
Definition cell_80ca7b74 : cell := mkCell "80ca7b74" 10
  [ SAssign "threads"
      (EList [ thread_ (timed "T1_imp" (N "io_bound")) (ETuple [EInt 1]);
               thread_ (timed "T2_imp" (N "io_bound")) (ETuple [EInt 2]) ]);
    SAssign "start" (ECall (attr "time" "time") []);
    SFor "thread" (N "threads") [ SExpr (ECall (attr "thread" "start") []) ];
    SFor "thread" (N "threads") [ SExpr (ECall (attr "thread" "join") []) ];
    print_ (EJoinedStr [EStr "I/O-bound improved (!) work time: ";
                        fv (EBinOp (ECall (attr "time" "time") []) Sub (N "start"))]) ]
  [ OStream "stdout"
      [ "T1_imp elapsed time: 1.0"; "T2_imp elapsed time: 2.0";
        "I/O-bound improved (!) work time: 2.0030434131622314" ] ].

(** In[11]: the second routine *)
Definition cell_c1984ac3 : cell := mkCell "c1984ac3" 11
  [ SFunctionDef false "routine"
      [ mkParam "sleep_time" Positional (Some (N "int")) (Some (EInt 1)) ]
      (Some (N "str"))
      [ print_ (EJoinedStr [EStr "Coroutine is sleeping for ";
                            fv (N "sleep_time"); EStr " second[s]."]);
        SExpr (ECall (attr "time" "sleep") [N "sleep_time"]);
        SReturn (EStr "hello, routine.") ];
    print_ (EJoinedStr [EStr "Is routine? ";
                        fv (ECall (attr "inspect" "isroutine") [N "routine"])]);
    SAssign "ro_res" (ECall (N "routine") []);
    print_ (EJoinedStr [EStr "Routine called = "; fv (N "ro_res")]) ]
  [ OStream "stdout"
      [ "Is routine? True"; "Coroutine is sleeping for 1 second[s].";
        "Routine called = hello, routine." ] ].

(** In[12]: a coroutine function, called and awaited *)
Definition cell_614beb1a : cell := mkCell "614beb1a" 12
  [ SFunctionDef true "coroutine"
      [ mkParam "sleep_time" Positional (Some (N "int")) (Some (EInt 1)) ]
      (Some (N "str"))
      [ print_ (EJoinedStr [EStr "Coroutine is sleeping for ";
                            fv (N "sleep_time"); EStr " second[s]."]);
        SExpr (EAwait (ECall (attr "asyncio" "sleep") [N "sleep_time"]));
        SReturn (EStr "Hello, coroutine.") ];
    print_ (EJoinedStr [EStr "Is coroutine? ";
                        fv (ECall (attr "inspect" "iscoroutine") [N "coroutine"])]);
    SAssign "coro_called" (ECall (N "coroutine") []);
    print_ (EJoinedStr [EStr "Coroutine called = "; fv (N "coro_called")]);
    SAssign "coro_awaited" (EAwait (N "coro_called"));
    print_ (EJoinedStr [EStr "Coroutine awaited = "; fv (N "coro_awaited")]) ]
  [ OStream "stdout"
      [ "Is coroutine? False";
        "Coroutine called = <coroutine object coroutine at 0x7f8d0920e340>";
        "Coroutine is sleeping for 1 second[s].";
        "Coroutine awaited = Hello, coroutine." ] ].

(** In[13]: a coroutine called and not awaited *)
Definition cell_c32f87c9 : cell := mkCell "c32f87c9" 13
  [ SFunctionDef true "f" [] None
      [ SExpr (EAwait (ECall (attr "asyncio" "sleep") [EInt 1])) ];
    SExpr (ECall (N "f") []);
    SExpr (EAwait (ECall (N "f") [])) ]
  [ OStream "stderr"
      [ "/tmp/ipykernel_17164/3514431137.py:5: RuntimeWarning: coroutine 'f' was never awaited";
        "  f()";
        "RuntimeWarning: Enable tracemalloc to get the object allocation traceback" ] ].

(** In[14]: await inside an ordinary def *)
Definition cell_47ecebca : cell := mkCell "47ecebca" 14
  [ SFunctionDef false "error_routine" [] None
      [ SExpr (EStr "await is allowed only in async functions (coroutines).");
        SExpr (EAwait (ECall (attr "asyncio" "sleep") [EInt 1])) ] ]
  [ OError "SyntaxError"
      "'await' outside async function (1940803628.py, line 3)" ].

(** In[15] *)
Definition cell_c8699244 : cell := mkCell "c8699244" 15
  [ SFunctionDef true "main" [] None
      [ print_ (ECall (N "routine") []);
        print_ (EAwait (ECall (N "coroutine") [])) ] ]
  [].

(** In[16] *)
Definition cell_12aadf65 : cell := mkCell "12aadf65" 16
  [ SIf (ECompare (N "__name__") Eq (EStr "__main__"))
      [ SExpr (ECall (attr "asyncio" "run") [ECall (N "main") []]) ] ]
  [ OError "RuntimeError"
      "asyncio.run() cannot be called from a running event loop" ].

(** In[17] *)
Definition cell_a0c7de1b : cell := mkCell "a0c7de1b" 17
  [ SExpr (EAwait (ECall (N "main") [])) ]
  [ OStream "stdout"
      [ "Coroutine is sleeping for 1 second[s]."; "hello, routine.";
        "Coroutine is sleeping for 1 second[s]."; "Hello, coroutine." ] ].

End Cells.
Export Cells.

(** The code cells, top to bottom. *)
Definition notebook : list cell :=
  [ cell_516564ee; cell_7564be76; cell_e1bcdd45; cell_b75bba9d;
    cell_0064bcd7; cell_2b82c36f; cell_03aa4871; cell_5d21eed4;
    cell_03c13abf; cell_80ca7b74; cell_c1984ac3; cell_614beb1a;
    cell_c32f87c9; cell_47ecebca; cell_c8699244; cell_12aadf65;
    cell_a0c7de1b ].

(** * Names: what a piece of code looks up and what it binds *)

Module Names.

(** The names an expression looks up, in evaluation order.  The target of
    a comprehension is local to it. *)
Fixpoint expr_loads (e : expr) : list string :=
  match e with
  | EName x => [x]
  | EInt _ | EStr _ => []
  | EJoinedStr vs => flat_map expr_loads vs
  | EFormattedValue v => expr_loads v
  | EAttribute v _ => expr_loads v
  | ECall f a => expr_loads f ++ flat_map expr_loads a
  | EStarred v => expr_loads v
  | EKeyword _ v => expr_loads v
  | EAwait v => expr_loads v
  | EList es => flat_map expr_loads es
  | ETuple es => flat_map expr_loads es
  | EListComp elt x it =>
      expr_loads it ++ filter (λ y, y ≠ x) (expr_loads elt)
  | EBinOp l _ r => expr_loads l ++ expr_loads r
  | ECompare l _ r => expr_loads l ++ expr_loads r
  | ESubscript v s => expr_loads v ++ expr_loads s
  end.

Definition opt_loads (o : option expr) : list string :=
  match o with Some e => expr_loads e | None => [] end.

(** A def evaluates its defaults and its annotations where it stands. *)
Definition params_loads (ps : list param) : list string :=
  flat_map (λ p, opt_loads (p_default p)) ps
  ++ flat_map (λ p, opt_loads (p_annotation p)) ps.

(** The names a statement binds in the scope it runs in. *)
Fixpoint stmt_binds (s : stmt) : list string :=
  match s with
  | SImport m => [m]
  | SFunctionDef _ n _ _ _ => [n]
  | SAssign x _ => [x]
  | SAnnAssign x _ _ => [x]
  | SFor x _ body => x :: flat_map stmt_binds body
  | SIf _ body => flat_map stmt_binds body
  | SExpr _ | SReturn _ | SDelete _ => []
  end.

(** The names local to a function: its parameters and whatever its body
    binds. *)
Definition def_locals (ps : list param) (body : list stmt) : list string :=
  map p_name ps ++ flat_map stmt_binds body.

(** The names a statement refers to outside itself: what it looks up when
    it runs, and what the bodies of the functions it defines look up when
    they are called, locals apart.  In a function body the annotation of
    a variable is not evaluated. *)
Fixpoint stmt_free (in_def : bool) (s : stmt) : list string :=
  match s with
  | SImport _ => []
  | SFunctionDef _ _ ps r body =>
      params_loads ps ++ opt_loads r
      ++ filter (λ x, x ∉ def_locals ps body)
           (flat_map (stmt_free true) body)
  | SAssign _ v => expr_loads v
  | SAnnAssign _ a v =>
      expr_loads v ++ (if in_def then [] else expr_loads a)
  | SExpr v => expr_loads v
  | SReturn v => expr_loads v
  | SIf t body => expr_loads t ++ flat_map (stmt_free in_def) body
  | SFor _ it body => expr_loads it ++ flat_map (stmt_free in_def) body
  | SDelete t => expr_loads t
  end.

(** The global names the body of a def needs when it is called. *)
Definition def_needs (ps : list param) (body : list stmt) : list string :=
  filter (λ x, x ∉ def_locals ps body) (flat_map (stmt_free true) body).

(** The global names a cell refers to, and the ones it binds. *)
Definition cell_refers (c : cell) : list string :=
  flat_map (stmt_free false) (source c).

Definition cell_binds (c : cell) : list string :=
  flat_map stmt_binds (source c).

(** ** Attributes and imports *)

(** Every base.attr the expression mentions with a plain name as base. *)
Fixpoint expr_attrs (e : expr) : list (string * string) :=
  match e with
  | EName _ | EInt _ | EStr _ => []
  | EJoinedStr vs => flat_map expr_attrs vs
  | EFormattedValue v => expr_attrs v
  | EAttribute (EName b) a => [(b, a)]
  | EAttribute v _ => expr_attrs v
  | ECall f a => expr_attrs f ++ flat_map expr_attrs a
  | EStarred v => expr_attrs v
  | EKeyword _ v => expr_attrs v
  | EAwait v => expr_attrs v
  | EList es => flat_map expr_attrs es
  | ETuple es => flat_map expr_attrs es
  | EListComp elt _ it => expr_attrs it ++ expr_attrs elt
  | EBinOp l _ r => expr_attrs l ++ expr_attrs r
  | ECompare l _ r => expr_attrs l ++ expr_attrs r
  | ESubscript v s => expr_attrs v ++ expr_attrs s
  end.

(** Any attribute access whose base is not a plain name. *)
Fixpoint expr_deep_attrs (e : expr) : list string :=
  match e with
  | EName _ | EInt _ | EStr _ => []
  | EJoinedStr vs => flat_map expr_deep_attrs vs
  | EFormattedValue v => expr_deep_attrs v
  | EAttribute (EName _) _ => []
  | EAttribute v a => a :: expr_deep_attrs v
  | ECall f a => expr_deep_attrs f ++ flat_map expr_deep_attrs a
  | EStarred v => expr_deep_attrs v
  | EKeyword _ v => expr_deep_attrs v
  | EAwait v => expr_deep_attrs v
  | EList es => flat_map expr_deep_attrs es
  | ETuple es => flat_map expr_deep_attrs es
  | EListComp elt _ it => expr_deep_attrs it ++ expr_deep_attrs elt
  | EBinOp l _ r => expr_deep_attrs l ++ expr_deep_attrs r
  | ECompare l _ r => expr_deep_attrs l ++ expr_deep_attrs r
  | ESubscript v s => expr_deep_attrs v ++ expr_deep_attrs s
  end.

(** The expressions of a statement, those of nested bodies included. *)
Fixpoint stmt_exprs (s : stmt) : list expr :=
  match s with
  | SImport _ => []
  | SFunctionDef _ _ ps r body =>
      flat_map (λ p, option_list (p_default p) ++ option_list (p_annotation p)) ps
      ++ option_list r ++ flat_map stmt_exprs body
  | SAssign _ v => [v]
  | SAnnAssign _ a v => [a; v]
  | SExpr v => [v]
  | SReturn v => [v]
  | SIf t body => t :: flat_map stmt_exprs body
  | SFor _ it body => it :: flat_map stmt_exprs body
  | SDelete t => [t]
  end.

(** The modules a statement imports, anywhere inside it. *)
Fixpoint stmt_imports (s : stmt) : list string :=
  match s with
  | SImport m => [m]
  | SFunctionDef _ _ _ _ body => flat_map stmt_imports body
  | SIf _ body => flat_map stmt_imports body
  | SFor _ _ body => flat_map stmt_imports body
  | _ => []
  end.

(** The functions a statement defines, nested ones included, with their
    kind: true for async def. *)
Fixpoint stmt_defs (s : stmt) : list (string * bool) :=
  match s with
  | SFunctionDef a n _ _ body => (n, a) :: flat_map stmt_defs body
  | SIf _ body => flat_map stmt_defs body
  | SFor _ _ body => flat_map stmt_defs body
  | _ => []
  end.

(** The local names of the functions a statement defines, nested ones
    included. *)
Fixpoint stmt_locals (s : stmt) : list string :=
  match s with
  | SFunctionDef _ _ ps _ body =>
      def_locals ps body ++ flat_map stmt_locals body
  | SIf _ body => flat_map stmt_locals body
  | SFor _ _ body => flat_map stmt_locals body
  | _ => []
  end.

Definition cell_exprs (c : cell) : list expr := flat_map stmt_exprs (source c).
Definition cell_attrs (c : cell) : list (string * string) :=
  flat_map expr_attrs (cell_exprs c).
Definition cell_imports (c : cell) : list string :=
  flat_map stmt_imports (source c).
Definition cell_defs (c : cell) : list (string * bool) :=
  flat_map stmt_defs (source c).

(** Every name the cell mentions in an expression, local or not. *)
Fixpoint expr_names (e : expr) : list string :=
  match e with
  | EName x => [x]
  | EInt _ | EStr _ => []
  | EJoinedStr vs => flat_map expr_names vs
  | EFormattedValue v => expr_names v
  | EAttribute v _ => expr_names v
  | ECall f a => expr_names f ++ flat_map expr_names a
  | EStarred v => expr_names v
  | EKeyword _ v => expr_names v
  | EAwait v => expr_names v
  | EList es => flat_map expr_names es
  | ETuple es => flat_map expr_names es
  | EListComp elt _ it => expr_names it ++ expr_names elt
  | EBinOp l _ r => expr_names l ++ expr_names r
  | ECompare l _ r => expr_names l ++ expr_names r
  | ESubscript v s => expr_names v ++ expr_names s
  end.

End Names.
Export Names.

(** * The Python the cells run on *)

(** The top-level modules of the Python 3.10 standard library (the public
    names of [sys.stdlib_module_names]). *)
Definition stdlib_module_names : list string :=
  [ "__future__"; "abc"; "aifc"; "argparse"; "array"; "ast"; "asynchat";
    "asyncio"; "asyncore"; "atexit"; "audioop"; "base64"; "bdb"; "binascii";
    "binhex"; "bisect"; "builtins"; "bz2"; "cProfile"; "calendar"; "cgi";
    "cgitb"; "chunk"; "cmath"; "cmd"; "code"; "codecs"; "codeop";
    "collections"; "colorsys"; "compileall"; "concurrent"; "configparser";
    "contextlib"; "contextvars"; "copy"; "copyreg"; "crypt"; "csv"; "ctypes";
    "curses"; "dataclasses"; "datetime"; "dbm"; "decimal"; "difflib"; "dis";
    "distutils"; "doctest"; "email"; "encodings"; "ensurepip"; "enum";
    "errno"; "faulthandler"; "fcntl"; "filecmp"; "fileinput"; "fnmatch";
    "fractions"; "ftplib"; "functools"; "gc"; "getopt"; "getpass"; "gettext";
    "glob"; "graphlib"; "grp"; "gzip"; "hashlib"; "heapq"; "hmac"; "html";
    "http"; "idlelib"; "imaplib"; "imghdr"; "imp"; "importlib"; "inspect";
    "io"; "ipaddress"; "itertools"; "json"; "keyword"; "lib2to3";
    "linecache"; "locale"; "logging"; "lzma"; "mailbox"; "mailcap";
    "marshal"; "math"; "mimetypes"; "mmap"; "modulefinder"; "msilib";
    "msvcrt"; "multiprocessing"; "netrc"; "nis"; "nntplib"; "ntpath";
    "nturl2path"; "numbers"; "opcode"; "operator"; "optparse"; "os";
    "ossaudiodev"; "pathlib"; "pdb"; "pickle"; "pickletools"; "pipes";
    "pkgutil"; "platform"; "plistlib"; "poplib"; "posix"; "posixpath";
    "pprint"; "profile"; "pstats"; "pty"; "pwd"; "py_compile"; "pyclbr";
    "pydoc"; "queue"; "quopri"; "random"; "re"; "readline"; "reprlib";
    "resource"; "rlcompleter"; "runpy"; "sched"; "secrets"; "select";
    "selectors"; "shelve"; "shlex"; "shutil"; "signal"; "site"; "smtpd";
    "smtplib"; "sndhdr"; "socket"; "socketserver"; "spwd"; "sqlite3";
    "sre_compile"; "sre_constants"; "sre_parse"; "ssl"; "stat";
    "statistics"; "string"; "stringprep"; "struct"; "subprocess"; "sunau";
    "symtable"; "sys"; "sysconfig"; "syslog"; "tabnanny"; "tarfile";
    "telnetlib"; "tempfile"; "termios"; "textwrap"; "this"; "threading";
    "time"; "timeit"; "tkinter"; "token"; "tokenize"; "trace"; "traceback";
    "tracemalloc"; "tty"; "turtle"; "turtledemo"; "types"; "typing";
    "unicodedata"; "unittest"; "urllib"; "uu"; "uuid"; "venv"; "warnings";
    "wave"; "weakref"; "webbrowser"; "winreg"; "winsound"; "wsgiref";
    "xdrlib"; "xml"; "xmlrpc"; "zipapp"; "zipfile"; "zipimport"; "zlib";
    "zoneinfo" ].

(** What calling or reading a primitive does besides computing. *)
Inductive effect :=
| Pure            (* computes from, or inspects, the objects it is given *)
| Stdout          (* writes text to standard output *)
| Stderr          (* writes text to standard error *)
| Stdin           (* reads standard input *)
| Clock           (* reads the clock *)
| Delay           (* suspends the caller for a while *)
| Random          (* draws from the random generator *)
| Thread          (* creates, starts or waits for a thread *)
| EventLoop       (* runs the standard event loop *)
| Schedule        (* places work on a scheduler by hand *)
| Cancel          (* cancels or times out work *)
| Sync            (* guards a shared resource *)
| Argv            (* reads the command line *)
| Environ         (* reads the environment variables *)
| FileRead
| FileWrite
| Network
| Process         (* starts or ends a process *)
| Dynamic.        (* runs code or imports given at run time *)

Global Instance effect_eq_dec : EqDecision effect.
Proof. solve_decision. Defined.

(** The builtin functions of Python 3.10 together with the exceptions a
    snippet could name, with what each does. *)
Definition builtins : list (string * effect) :=
  [ ("abs", Pure); ("aiter", Pure); ("all", Pure); ("anext", Pure);
    ("any", Pure); ("ascii", Pure); ("bin", Pure); ("bool", Pure);
    ("breakpoint", Stdin); ("bytearray", Pure); ("bytes", Pure);
    ("callable", Pure); ("chr", Pure); ("classmethod", Pure);
    ("compile", Dynamic); ("complex", Pure); ("delattr", Pure);
    ("dict", Pure); ("dir", Pure); ("divmod", Pure); ("enumerate", Pure);
    ("eval", Dynamic); ("exec", Dynamic); ("filter", Pure); ("float", Pure);
    ("format", Pure); ("frozenset", Pure); ("getattr", Pure);
    ("globals", Pure); ("hasattr", Pure); ("hash", Pure); ("help", Stdin);
    ("hex", Pure); ("id", Pure); ("input", Stdin); ("int", Pure);
    ("isinstance", Pure); ("issubclass", Pure); ("iter", Pure); ("len", Pure);
    ("list", Pure); ("locals", Pure); ("map", Pure); ("max", Pure);
    ("memoryview", Pure); ("min", Pure); ("next", Pure); ("object", Pure);
    ("oct", Pure); ("open", FileRead); ("ord", Pure); ("pow", Pure);
    ("print", Stdout); ("property", Pure); ("range", Pure); ("repr", Pure);
    ("reversed", Pure); ("round", Pure); ("set", Pure); ("setattr", Pure);
    ("slice", Pure); ("sorted", Pure); ("staticmethod", Pure); ("str", Pure);
    ("sum", Pure); ("super", Pure); ("tuple", Pure); ("type", Pure);
    ("vars", Pure); ("zip", Pure); ("__import__", Dynamic);
    ("BaseException", Pure); ("Exception", Pure); ("ArithmeticError", Pure);
    ("AssertionError", Pure); ("AttributeError", Pure); ("EOFError", Pure);
    ("ImportError", Pure); ("IndexError", Pure); ("KeyError", Pure);
    ("KeyboardInterrupt", Pure); ("LookupError", Pure);
    ("ModuleNotFoundError", Pure); ("NameError", Pure);
    ("NotImplementedError", Pure); ("OSError", Pure);
    ("OverflowError", Pure); ("RuntimeError", Pure);
    ("RuntimeWarning", Pure); ("StopIteration", Pure);
    ("SyntaxError", Pure); ("TimeoutError", Pure); ("TypeError", Pure);
    ("ValueError", Pure); ("ZeroDivisionError", Pure) ].

Definition builtin_names : list string := map fst builtins.

(** What the seven modules the notebook imports offer, as far as this
    development knows them. *)
Definition primitives : list (string * string * effect) :=
  [ ("asyncio", "sleep", Delay); ("asyncio", "run", EventLoop);
    ("asyncio", "get_event_loop", Schedule);
    ("asyncio", "new_event_loop", Schedule);
    ("asyncio", "set_event_loop_policy", Schedule);
    ("asyncio", "create_task", Schedule); ("asyncio", "ensure_future", Schedule);
    ("asyncio", "gather", Schedule); ("asyncio", "wait", Schedule);
    ("asyncio", "as_completed", Schedule); ("asyncio", "to_thread", Schedule);
    ("asyncio", "wait_for", Cancel); ("asyncio", "shield", Cancel);
    ("asyncio", "CancelledError", Cancel); ("asyncio", "TimeoutError", Cancel);
    ("asyncio", "Lock", Sync); ("asyncio", "Event", Sync);
    ("asyncio", "Condition", Sync); ("asyncio", "Semaphore", Sync);
    ("asyncio", "BoundedSemaphore", Sync); ("asyncio", "Queue", Sync);
    ("asyncio", "open_connection", Network);
    ("asyncio", "start_server", Network);
    ("asyncio", "create_subprocess_exec", Process);
    ("asyncio", "create_subprocess_shell", Process);
    ("inspect", "isroutine", Pure); ("inspect", "iscoroutine", Pure);
    ("inspect", "iscoroutinefunction", Pure); ("inspect", "isfunction", Pure);
    ("inspect", "isawaitable", Pure); ("inspect", "signature", Pure);
    ("inspect", "getsource", FileRead); ("inspect", "getfile", Pure);
    ("random", "randint", Random); ("random", "random", Random);
    ("random", "randrange", Random); ("random", "choice", Random);
    ("random", "shuffle", Random); ("random", "uniform", Random);
    ("random", "seed", Random);
    ("sys", "getrefcount", Pure); ("sys", "getsizeof", Pure);
    ("sys", "version", Pure); ("sys", "version_info", Pure);
    ("sys", "argv", Argv); ("sys", "stdin", Stdin); ("sys", "stdout", Stdout);
    ("sys", "stderr", Stderr); ("sys", "exit", Process);
    ("sys", "path", FileRead); ("sys", "modules", Dynamic);
    ("time", "time", Clock); ("time", "monotonic", Clock);
    ("time", "perf_counter", Clock); ("time", "process_time", Clock);
    ("time", "sleep", Delay);
    ("threading", "Thread", Thread); ("threading", "Timer", Schedule);
    ("threading", "current_thread", Pure); ("threading", "active_count", Pure);
    ("threading", "Lock", Sync); ("threading", "RLock", Sync);
    ("threading", "Semaphore", Sync); ("threading", "BoundedSemaphore", Sync);
    ("threading", "Event", Sync); ("threading", "Condition", Sync);
    ("threading", "Barrier", Sync);
    ("typing", "Callable", Pure); ("typing", "Any", Pure);
    ("typing", "Optional", Pure); ("typing", "Union", Pure);
    ("typing", "Awaitable", Pure); ("typing", "Coroutine", Pure) ].

(** Methods of the objects the primitives hand out. *)
Definition methods : list (string * effect) :=
  [ ("append", Pure); ("extend", Pure); ("pop", Pure);
    ("start", Thread); ("join", Thread); ("is_alive", Pure);
    ("cancel", Cancel); ("cancelled", Cancel);
    ("acquire", Sync); ("release", Sync); ("locked", Sync);
    ("wait", Sync); ("notify", Sync); ("notify_all", Sync); ("set", Sync);
    ("put", Sync); ("get", Sync);
    ("call_soon", Schedule); ("call_later", Schedule);
    ("run_until_complete", Schedule); ("run_forever", Schedule);
    ("run_in_executor", Schedule); ("create_task", Schedule);
    ("add_done_callback", Schedule);
    ("read", FileRead); ("readline", FileRead); ("readlines", FileRead);
    ("write", FileWrite); ("writelines", FileWrite); ("flush", FileWrite);
    ("close", FileWrite) ].

Definition assoc {A} (key : string) (table : list (string * A)) : option A :=
  snd <$> List.find (λ kv, bool_decide (fst kv = key)) table.

Definition primitive_effect (m a : string) : option effect :=
  snd <$> List.find (λ e, bool_decide (fst e = (m, a))) primitives.

(** * Running cells in a kernel

    The kernel keeps one namespace of globals for the whole session.  A
    cell is compiled, then its statements run in order against that
    namespace.  Values are followed only as far as names, calls and awaits
    need: a module, a stdlib primitive, a function of the notebook with
    the globals its body needs, a coroutine object, a string or a truth
    value; anything else is an object.  The body of a loop or of a
    comprehension is entered once.  Looking up a function of the notebook
    also checks that the globals its body needs are bound by then. *)

Module Kernel.

Inductive aval :=
| AModule (name : string)
| APrimitive (module attr : string)
| AFunction (is_async : bool) (name : string) (needs : list string)
| ACoroutine (callee : string)
| AStr (s : string)
| ABool (b : bool)
| AObject.

(** Who made a binding: the kernel at start-up, or the cell at a position
    of the notebook (from 0). *)
Inductive origin := FromKernel | FromCell (i : nat).

Global Instance origin_eq_dec : EqDecision origin.
Proof. solve_decision. Defined.

Record binding := mkBinding { b_value : aval; b_origin : origin }.

Inductive kevent :=
| Read (reader : nat) (name : string) (from : origin)
| Needs (holder : nat) (function name : string) (from : origin)
| ReadBuiltin (reader : nat) (name : string)
| Bound (by_cell : nat) (name : string) (over : option origin)
| Warned (by_cell : nat) (message : string).

Record kernel := mkKernel {
  globals : gmap string binding;
  loop_running : bool;     (* an event loop is running already *)
  autoawait : bool;        (* await is accepted at the top level of a cell *)
  klog : list kevent       (* what happened, oldest first *)
}.

Inductive failure :=
| PyError (ename evalue : string)
| Unresolved (function name : string)
| Unsupported (what : string).

Definition K (A : Type) : Type := kernel → (failure + A) * kernel.

Definition kret {A} (a : A) : K A := λ k, (inr a, k).
Definition kfail {A} (f : failure) : K A := λ k, (inl f, k).
Definition kbind {A B} (m : K A) (f : A → K B) : K B := λ k,
  match m k with
  | (inr a, k') => f a k'
  | (inl e, k') => (inl e, k')
  end.
Definition kthen {A B} (m : K A) (n : K B) : K B := kbind m (λ _, n).

Definition record (ev : kevent) : K unit := λ k,
  (inr tt, mkKernel (globals k) (loop_running k) (autoawait k) (klog k ++ [ev])).

Definition bind_global (i : nat) (x : string) (v : aval) : K unit := λ k,
  (inr tt,
   mkKernel (<[x := mkBinding v (FromCell i)]> (globals k))
     (loop_running k) (autoawait k)
     (klog k ++ [Bound i x (b_origin <$> globals k !! x)])).

Definition unbind_global (x : string) : K unit := λ k,
  match globals k !! x with
  | Some _ =>
      (inr tt, mkKernel (delete x (globals k)) (loop_running k) (autoawait k)
                 (klog k))
  | None => (inl (PyError "NameError" ("name '" +:+ x +:+ "' is not defined")), k)
  end.

Inductive resolution := Resolved | Missing (name : string) | TooDeep.

(** Are the names bound, and the globals needed by the functions among
    them, and so on?  [seen] holds the functions already entered. *)
Fixpoint resolve (fuel : nat) (g : gmap string binding) (seen : list string)
    (names : list string) : resolution :=
  match fuel with
  | O => TooDeep
  | S fuel' =>
      (fix go (ns : list string) : resolution :=
         match ns with
         | [] => Resolved
         | n :: ns' =>
             match g !! n with
             | Some (mkBinding (AFunction _ fn needs) _) =>
                 if decide (fn ∈ seen) then go ns'
                 else match resolve fuel' g (fn :: seen) needs with
                      | Resolved => go ns'
                      | r => r
                      end
             | Some _ => go ns'
             | None => if decide (n ∈ builtin_names) then go ns' else Missing n
             end
         end) names
  end.

(** The global bindings those names, and the functions among them, stand
    for. *)
Fixpoint needed (fuel : nat) (g : gmap string binding) (seen : list string)
    (names : list string) : list (string * origin) :=
  match fuel with
  | O => []
  | S fuel' =>
      (fix go (ns : list string) : list (string * origin) :=
         match ns with
         | [] => []
         | n :: ns' =>
             match g !! n with
             | Some (mkBinding (AFunction _ fn needs) o) =>
                 (n, o)
                 :: (if decide (fn ∈ seen) then []
                     else needed fuel' g (fn :: seen) needs)
                 ++ go ns'
             | Some b => (n, b_origin b) :: go ns'
             | None => go ns'
             end
         end) names
  end.

(** Looking a name up: the locals of a comprehension, then the globals,
    then the builtins.  For a function of the notebook the log also tells
    which global bindings a call of it would use. *)
Definition load (i : nat) (locals : list string) (x : string) : K aval := λ k,
  if decide (x ∈ locals) then (inr AObject, k)
  else match globals k !! x with
  | Some b =>
      let k' := mkKernel (globals k) (loop_running k) (autoawait k)
                  (klog k ++ [Read i x (b_origin b)]) in
      match b_value b with
      | AFunction _ fn needs =>
          match resolve (S (size (globals k))) (globals k) [fn] needs with
          | Resolved =>
              (inr (b_value b),
               mkKernel (globals k) (loop_running k) (autoawait k)
                 (klog k' ++
                  map (λ yo, Needs i fn (fst yo) (snd yo))
                    (needed (S (size (globals k))) (globals k) [fn] needs)))
          | Missing y => (inl (Unresolved fn y), k')
          | TooDeep => (inl (Unsupported "nesting of calls too deep"), k')
          end
      | v => (inr v, k')
      end
  | None =>
      if decide (x ∈ builtin_names)
      then (inr (APrimitive "builtins" x),
            mkKernel (globals k) (loop_running k) (autoawait k)
              (klog k ++ [ReadBuiltin i x]))
      else (inl (PyError "NameError" ("name '" +:+ x +:+ "' is not defined")), k)
  end.

(** value.attr *)
Definition attribute (v : aval) (a : string) : K aval :=
  match v with
  | AModule m =>
      match primitive_effect m a with
      | Some _ => kret (APrimitive m a)
      | None => kfail (Unsupported ("attribute " +:+ m +:+ "." +:+ a))
      end
  | _ => kret AObject
  end.

(** func(...), the arguments being evaluated already *)
Definition call (f : aval) : K aval :=
  match f with
  | APrimitive m a =>
      if bool_decide (m = "asyncio" ∧ a = "run") then
        λ k, if loop_running k
             then (inl (PyError "RuntimeError"
                     "asyncio.run() cannot be called from a running event loop"), k)
             else (inr AObject, k)
      else if bool_decide (m = "asyncio" ∧ a = "sleep") then kret (ACoroutine "sleep")
      else kret AObject
  | AFunction true fn _ => kret (ACoroutine fn)
  | AFunction false _ _ => kret AObject
  | AObject => kret AObject
  | AModule _ => kfail (PyError "TypeError" "'module' object is not callable")
  | ACoroutine _ => kfail (PyError "TypeError" "'coroutine' object is not callable")
  | AStr _ => kfail (PyError "TypeError" "'str' object is not callable")
  | ABool _ => kfail (PyError "TypeError" "'bool' object is not callable")
  end.

(** await value *)
Definition await (v : aval) : K aval :=
  match v with
  | ACoroutine _ | AObject => kret AObject
  | AModule _ =>
      kfail (PyError "TypeError" "object module can't be used in 'await' expression")
  | APrimitive _ _ =>
      kfail (PyError "TypeError"
               "object builtin_function_or_method can't be used in 'await' expression")
  | AFunction _ _ _ =>
      kfail (PyError "TypeError" "object function can't be used in 'await' expression")
  | AStr _ =>
      kfail (PyError "TypeError" "object str can't be used in 'await' expression")
  | ABool _ =>
      kfail (PyError "TypeError" "object bool can't be used in 'await' expression")
  end.

Definition compare (op : cmpop) (a b : aval) : aval :=
  match op, a, b with
  | Eq, AStr s, AStr t => ABool (bool_decide (s = t))
  | Eq, _, _ => AObject
  end.

Fixpoint eval (i : nat) (locals : list string) (e : expr) {struct e} : K aval :=
  let eval_all :=
    fix go (es : list expr) : K unit :=
      match es with
      | [] => kret tt
      | e' :: es' => kthen (eval i locals e') (go es')
      end in
  match e with
  | EName x => load i locals x
  | EInt _ => kret AObject
  | EStr s => kret (AStr s)
  | EJoinedStr vs => kthen (eval_all vs) (kret AObject)
  | EFormattedValue v => kthen (eval i locals v) (kret AObject)
  | EAttribute v a => kbind (eval i locals v) (λ b, attribute b a)
  | ECall f a =>
      kbind (eval i locals f) (λ fv, kthen (eval_all a) (call fv))
  | EStarred v => eval i locals v
  | EKeyword _ v => eval i locals v
  | EAwait v => kbind (eval i locals v) await
  | EList es => kthen (eval_all es) (kret AObject)
  | ETuple es => kthen (eval_all es) (kret AObject)
  | EListComp elt x it =>
      kthen (eval i locals it) (kthen (eval i (x :: locals) elt) (kret AObject))
  | EBinOp l _ r =>
      kthen (eval i locals l) (kthen (eval i locals r) (kret AObject))
  | ECompare l op r =>
      kbind (eval i locals l) (λ a,
        kbind (eval i locals r) (λ b, kret (compare op a b)))
  | ESubscript v s =>
      kthen (eval i locals v) (kthen (eval i locals s) (kret AObject))
  end.

Definition eval_opt (i : nat) (o : option expr) : K unit :=
  match o with
  | Some e => kthen (eval i [] e) (kret tt)
  | None => kret tt
  end.

Fixpoint eval_each (i : nat) (os : list (option expr)) : K unit :=
  match os with
  | [] => kret tt
  | o :: os' => kthen (eval_opt i o) (eval_each i os')
  end.

(** A statement at the top level of cell [i].  [shown]: the statement is
    the last of the cell, whose value the notebook displays and keeps. *)
Fixpoint exec (i : nat) (shown : bool) (s : stmt) {struct s} : K unit :=
  let exec_all :=
    fix go (ss : list stmt) : K unit :=
      match ss with
      | [] => kret tt
      | s' :: ss' => kthen (exec i false s') (go ss')
      end in
  match s with
  | SImport m =>
      if decide (m ∈ stdlib_module_names) then bind_global i m (AModule m)
      else kfail (PyError "ModuleNotFoundError"
                    ("No module named '" +:+ m +:+ "'"))
  | SFunctionDef a n ps r body =>
      kthen (eval_each i (map p_default ps))
        (kthen (eval_each i (map p_annotation ps))
           (kthen (eval_opt i r)
              (bind_global i n (AFunction a n (def_needs ps body)))))
  | SAssign x v => kbind (eval i [] v) (bind_global i x)
  | SAnnAssign x a v =>
      kbind (eval i [] v) (λ r,
        kthen (bind_global i x r) (kthen (eval i [] a) (kret tt)))
  | SExpr v =>
      kbind (eval i [] v) (λ r,
        match r with
        | ACoroutine fn =>
            if shown then kret tt
            else record (Warned i ("RuntimeWarning: coroutine '" +:+ fn
                                   +:+ "' was never awaited"))
        | _ => kret tt
        end)
  | SReturn _ => kfail (PyError "SyntaxError" "'return' outside function")
  | SIf t body =>
      kbind (eval i [] t) (λ c,
        match c with
        | ABool true => exec_all body
        | ABool false => kret tt
        | _ => kfail (Unsupported "a test that is not decided")
        end)
  | SFor x it body =>
      kthen (eval i [] it) (kthen (bind_global i x AObject) (exec_all body))
  | SDelete (EName x) => unbind_global x
  | SDelete t => kthen (eval i [] t) (kret tt)
  end.

Fixpoint exec_cell (i : nat) (ss : list stmt) : K unit :=
  match ss with
  | [] => kret tt
  | [s] => exec i true s
  | s :: ss' => kthen (exec i false s) (exec_cell i ss')
  end.

(** ** Compiling a cell *)

Inductive scope := InModule | InDef | InAsyncDef.

Fixpoint has_await (e : expr) : bool :=
  match e with
  | EAwait _ => true
  | EName _ | EInt _ | EStr _ => false
  | EJoinedStr vs => existsb has_await vs
  | EFormattedValue v => has_await v
  | EAttribute v _ => has_await v
  | ECall f a => has_await f || existsb has_await a
  | EStarred v => has_await v
  | EKeyword _ v => has_await v
  | EList es => existsb has_await es
  | ETuple es => existsb has_await es
  | EListComp elt _ it => has_await it || has_await elt
  | EBinOp l _ r => has_await l || has_await r
  | ECompare l _ r => has_await l || has_await r
  | ESubscript v s => has_await v || has_await s
  end.

Definition await_allowed (top_level_await : bool) (sc : scope) (e : expr)
    : option string :=
  if has_await e then
    match sc with
    | InAsyncDef => None
    | InDef => Some "'await' outside async function"
    | InModule =>
        if top_level_await then None else Some "'await' outside function"
    end
  else None.

Definition first_error (errs : list (option string)) : option string :=
  List.fold_right (λ e rest, match e with Some _ => e | None => rest end)
    None errs.

(** The syntax error the compiler reports for a statement, if any. *)
Fixpoint syntax_error (top_level_await : bool) (sc : scope) (s : stmt)
    : option string :=
  let check := await_allowed top_level_await sc in
  match s with
  | SImport _ => None
  | SFunctionDef a _ ps r body =>
      first_error
        (map (λ p, from_option check None (p_default p)) ps
         ++ map (λ p, from_option check None (p_annotation p)) ps
         ++ [from_option check None r]
         ++ map (syntax_error top_level_await (if a then InAsyncDef else InDef))
              body)
  | SAssign _ v => check v
  | SAnnAssign _ a v => first_error [check a; check v]
  | SExpr v => check v
  | SReturn v =>
      match sc with
      | InModule => Some "'return' outside function"
      | _ => check v
      end
  | SIf t body =>
      first_error (check t :: map (syntax_error top_level_await sc) body)
  | SFor _ it body =>
      first_error (check it :: map (syntax_error top_level_await sc) body)
  | SDelete t => check t
  end.

Definition compile (top_level_await : bool) (ss : list stmt) : option string :=
  first_error (map (syntax_error top_level_await InModule) ss).

(** ** Running a cell, and a notebook *)

Inductive status := Ok | Failed (f : failure).

(** Cell [c], at position [i] of the notebook, run in kernel [k]: a cell
    that does not compile runs no statement. *)
Definition run_cell (i : nat) (c : cell) (k : kernel) : status * kernel :=
  match compile (autoawait k) (source c) with
  | Some msg => (Failed (PyError "SyntaxError" msg), k)
  | None =>
      match exec_cell i (source c) k with
      | (inr _, k') => (Ok, k')
      | (inl f, k') => (Failed f, k')
      end
  end.

(** The cells from position [i] on, one after the other in one kernel. *)
Fixpoint run_cells (i : nat) (cs : list cell) (k : kernel)
    : list (string * status) * kernel :=
  match cs with
  | [] => ([], k)
  | c :: cs' =>
      let '(st, k') := run_cell i c k in
      let '(rest, k'') := run_cells (S i) cs' k' in
      ((cell_id c, st) :: rest, k'')
  end.

(** A fresh notebook kernel: an event loop is running, await is accepted
    at the top level, and __name__ is "__main__". *)
Definition jupyter : kernel :=
  mkKernel {[ "__name__" := mkBinding (AStr "__main__") FromKernel ]}
    true true [].

(** A fresh interpreter started on a script. *)
Definition script : kernel :=
  mkKernel {[ "__name__" := mkBinding (AStr "__main__") FromKernel ]}
    false false [].

Definition run_notebook (k : kernel) : list (string * status) * kernel :=
  run_cells 0 notebook k.

(** Each cell alone, in a kernel of its own. *)
Definition run_alone (k : kernel) : list (string * status) :=
  imap (λ i c, (cell_id c, fst (run_cell i c k))) notebook.

End Kernel.
Export Kernel.
(** * Running the cells: values, calls and errors

    [Kernel] follows names.  Here the cells are run: a call binds its
    arguments to the parameters and enters the body of the function, an
    operator looks at its operands, an index is checked against the list,
    and the primitives refuse what Python refuses.

    What a run cannot know is kept as a set of values: the clock reads
    some float, random.randint(a, b) gives some integer from a to b, a
    reference count is some integer, and the text of a formatted string
    is not followed.  A rule applies only where its outcome is the same
    for every value of the set: the run then goes on, or ends with the
    exception Python raises.  Anything else ends the run as
    [Unsupported]; so does whatever Python construct, primitive or
    argument shape has no rule here.  What is printed is not kept. *)

Module Interp.

Inductive value :=
| VNone
| VBool (b : bool)
| VInt (lo hi : Z)              (* an integer from lo to hi *)
| VCount                        (* an integer: a reference count *)
| VFloat                        (* a float *)
| VStr (text : option string)   (* a string, with its text where known *)
| VTuple (items : list value)
| VDict (items : list (string * value))
                                (* the keyword arguments a call collects *)
| VRange (start stop step : Z)
| VModule (name : string)
| VPrimitive (module attr : string)
| VBuiltin (name : string)
| VMethod (self : nat) (name : string)
| VRef (address : nat).         (* an object in the heap *)

Inductive coroutine_state := Fresh | Running | Finished.
Inductive thread_state := Initial | Started.

(** What awaiting a coroutine object runs. *)
Inductive work :=
| Body (body : list stmt) (env : list nat)   (* of an async def *)
| Sleep.                                     (* of asyncio.sleep *)

Record closure := mkClosure {
  c_async : bool;
  c_qualname : string;
  c_params : list (string * param_kind * option value);
  c_body : list stmt;
  c_locals : list string;
  c_env : list nat          (* the frames of the enclosing calls *)
}.

Inductive object :=
| OPlain                                     (* object() *)
| OList (items : list value)
| OSeq (n : Z) (item : value)                (* a list of n > 0 items, each
                                                a value of [item] *)
| OFunction (c : closure)
| OCoroutine (w : work) (s : coroutine_state)
| OThread (target : value) (args : list value)
    (kwargs : list (string * value)) (s : thread_state)
| OFrame (owner : string) (locals : list string)
    (vars : list (string * value)).          (* the variables of a call *)

(** Where a variable lives. *)
Inductive place := Global (x : string) | Local (frame : nat) (x : string).

Global Instance place_eq_dec : EqDecision place.
Proof. solve_decision. Defined.

Record state := mkState {
  namespace : list (string * value);   (* the globals of the session *)
  heap : list object;
  in_loop : bool;                      (* an event loop is running *)
  top_level_await : bool;
  thread_base : option nat;            (* running the work of a thread that
                                          was started when the heap had
                                          that many objects *)
  thread_reads : list place;           (* the variables it has read *)
  unjoined : list (nat * list place)   (* the threads started and not
                                          joined, with what they read *)
}.

Definition R (A : Type) : Type := state → (failure + A) * state.

Definition ret {A} (a : A) : R A := λ s, (inr a, s).
Definition fail {A} (f : failure) : R A := λ s, (inl f, s).
Definition raise {A} (ename evalue : string) : R A := fail (PyError ename evalue).
Definition unsupported {A} (what : string) : R A := fail (Unsupported what).
Definition bind {A B} (m : R A) (k : A → R B) : R B := λ s,
  match m s with
  | (inr a, s') => k a s'
  | (inl f, s') => (inl f, s')
  end.
Definition lift {A} (r : failure + A) : R A := λ s, (r, s).

Declare Scope run_scope.
Delimit Scope run_scope with run.
Notation "x <- m ;; k" := (bind m (λ x, k))
  (at level 100, m at next level, right associativity) : run_scope.
Notation "m ;;; k" := (bind m (λ _, k))
  (at level 100, right associativity) : run_scope.
Local Open Scope run_scope.

(** ** The state *)

Definition set_namespace (g : list (string * value)) (s : state) : state :=
  mkState g (heap s) (in_loop s) (top_level_await s) (thread_base s)
    (thread_reads s) (unjoined s).

Definition set_heap (h : list object) (s : state) : state :=
  mkState (namespace s) h (in_loop s) (top_level_await s) (thread_base s)
    (thread_reads s) (unjoined s).

Definition set_in_loop (b : bool) (s : state) : state :=
  mkState (namespace s) (heap s) b (top_level_await s) (thread_base s)
    (thread_reads s) (unjoined s).

Definition set_thread (base : option nat) (reads : list place) (s : state)
    : state :=
  mkState (namespace s) (heap s) (in_loop s) (top_level_await s) base reads
    (unjoined s).

Definition set_unjoined (ts : list (nat * list place)) (s : state) : state :=
  mkState (namespace s) (heap s) (in_loop s) (top_level_await s)
    (thread_base s) (thread_reads s) ts.

Definition put {A} (key : string) (a : A) (table : list (string * A))
    : list (string * A) :=
  (key, a) :: List.filter (λ kv, negb (bool_decide (fst kv = key))) table.

Definition alloc (o : object) : R nat := λ s,
  (inr (length (heap s)), set_heap (heap s ++ [o]) s).

Definition object_at (a : nat) : R object := λ s,
  match heap s !! a with
  | Some o => (inr o, s)
  | None => (inl (Unsupported "a reference to no object"), s)
  end.

Definition store (a : nat) (o : object) : R unit := λ s,
  (inr tt, set_heap (<[a := o]> (heap s)) s).

(** The work of a thread runs when the thread is started.  Where the
    outcome could depend on how the thread and its starter take turns,
    there is no rule: a thread may not use a list, coroutine or thread
    object its starter made, and until the thread is joined nobody may
    bind a variable it has read. *)
Definition touch (a : nat) : R unit := λ s,
  match thread_base s with
  | Some base =>
      if (a <? base)%nat
      then (inl (Unsupported "a thread using an object of its starter"), s)
      else (inr tt, s)
  | None => (inr tt, s)
  end.

Definition note_read (p : place) : R unit := λ s,
  match thread_base s with
  | Some _ => (inr tt, set_thread (thread_base s) (p :: thread_reads s) s)
  | None => (inr tt, s)
  end.

Definition note_write (p : place) : R unit := λ s,
  if existsb (λ t, bool_decide (p ∈ snd t)) (unjoined s)
  then (inl (Unsupported "binding a variable a running thread reads"), s)
  else match p, thread_base s with
       | Global _, Some _ =>
           (inl (Unsupported "a thread binding a global"), s)
       | _, _ => (inr tt, s)
       end.

(** ** Names *)

(** The names of the builtins module of Python 3.10. *)
Definition builtin_namespace : list string :=
  [ "ArithmeticError"; "AssertionError"; "AttributeError"; "BaseException";
    "BlockingIOError"; "BrokenPipeError"; "BufferError"; "BytesWarning";
    "ChildProcessError"; "ConnectionAbortedError"; "ConnectionError";
    "ConnectionRefusedError"; "ConnectionResetError"; "DeprecationWarning";
    "EOFError"; "Ellipsis"; "EncodingWarning"; "EnvironmentError";
    "Exception"; "False"; "FileExistsError"; "FileNotFoundError";
    "FloatingPointError"; "FutureWarning"; "GeneratorExit"; "IOError";
    "ImportError"; "ImportWarning"; "IndentationError"; "IndexError";
    "InterruptedError"; "IsADirectoryError"; "KeyError"; "KeyboardInterrupt";
    "LookupError"; "MemoryError"; "ModuleNotFoundError"; "NameError"; "None";
    "NotADirectoryError"; "NotImplemented"; "NotImplementedError"; "OSError";
    "OverflowError"; "PendingDeprecationWarning"; "PermissionError";
    "ProcessLookupError"; "RecursionError"; "ReferenceError";
    "ResourceWarning"; "RuntimeError"; "RuntimeWarning";
    "StopAsyncIteration"; "StopIteration"; "SyntaxError"; "SyntaxWarning";
    "SystemError"; "SystemExit"; "TabError"; "TimeoutError"; "True";
    "TypeError"; "UnboundLocalError"; "UnicodeDecodeError";
    "UnicodeEncodeError"; "UnicodeError"; "UnicodeTranslateError";
    "UnicodeWarning"; "UserWarning"; "ValueError"; "Warning";
    "ZeroDivisionError"; "abs"; "aiter"; "all"; "anext"; "any"; "ascii";
    "bin"; "bool"; "breakpoint"; "bytearray"; "bytes"; "callable"; "chr";
    "classmethod"; "compile"; "complex"; "copyright"; "credits"; "delattr";
    "dict"; "dir"; "divmod"; "enumerate"; "eval"; "exec"; "exit"; "filter";
    "float"; "format"; "frozenset"; "getattr"; "globals"; "hasattr"; "hash";
    "help"; "hex"; "id"; "input"; "int"; "isinstance"; "issubclass"; "iter";
    "len"; "license"; "list"; "locals"; "map"; "max"; "memoryview"; "min";
    "next"; "object"; "oct"; "open"; "ord"; "pow"; "print"; "property";
    "quit"; "range"; "repr"; "reversed"; "round"; "set"; "setattr"; "slice";
    "sorted"; "staticmethod"; "str"; "sum"; "super"; "tuple"; "type"; "vars";
    "zip" ].

(** Names a notebook kernel puts in the namespace of the session. *)
Definition kernel_names : list string :=
  [ "In"; "Out"; "get_ipython"; "exit"; "quit"; "open"; "display" ].

Definition underscored (x : string) : bool := String.prefix "_" x.

(** The frame among [env] that [x] is a variable of, if any, with the
    value it holds there. *)
Fixpoint find_frame (h : list object) (env : list nat) (x : string)
    (innermost : bool) : option (nat * bool * option value) :=
  match env with
  | [] => None
  | a :: env' =>
      match h !! a with
      | Some (OFrame _ locals vars) =>
          if bool_decide (x ∈ locals) then Some (a, innermost, assoc x vars)
          else find_frame h env' x false
      | _ => find_frame h env' x false
      end
  end.

(** Looking a name up: the variables of the call and of the enclosing
    calls, then the globals, then the builtins. *)
Definition lookup (env : list nat) (x : string) : R value := λ s,
  match find_frame (heap s) env x true with
  | Some (a, _, Some v) => (note_read (Local a x) ;;; ret v) s
  | Some (_, true, None) =>
      (inl (PyError "UnboundLocalError"
              ("local variable '" +:+ x +:+ "' referenced before assignment")),
       s)
  | Some (_, false, None) =>
      (inl (PyError "NameError"
              ("free variable '" +:+ x
               +:+ "' referenced before assignment in enclosing scope")), s)
  | None =>
      (note_read (Global x) ;;;
       match assoc x (namespace s) with
       | Some v => ret v
       | None =>
           if underscored x || bool_decide (x ∈ kernel_names)
           then unsupported "a name the notebook kernel may provide"
           else if bool_decide (x = "None") then ret VNone
           else if bool_decide (x = "True") then ret (VBool true)
           else if bool_decide (x = "False") then ret (VBool false)
           else if bool_decide (x ∈ builtin_namespace) then ret (VBuiltin x)
           else raise "NameError" ("name '" +:+ x +:+ "' is not defined")
       end) s
  end.

(** Binding a name: in the frame of the call, or among the globals. *)
Definition bind_name (env : list nat) (x : string) (v : value) : R unit :=
  match env with
  | [] =>
      note_write (Global x) ;;;
      λ s, (inr tt, set_namespace (put x v (namespace s)) s)
  | a :: _ =>
      note_write (Local a x) ;;;
      o <- object_at a ;;
      match o with
      | OFrame owner locals vars => store a (OFrame owner locals (put x v vars))
      | _ => unsupported "a frame that is none"
      end
  end.

Definition unbind_global (x : string) : R unit :=
  note_write (Global x) ;;;
  λ s, match assoc x (namespace s) with
       | Some _ =>
           (inr tt,
            set_namespace
              (List.filter (λ kv, negb (bool_decide (fst kv = x))) (namespace s))
              s)
       | None =>
           if underscored x || bool_decide (x ∈ kernel_names)
           then (inl (Unsupported "a name the notebook kernel may provide"), s)
           else (inl (PyError "NameError"
                        ("name '" +:+ x +:+ "' is not defined")), s)
       end.

(** The qualified name of what is defined inside the call [env]. *)
Definition qualified (h : list object) (env : list nat) (n : string) : string :=
  match env with
  | a :: _ =>
      match h !! a with
      | Some (OFrame owner _ _) => owner +:+ ".<locals>." +:+ n
      | _ => n
      end
  | [] => n
  end.

(** ** Types and operators *)

Definition builtin_kind (b : string) : option string :=
  if bool_decide (b ∈ ["print"; "round"; "sum"])
  then Some "builtin_function_or_method"
  else if bool_decide (b ∈ ["range"; "object"; "int"; "str"])
  then Some "type"
  else None.

(** The attributes of the modules that have rules here. *)
Definition followed_primitives : list (string * string) :=
  [ ("time", "time"); ("time", "sleep"); ("sys", "getrefcount");
    ("random", "randint"); ("asyncio", "sleep"); ("asyncio", "run");
    ("inspect", "isroutine"); ("inspect", "iscoroutine");
    ("threading", "Thread"); ("typing", "Callable") ].

(** typing.Callable is only ever evaluated, as an annotation: what its
    type supports is not followed. *)
Definition primitive_kind (m a : string) : option string :=
  if bool_decide ((m, a) ∈ [("time", "time"); ("time", "sleep");
                            ("sys", "getrefcount")])
  then Some "builtin_function_or_method"
  else if bool_decide ((m, a) = ("random", "randint")) then Some "method"
  else if bool_decide ((m, a) ∈ [("asyncio", "sleep"); ("asyncio", "run");
                                 ("inspect", "isroutine");
                                 ("inspect", "iscoroutine")])
  then Some "function"
  else if bool_decide ((m, a) = ("threading", "Thread")) then Some "type"
  else None.

(** type(v).__name__, where this development knows it *)
Definition type_name (h : list object) (v : value) : option string :=
  match v with
  | VNone => Some "NoneType"
  | VBool _ => Some "bool"
  | VInt _ _ | VCount => Some "int"
  | VFloat => Some "float"
  | VStr _ => Some "str"
  | VTuple _ => Some "tuple"
  | VDict _ => Some "dict"
  | VRange _ _ _ => Some "range"
  | VModule _ => Some "module"
  | VPrimitive m a => primitive_kind m a
  | VBuiltin b => builtin_kind b
  | VMethod self _ =>
      match h !! self with
      | Some (OList _) | Some (OSeq _ _) => Some "builtin_function_or_method"
      | Some (OThread _ _ _ _) => Some "method"
      | _ => None
      end
  | VRef a =>
      match h !! a with
      | Some OPlain => Some "object"
      | Some (OList _) | Some (OSeq _ _) => Some "list"
      | Some (OFunction _) => Some "function"
      | Some (OCoroutine _ _) => Some "coroutine"
      | Some (OThread _ _ _ _) => Some "Thread"
      | Some (OFrame _ _ _) | None => None
      end
  end.

(** Integers are followed up to this size; whatever is followed can be
    printed and can be turned into a float. *)
Definition int_bound : Z := 10 ^ 300.

Definition int_value (lo hi : Z) : failure + value :=
  if (- int_bound <=? lo) && (hi <=? int_bound) then inr (VInt lo hi)
  else inl (Unsupported "an integer beyond 10 ^ 300").

(** The powers x ^ n of the integers x from lo to hi, for n >= 0. *)
Definition pow_interval (lo hi n : Z) : Z * Z :=
  if n =? 0 then (1, 1)
  else if Z.odd n || (0 <=? lo) then (lo ^ n, hi ^ n)
  else if hi <=? 0 then (hi ^ n, lo ^ n)
  else (0, Z.max (lo ^ n) (hi ^ n)).

Definition numeric (v : value) : bool :=
  match v with
  | VInt _ _ | VCount | VFloat | VBool _ => true
  | _ => false
  end.

Definition operator_text (op : binop) : string :=
  match op with Pow => "** or pow()" | Sub => "-" end.

(** left op right.  Operands that are not numbers are refused by both
    operators. *)
Definition binop_values (h : list object) (op : binop) (a b : value)
    : failure + value :=
  match op, a, b with
  | Sub, VInt a1 a2, VInt b1 b2 => int_value (a1 - b2) (a2 - b1)
  | Sub, VFloat, VFloat | Sub, VFloat, VInt _ _ | Sub, VInt _ _, VFloat =>
      inr VFloat
  | Pow, VInt a1 a2, VInt n n' =>
      if (n =? n') && (0 <=? n) && (n <=? 64)
      then let '(lo, hi) := pow_interval a1 a2 n in int_value lo hi
      else inl (Unsupported "a power that is not a small constant")
  | _, _, _ =>
      if numeric a && numeric b
      then inl (Unsupported "arithmetic on these numbers")
      else match type_name h a, type_name h b with
           | Some ta, Some tb =>
               inl (PyError "TypeError"
                      ("unsupported operand type(s) for " +:+ operator_text op
                       +:+ ": '" +:+ ta +:+ "' and '" +:+ tb +:+ "'"))
           | _, _ => inl (Unsupported "an operand of a type not followed")
           end
  end.

(** left == right, where both are known *)
Definition equal_values (a b : value) : option bool :=
  match a, b with
  | VStr (Some s), VStr (Some t) => Some (bool_decide (s = t))
  | VInt a1 a2, VInt b1 b2 =>
      if (a1 =? a2) && (b1 =? b2) then Some (a1 =? b1)
      else if (a2 <? b1) || (b2 <? a1) then Some false
      else None
  | VNone, VNone => Some true
  | VNone, VStr _ | VStr _, VNone | VNone, VInt _ _ | VInt _ _, VNone
  | VStr _, VInt _ _ | VInt _ _, VStr _ => Some false
  | _, _ => None
  end.

(** bool(v), where it is the same for every value that [v] stands for *)
Definition truth (h : list object) (v : value) : option bool :=
  match v with
  | VNone => Some false
  | VBool b => Some b
  | VInt lo hi =>
      if (lo =? 0) && (hi =? 0) then Some false
      else if (0 <? lo) || (hi <? 0) then Some true
      else None
  | VCount | VFloat | VStr None => None
  | VStr (Some s) => Some (negb (bool_decide (s = EmptyString)))
  | VTuple items => Some (negb (Nat.eqb (length items) 0))
  | VDict items => Some (negb (Nat.eqb (length items) 0))
  | VRange start stop step => Some (0 <? range_len start stop step)
  | VPrimitive m a =>
      match primitive_kind m a with Some _ => Some true | None => None end
  | VModule _ | VBuiltin _ | VMethod _ _ => Some true
  | VRef a =>
      match h !! a with
      | Some (OList items) => Some (negb (Nat.eqb (length items) 0))
      | Some (OSeq _ _) | Some OPlain | Some (OFunction _)
      | Some (OCoroutine _ _) | Some (OThread _ _ _ _) => Some true
      | Some (OFrame _ _ _) | None => None
      end
  end.

(** The types whose values have no items at all. *)
Definition itemless (t : string) : bool :=
  bool_decide (t ∈ ["int"; "NoneType"; "bool"; "float"; "module";
                    "builtin_function_or_method"; "method"; "function";
                    "object"; "coroutine"]).

(** The position an index stands for, in a sequence of [len] items. *)
Definition position (len : nat) (index : Z) : option nat :=
  if index <? 0 then
    if - index <=? Z.of_nat len then Some (Z.to_nat (Z.of_nat len + index))
    else None
  else if index <? Z.of_nat len then Some (Z.to_nat index) else None.

Definition index_sized (index : Z) : bool :=
  (- 2 ^ 63 <=? index) && (index <? 2 ^ 63).

Definition index_error (what : string) (index : Z) : failure :=
  if index_sized index then PyError "IndexError" (what +:+ " out of range")
  else PyError "IndexError" "cannot fit 'int' into an index-sized integer".

(** ** Calling a function of the notebook *)

Definition plain_params (ps : list (string * param_kind * option value))
    : list (string * option value) :=
  omap (λ p, match p with
             | (n, Positional, d) => Some (n, d)
             | _ => None
             end) ps.

Definition star_param (var_keyword : bool)
    (ps : list (string * param_kind * option value)) : option string :=
  head (omap (λ p, match p, var_keyword with
                   | (n, VarPositional, _), false => Some n
                   | (n, VarKeyword, _), true => Some n
                   | _, _ => None
                   end) ps).

(** The keyword arguments, in the order given: each goes to the slot of
    its name, which must be empty, or to the star-star parameter. *)
Fixpoint place_keywords (qualname : string) (collects : bool)
    (slots : list (string * option value)) (extra : list (string * value))
    (kw : list (string * value))
    : failure + list (string * option value) * list (string * value) :=
  match kw with
  | [] => inr (slots, extra)
  | (k, v) :: kw' =>
      match List.find (λ s, bool_decide (fst s = k)) slots with
      | Some (_, Some _) =>
          inl (PyError "TypeError"
                 (qualname +:+ "() got multiple values for argument "
                  +:+ quoted k))
      | Some (_, None) =>
          place_keywords qualname collects
            (map (λ s, if bool_decide (fst s = k) then (k, Some v) else s) slots)
            extra kw'
      | None =>
          if collects
          then place_keywords qualname collects slots (extra ++ [(k, v)]) kw'
          else inl (PyError "TypeError"
                      (qualname +:+ "() got an unexpected keyword argument "
                       +:+ quoted k))
      end
  end.

(** The variables a call starts with: positional arguments fill the
    plain parameters from the left and the rest goes to the star
    parameter; then the keyword arguments are placed; then positional
    arguments left over are an error; then the defaults fill what is
    empty, and what is still empty is missing. *)
Definition bind_arguments (c : closure) (pos : list value)
    (kw : list (string * value)) : failure + list (string * value) :=
  let plain := plain_params (c_params c) in
  let names := map fst plain in
  let given := length pos in
  let spare := drop (length names) pos in
  let defaults := length (List.filter (λ p, bool_decide (is_Some (snd p))) plain) in
  match place_keywords (c_qualname c)
          (bool_decide (is_Some (star_param true (c_params c))))
          (positional names pos) [] kw with
  | inl e => inl e
  | inr (slots, extra) =>
      if bool_decide (spare ≠ [] ∧ star_param false (c_params c) = None)
      then
        inl (PyError "TypeError"
               (c_qualname c +:+ "() takes "
                +:+ (if Nat.eqb defaults 0
                     then pretty (Z.of_nat (length names))
                     else "from " +:+ pretty (Z.of_nat (length names - defaults))
                          +:+ " to " +:+ pretty (Z.of_nat (length names)))
                +:+ " positional argument"
                +:+ (if Nat.eqb defaults 0 then plural (length names) else "s")
                +:+ " but " +:+ pretty (Z.of_nat given)
                +:+ (if Nat.eqb given 1 then " was" else " were")
                +:+ " given"))
      else
        let filled :=
          zip_with (λ s p, match snd s with
                           | Some v => (fst s, Some v)
                           | None => (fst s, snd p)
                           end) slots plain in
        match empty_slots filled with
        | [] =>
            inr (omap (λ s, pair (fst s) <$> snd s) filled
                 ++ match star_param false (c_params c) with
                    | Some n => [(n, VTuple spare)]
                    | None => []
                    end
                 ++ match star_param true (c_params c) with
                    | Some n => [(n, VDict extra)]
                    | None => []
                    end)
        | missing =>
            inl (PyError "TypeError"
                   (c_qualname c +:+ "() missing "
                    +:+ pretty (Z.of_nat (length missing))
                    +:+ " required positional argument"
                    +:+ plural (length missing) +:+ ": " +:+ name_list missing))
        end
  end.

(** ** The primitives *)

Definition not_callable (h : list object) (v : value) : failure :=
  match type_name h v with
  | Some t => PyError "TypeError" ("'" +:+ t +:+ "' object is not callable")
  | None => Unsupported "calling a value of a type not followed"
  end.

Definition not_iterable (h : list object) (v : value) : failure :=
  match v, type_name h v with
  | (VNone | VBool _ | VInt _ _ | VCount | VFloat | VModule _ | VPrimitive _ _
     | VBuiltin _ | VMethod _ _), Some t =>
      PyError "TypeError" ("'" +:+ t +:+ "' object is not iterable")
  | _, _ => Unsupported "iterating over a value of this type"
  end.

(** inspect.isroutine(v) *)
Definition is_routine (h : list object) (v : value) : option bool :=
  match type_name h v with
  | Some t =>
      Some (bool_decide (t ∈ ["builtin_function_or_method"; "function";
                              "method"]))
  | None => None
  end.

(** inspect.iscoroutine(v) *)
Definition is_coroutine (h : list object) (v : value) : option bool :=
  match type_name h v with
  | Some t => Some (bool_decide (t = "coroutine"))
  | None => None
  end.

(** Whether showing the value goes less than [depth] containers deep;
    Python gives up on a value nested too deep. *)
Fixpoint flat (depth : nat) (h : list object) (v : value) : bool :=
  match depth with
  | O => false
  | S depth' =>
      match v with
      | VTuple items => forallb (flat depth' h) items
      | VDict items => forallb (λ kv, flat depth' h (snd kv)) items
      | VRef a =>
          match h !! a with
          | Some (OList items) => forallb (flat depth' h) items
          | Some (OSeq _ item) => flat depth' h item
          | _ => true
          end
      | _ => true
      end
  end.

(** str(v), repr(v) or format(v) as print, an f-string and the
    notebook's display of a value need it: the text is not followed. *)
Definition shown (v : value) : R unit := λ s,
  if flat 20 (heap s) v then (inr tt, s)
  else (inl (Unsupported "showing a value nested deep"), s).

Fixpoint shown_each (vs : list value) : R unit :=
  match vs with
  | [] => ret tt
  | v :: vs' => shown v ;;; shown_each vs'
  end.

(** sum(items) for integers *)
Fixpoint sum_values (acc_lo acc_hi : Z) (items : list value)
    : failure + value :=
  match items with
  | [] => int_value acc_lo acc_hi
  | VInt lo hi :: items' => sum_values (acc_lo + lo) (acc_hi + hi) items'
  | _ => inl (Unsupported "a sum of other things than integers")
  end.

(** The builtins that need no call back into the notebook's code. *)
Definition call_builtin (b : string) (pos : list value)
    (kw : list (string * value)) : R value :=
  match kw with
  | _ :: _ => unsupported "a builtin called with keyword arguments"
  | [] =>
      if bool_decide (b = "print") then shown_each pos ;;; ret VNone
      else if bool_decide (b = "object") then
        match pos with
        | [] => a <- alloc OPlain ;; ret (VRef a)
        | _ => raise "TypeError" "object() takes no arguments"
        end
      else if bool_decide (b = "range") then
        match pos with
        | [VInt n n'] =>
            if n =? n' then ret (VRange 0 n 1)
            else unsupported "a range of unknown bounds"
        | [VInt a a'; VInt n n'] =>
            if (a =? a') && (n =? n') then ret (VRange a n 1)
            else unsupported "a range of unknown bounds"
        | [VInt a a'; VInt n n'; VInt k k'] =>
            if (a =? a') && (n =? n') && (k =? k') then
              if k =? 0
              then raise "ValueError" "range() arg 3 must not be zero"
              else ret (VRange a n k)
            else unsupported "a range of unknown bounds"
        | [] => raise "TypeError" "range expected at least 1 argument, got 0"
        | _ => unsupported "range on these arguments"
        end
      else if bool_decide (b = "round") then
        match pos with
        | [VFloat; VInt n n'] =>
            if (n =? n') && (- 2 ^ 31 <=? n) && (n <=? 2 ^ 31) then ret VFloat
            else unsupported "round to that many digits"
        | [VInt lo hi; VInt n n'] =>
            if (n =? n') && (0 <=? n) && (n <=? 2 ^ 31) then ret (VInt lo hi)
            else unsupported "round to that many digits"
        | _ => unsupported "round on these arguments"
        end
      else if bool_decide (b = "sum") then
        match pos with
        | [VTuple items] => lift (sum_values 0 0 items)
        | [VRef a] =>
            touch a ;;;
            o <- object_at a ;;
            match o with
            | OList items => lift (sum_values 0 0 items)
            | OSeq n (VInt lo hi) => lift (int_value (n * lo) (n * hi))
            | _ => unsupported "sum on this object"
            end
        | _ => unsupported "sum on these arguments"
        end
      else unsupported ("the builtin " +:+ b)
  end.

(** time.sleep(secs) for an integer from lo to hi *)
Definition sleep_outcome (lo hi : Z) : R value :=
  if (hi <? - sleep_max) || (sleep_max <? lo)
  then raise "OverflowError" "timestamp too large to convert to C _PyTime_t"
  else if (- sleep_max <=? lo) && (hi <? 0)
  then raise "ValueError" "sleep length must be non-negative"
  else if (0 <=? lo) && (hi <=? sleep_max) then ret VNone
  else unsupported "a sleep of a length not decided".

(** The primitives of the modules that need no call back into the
    notebook's code. *)
Definition call_primitive (m a : string) (pos : list value)
    (kw : list (string * value)) : R value :=
  match kw with
  | _ :: _ => unsupported "a primitive called with keyword arguments"
  | [] =>
      if bool_decide ((m, a) = ("time", "time")) then
        match pos with
        | [] => ret VFloat
        | _ => unsupported "time.time with arguments"
        end
      else if bool_decide ((m, a) = ("time", "sleep")) then
        match pos with
        | [VInt lo hi] => sleep_outcome lo hi
        | _ => unsupported "time.sleep on these arguments"
        end
      else if bool_decide ((m, a) = ("random", "randint")) then
        match pos with
        | [VInt lo lo'; VInt hi hi'] =>
            if (lo =? lo') && (hi =? hi') then
              if lo <=? hi then ret (VInt lo hi)
              else raise "ValueError"
                     ("empty range for randrange() (" +:+ pretty lo +:+ ", "
                      +:+ pretty (hi + 1) +:+ ", " +:+ pretty (hi + 1 - lo)
                      +:+ ")")
            else unsupported "random.randint on unknown bounds"
        | _ => unsupported "random.randint on these arguments"
        end
      else if bool_decide ((m, a) = ("sys", "getrefcount")) then
        match pos with
        | [_] => ret VCount
        | _ => unsupported "sys.getrefcount on these arguments"
        end
      else if bool_decide ((m, a) = ("inspect", "isroutine")) then
        match pos with
        | [v] => λ s, match is_routine (heap s) v with
                      | Some b => (inr (VBool b), s)
                      | None => (inl (Unsupported "inspect.isroutine"), s)
                      end
        | _ => unsupported "inspect.isroutine on these arguments"
        end
      else if bool_decide ((m, a) = ("inspect", "iscoroutine")) then
        match pos with
        | [v] => λ s, match is_coroutine (heap s) v with
                      | Some b => (inr (VBool b), s)
                      | None => (inl (Unsupported "inspect.iscoroutine"), s)
                      end
        | _ => unsupported "inspect.iscoroutine on these arguments"
        end
      else if bool_decide ((m, a) = ("asyncio", "sleep")) then
        match pos with
        | [VInt _ _] => c <- alloc (OCoroutine Sleep Fresh) ;; ret (VRef c)
        | _ => unsupported "asyncio.sleep on these arguments"
        end
      else unsupported ("the primitive " +:+ m +:+ "." +:+ a)
  end.

(** threading.Thread(target=..., args=..., kwargs=...) *)
Definition new_thread (pos : list value) (kw : list (string * value))
    : R value :=
  match pos with
  | _ :: _ => unsupported "threading.Thread with positional arguments"
  | [] =>
      if bool_decide (Forall (λ k, k ∈ ["target"; "args"; "kwargs"])
                        (map fst kw))
      then
        match default (VTuple []) (assoc "args" kw),
              default (VDict []) (assoc "kwargs" kw) with
        | VTuple args, VDict kwargs =>
            t <- alloc (OThread (default VNone (assoc "target" kw))
                          args kwargs Initial) ;;
            ret (VRef t)
        | _, _ => unsupported "threading.Thread on these arguments"
        end
      else unsupported "threading.Thread with other keywords"
  end.

(** value.attr *)
Definition attribute (v : value) (a : string) : R value :=
  match v with
  | VModule m =>
      if bool_decide ((m, a) ∈ followed_primitives) then ret (VPrimitive m a)
      else unsupported ("the attribute " +:+ m +:+ "." +:+ a)
  | VRef r =>
      o <- object_at r ;;
      match o with
      | OList _ | OSeq _ _ =>
          if bool_decide (a = "append") then ret (VMethod r a)
          else unsupported ("the list attribute " +:+ a)
      | OThread _ _ _ _ =>
          if bool_decide (a ∈ ["start"; "join"]) then ret (VMethod r a)
          else unsupported ("the thread attribute " +:+ a)
      | OPlain =>
          if underscored a then unsupported ("the attribute " +:+ a)
          else raise "AttributeError"
                 ("'object' object has no attribute '" +:+ a +:+ "'")
      | _ => unsupported ("the attribute " +:+ a)
      end
  | _ => unsupported ("the attribute " +:+ a)
  end.

(** What *value gives a call. *)
Definition unpacked (v : value) : R (list value) :=
  match v with
  | VTuple items => ret items
  | VRef a =>
      touch a ;;;
      o <- object_at a ;;
      match o with
      | OList items => ret items
      | _ => unsupported "unpacking this object"
      end
  | _ => unsupported "unpacking this value"
  end.

(** value[index] *)
Definition subscript (v i : value) : R value :=
  match v, i with
  | VTuple items, VInt n n' =>
      if n =? n' then
        match position (length items) n with
        | Some p => match items !! p with
                    | Some x => ret x
                    | None => unsupported "an index"
                    end
        | None => fail (index_error "tuple index" n)
        end
      else unsupported "an index not decided"
  | VRef a, VInt n n' =>
      touch a ;;;
      o <- object_at a ;;
      match o with
      | OList items =>
          if n =? n' then
            match position (length items) n with
            | Some p => match items !! p with
                        | Some x => ret x
                        | None => unsupported "an index"
                        end
            | None => fail (index_error "list index" n)
            end
          else unsupported "an index not decided"
      | _ =>
          λ s, match type_name (heap s) v with
               | Some t =>
                   if itemless t
                   then (inl (PyError "TypeError"
                                ("'" +:+ t +:+ "' object is not subscriptable")), s)
                   else (inl (Unsupported "a subscript of this object"), s)
               | None => (inl (Unsupported "a subscript of this object"), s)
               end
      end
  | _, _ =>
      λ s, match type_name (heap s) v with
           | Some t =>
               if itemless t
               then (inl (PyError "TypeError"
                            ("'" +:+ t +:+ "' object is not subscriptable")), s)
               else (inl (Unsupported "a subscript of this value"), s)
           | None => (inl (Unsupported "a subscript of this value"), s)
           end
  end.

(** del value[index] *)
Definition delete_item (v i : value) : R unit :=
  match v, i with
  | VRef a, VInt n n' =>
      touch a ;;;
      o <- object_at a ;;
      match o with
      | OList items =>
          if n =? n' then
            match position (length items) n with
            | Some p => store a (OList (delete p items))
            | None => fail (index_error "list assignment index" n)
            end
          else unsupported "an index not decided"
      | _ =>
          λ s, match type_name (heap s) v with
               | Some t =>
                   if itemless t
                   then (inl (PyError "TypeError"
                                ("'" +:+ t
                                 +:+ "' object does not support item deletion")), s)
                   else (inl (Unsupported "deleting an item of this object"), s)
               | None => (inl (Unsupported "deleting an item of this object"), s)
               end
      end
  | VTuple _, VInt _ _ =>
      raise "TypeError" "'tuple' object doesn't support item deletion"
  | VStr _, VInt _ _ =>
      raise "TypeError" "'str' object doesn't support item deletion"
  | _, _ =>
      λ s, match type_name (heap s) v with
           | Some t =>
               if itemless t
               then (inl (PyError "TypeError"
                            ("'" +:+ t
                             +:+ "' object does not support item deletion")), s)
               else (inl (Unsupported "deleting an item of this value"), s)
           | None => (inl (Unsupported "deleting an item of this value"), s)
           end
  end.

(** A comprehension whose element is arithmetic on its own variable has
    no effect and needs no other name: over a range too long to go
    through it is worked out once for all the numbers of the range. *)
Fixpoint arithmetic (x : string) (e : expr) : bool :=
  match e with
  | EName y => bool_decide (y = x)
  | EInt _ => true
  | EBinOp l _ r => arithmetic x l && arithmetic x r
  | _ => false
  end.

Fixpoint arithmetic_value (h : list object) (v : value) (e : expr)
    : failure + value :=
  match e with
  | EName _ => inr v
  | EInt n => int_value n n
  | EBinOp l op r =>
      match arithmetic_value h v l with
      | inl f => inl f
      | inr a =>
          match arithmetic_value h v r with
          | inl f => inl f
          | inr b => binop_values h op a b
          end
      end
  | _ => inl (Unsupported "an element that is not arithmetic")
  end.

(** The least and the greatest number of a range that has [n] > 0 of
    them. *)
Definition range_hull (start step n : Z) : Z * Z :=
  let last := start + (n - 1) * step in
  (Z.min start last, Z.max start last).

(** The variables a function deletes are its own, like those it
    binds. *)
Fixpoint stmt_deletes (s : stmt) : list string :=
  match s with
  | SDelete (EName x) => [x]
  | SIf _ body | SFor _ _ body => flat_map stmt_deletes body
  | _ => []
  end.

Definition locals_of (ps : list param) (body : list stmt) : list string :=
  def_locals ps body ++ flat_map stmt_deletes body.

(** del x inside a call *)
Definition unbind_local (a : nat) (x : string) : R unit :=
  note_write (Local a x) ;;;
  o <- object_at a ;;
  match o with
  | OFrame owner locals vars =>
      match assoc x vars with
      | Some _ =>
          store a (OFrame owner locals
                     (List.filter (λ kv, negb (bool_decide (fst kv = x))) vars))
      | None =>
          raise "UnboundLocalError"
            ("local variable '" +:+ x +:+ "' referenced before assignment")
      end
  | _ => unsupported "a frame that is none"
  end.

(** ** Expressions, statements and calls *)

Inductive flow := Next | Return (v : value).

(** How many items a loop or comprehension goes through at most. *)
Definition iterations : nat := 1000.

Fixpoint eval (fuel : nat) (env : list nat) (e : expr) {struct fuel}
    : R value :=
  match fuel with
  | O => unsupported "calls nested too deep"
  | S fuel' =>
      let eval_each :=
        fix go (es : list expr) : R (list value) :=
          match es with
          | [] => ret []
          | e' :: es' =>
              v <- eval fuel' env e' ;; vs <- go es' ;; ret (v :: vs)
          end in
      match e with
      | EName x => lookup env x
      | EInt n => lift (int_value n n)
      | EStr s => ret (VStr (Some s))
      | EJoinedStr parts =>
          (fix go (ps : list expr) : R value :=
             match ps with
             | [] => ret (VStr None)
             | EStr _ :: ps' => go ps'
             | EFormattedValue v :: ps' =>
                 r <- eval fuel' env v ;; shown r ;;; go ps'
             | _ => unsupported "a part of a formatted string"
             end) parts
      | EFormattedValue _ => unsupported "a formatted value on its own"
      | EAttribute v a => b <- eval fuel' env v ;; attribute b a
      | ECall f args =>
          fv <- eval fuel' env f ;;
          a <- (fix go (es : list expr) (pos : list value)
                    (kw : list (string * value))
                  : R (list value * list (string * value)) :=
                  match es with
                  | [] => ret (pos, kw)
                  | EStarred e' :: es' =>
                      match kw with
                      | [] =>
                          v <- eval fuel' env e' ;;
                          items <- unpacked v ;;
                          go es' (pos ++ items) kw
                      | _ => unsupported "unpacking after a keyword"
                      end
                  | EKeyword (Some k) e' :: es' =>
                      v <- eval fuel' env e' ;;
                      match assoc k kw with
                      | None => go es' pos (kw ++ [(k, v)])
                      | Some _ => unsupported "a keyword given twice"
                      end
                  | EKeyword None e' :: es' =>
                      v <- eval fuel' env e' ;;
                      match v with
                      | VDict items =>
                          if forallb (λ kv, bool_decide (assoc (fst kv) kw = None))
                               items
                          then go es' pos (kw ++ items)
                          else unsupported "a keyword given twice"
                      | _ => unsupported "unpacking what is no dict"
                      end
                  | e' :: es' =>
                      match kw with
                      | [] => v <- eval fuel' env e' ;; go es' (pos ++ [v]) kw
                      | _ => unsupported "a positional argument after a keyword"
                      end
                  end) args [] [] ;;
          call fuel' fv (fst a) (snd a)
      | EStarred _ | EKeyword _ _ => unsupported "an argument outside a call"
      | EAwait v => r <- eval fuel' env v ;; await fuel' r
      | EList es => vs <- eval_each es ;; a <- alloc (OList vs) ;; ret (VRef a)
      | ETuple es => vs <- eval_each es ;; ret (VTuple vs)
      | EListComp elt x it =>
          src <- eval fuel' env it ;;
          h <- (λ s, (inr (heap s), s)) ;;
          let frame_of :=
            alloc (OFrame (qualified h env "<listcomp>") [x] []) in
          let collect :=
            fix go (frame : nat) (items : list value) : R (list value) :=
              match items with
              | [] => ret []
              | i :: items' =>
                  bind_name [frame] x i ;;;
                  v <- eval fuel' (frame :: env) elt ;;
                  vs <- go frame items' ;;
                  ret (v :: vs)
              end in
          match src with
          | VRange start stop step =>
              let n := range_len start stop step in
              if n =? 0 then a <- alloc (OList []) ;; ret (VRef a)
              else if arithmetic x elt && (Z.of_nat iterations <? n) then
                let '(lo, hi) := range_hull start step n in
                item <- lift (arithmetic_value h (VInt lo hi) elt) ;;
                a <- alloc (OSeq n item) ;; ret (VRef a)
              else if n <=? Z.of_nat iterations then
                frame <- frame_of ;;
                vs <- collect frame
                        (map (λ z, VInt z z) (range_items start stop step)) ;;
                a <- alloc (OList vs) ;; ret (VRef a)
              else unsupported "a comprehension over a long range"
          | VTuple items =>
              frame <- frame_of ;;
              vs <- collect frame items ;;
              a <- alloc (OList vs) ;; ret (VRef a)
          | VRef l =>
              touch l ;;;
              frame <- frame_of ;;
              vs <- (fix go (budget i : nat) : R (list value) :=
                       match budget with
                       | O => unsupported "a comprehension over a long list"
                       | S budget' =>
                           o <- object_at l ;;
                           match o with
                           | OList items =>
                               match items !! i with
                               | None => ret []
                               | Some item =>
                                   bind_name [frame] x item ;;;
                                   v <- eval fuel' (frame :: env) elt ;;
                                   vs <- go budget' (S i) ;;
                                   ret (v :: vs)
                               end
                           | _ => unsupported "a comprehension over this object"
                           end
                       end) iterations 0%nat ;;
              a <- alloc (OList vs) ;; ret (VRef a)
          | _ => fail (not_iterable h src)
          end
      | EBinOp l op r =>
          a <- eval fuel' env l ;;
          b <- eval fuel' env r ;;
          λ s, (binop_values (heap s) op a b, s)
      | ECompare l Eq r =>
          a <- eval fuel' env l ;;
          b <- eval fuel' env r ;;
          match equal_values a b with
          | Some c => ret (VBool c)
          | None => unsupported "a comparison that is not decided"
          end
      | ESubscript v i =>
          a <- eval fuel' env v ;;
          b <- eval fuel' env i ;;
          subscript a b
      end
  end

with exec (fuel : nat) (env : list nat) (s : stmt) {struct fuel} : R flow :=
  match fuel with
  | O => unsupported "calls nested too deep"
  | S fuel' =>
      let block :=
        fix go (ss : list stmt) : R flow :=
          match ss with
          | [] => ret Next
          | s' :: ss' =>
              f <- exec fuel' env s' ;;
              match f with
              | Next => go ss'
              | Return v => ret (Return v)
              end
          end in
      let eval_opt (o : option expr) : R (option value) :=
        match o with
        | Some e => v <- eval fuel' env e ;; ret (Some v)
        | None => ret None
        end in
      match s with
      | SImport m =>
          if bool_decide (m ∈ ["asyncio"; "inspect"; "random"; "sys"; "time";
                               "threading"; "typing"])
          then bind_name env m (VModule m) ;;; ret Next
          else unsupported ("the module " +:+ m)
      | SFunctionDef a n ps r body =>
          defaults <-
            (fix go (ps' : list param) : R (list (option value)) :=
               match ps' with
               | [] => ret []
               | p :: ps'' =>
                   d <- eval_opt (p_default p) ;;
                   ds <- go ps'' ;;
                   ret (d :: ds)
               end) ps ;;
          (fix go (ps' : list param) : R unit :=
             match ps' with
             | [] => ret tt
             | p :: ps'' => eval_opt (p_annotation p) ;;; go ps''
             end) ps ;;;
          eval_opt r ;;;
          h <- (λ s, (inr (heap s), s)) ;;
          f <- alloc (OFunction
                        (mkClosure a (qualified h env n)
                           (zip_with (λ p d, (p_name p, p_kind p, d)) ps defaults)
                           body (locals_of ps body) env)) ;;
          bind_name env n (VRef f) ;;;
          ret Next
      | SAssign x v => r <- eval fuel' env v ;; bind_name env x r ;;; ret Next
      | SAnnAssign x a v =>
          r <- eval fuel' env v ;;
          bind_name env x r ;;;
          match env with
          | [] => eval fuel' env a ;;; ret Next
          | _ => ret Next
          end
      | SExpr v =>
          r <- eval fuel' env v ;;
          match env with
          | [] => shown r ;;; ret Next    (* a notebook may display it *)
          | _ => ret Next
          end
      | SReturn v =>
          match env with
          | [] => unsupported "return outside a function"
          | _ => r <- eval fuel' env v ;; ret (Return r)
          end
      | SIf t body =>
          c <- eval fuel' env t ;;
          match c with VRef a => touch a | _ => ret tt end ;;;
          h <- (λ s, (inr (heap s), s)) ;;
          match truth h c with
          | Some true => block body
          | Some false => ret Next
          | None => unsupported "a test that is not decided"
          end
      | SFor x it body =>
          src <- eval fuel' env it ;;
          let each :=
            fix go (items : list value) : R flow :=
              match items with
              | [] => ret Next
              | i :: items' =>
                  bind_name env x i ;;;
                  f <- block body ;;
                  match f with
                  | Next => go items'
                  | Return v => ret (Return v)
                  end
              end in
          match src with
          | VRange start stop step =>
              if range_len start stop step <=? Z.of_nat iterations
              then each (map (λ z, VInt z z) (range_items start stop step))
              else unsupported "a loop over a long range"
          | VTuple items => each items
          | VRef l =>
              touch l ;;;
              (fix go (budget i : nat) : R flow :=
                 match budget with
                 | O => unsupported "a loop over a long list"
                 | S budget' =>
                     o <- object_at l ;;
                     match o with
                     | OList items =>
                         match items !! i with
                         | None => ret Next
                         | Some item =>
                             bind_name env x item ;;;
                             f <- block body ;;
                             match f with
                             | Next => go budget' (S i)
                             | Return v => ret (Return v)
                             end
                         end
                     | _ => unsupported "a loop over this object"
                     end
                 end) iterations 0%nat
          | _ => λ s, (inl (not_iterable (heap s) src), s)
          end
      | SDelete (EName x) =>
          match env with
          | [] => unbind_global x ;;; ret Next
          | a :: _ => unbind_local a x ;;; ret Next
          end
      | SDelete (ESubscript v i) =>
          a <- eval fuel' env v ;;
          b <- eval fuel' env i ;;
          delete_item a b ;;; ret Next
      | SDelete _ => unsupported "del of this target"
      end
  end

with call (fuel : nat) (f : value) (pos : list value)
    (kw : list (string * value)) {struct fuel} : R value :=
  match fuel with
  | O => unsupported "calls nested too deep"
  | S fuel' =>
      match f with
      | VBuiltin b => call_builtin b pos kw
      | VPrimitive m a =>
          if bool_decide ((m, a) = ("asyncio", "run")) then
            match pos, kw with
            | [v], [] =>
                λ s, if in_loop s
                     then (inl (PyError "RuntimeError"
                                  "asyncio.run() cannot be called from a running event loop"),
                           s)
                     else
                       match v with
                       | VRef c =>
                           match heap s !! c with
                           | Some (OCoroutine _ _) =>
                               match await fuel' v (set_in_loop true s) with
                               | (r, s') => (r, set_in_loop false s')
                               end
                           | _ => (inl (Unsupported "asyncio.run on no coroutine"), s)
                           end
                       | _ => (inl (Unsupported "asyncio.run on no coroutine"), s)
                       end
            | _, _ => unsupported "asyncio.run on these arguments"
            end
          else if bool_decide ((m, a) = ("threading", "Thread"))
          then new_thread pos kw
          else call_primitive m a pos kw
      | VMethod self name =>
          touch self ;;;
          o <- object_at self ;;
          match o, pos, kw with
          | OList items, [v], [] =>
              if bool_decide (name = "append")
              then store self (OList (items ++ [v])) ;;; ret VNone
              else unsupported ("the list method " +:+ name)
          | OThread target args kwargs st, [], [] =>
              if bool_decide (name = "start") then
                match st with
                | Started =>
                    raise "RuntimeError" "threads can only be started once"
                | Initial =>
                    store self (OThread target args kwargs Started) ;;;
                    λ s,
                      match thread_base s with
                      | Some _ =>
                          (inl (Unsupported "a thread started by a thread"), s)
                      | None =>
                          let inside :=
                            set_in_loop false
                              (set_thread (Some (length (heap s))) [] s) in
                          match
                            match target with
                            | VNone => (inr VNone, inside)
                            | _ => call fuel' target args kwargs inside
                            end
                          with
                          | (inl (Unsupported w), s') => (inl (Unsupported w), s')
                          | (inl (Unresolved a b), s') => (inl (Unresolved a b), s')
                          | (inl (PyError _ _), s') | (inr _, s') =>
                              (inr VNone,
                               set_unjoined
                                 ((self, thread_reads s') :: unjoined s)
                                 (set_in_loop (in_loop s) (set_thread None [] s')))
                          end
                      end
                end
              else if bool_decide (name = "join") then
                match st with
                | Initial =>
                    raise "RuntimeError" "cannot join thread before it is started"
                | Started =>
                    λ s, (inr VNone,
                          set_unjoined
                            (List.filter (λ t, negb (Nat.eqb (fst t) self))
                               (unjoined s)) s)
                end
              else unsupported ("the thread method " +:+ name)
          | _, _, _ => unsupported ("the method " +:+ name +:+ " on these arguments")
          end
      | VRef a =>
          o <- object_at a ;;
          match o with
          | OFunction c =>
              vars <- lift (bind_arguments c pos kw) ;;
              frame <- alloc (OFrame (c_qualname c) (c_locals c) vars) ;;
              if c_async c then
                co <- alloc (OCoroutine (Body (c_body c) (frame :: c_env c)) Fresh) ;;
                ret (VRef co)
              else
                r <- run fuel' (frame :: c_env c) (c_body c) ;;
                ret (match r with Next => VNone | Return v => v end)
          | _ => λ s, (inl (not_callable (heap s) f), s)
          end
      | _ => λ s, (inl (not_callable (heap s) f), s)
      end
  end

with await (fuel : nat) (v : value) {struct fuel} : R value :=
  match fuel with
  | O => unsupported "calls nested too deep"
  | S fuel' =>
      match v with
      | VRef a =>
          o <- object_at a ;;
          match o with
          | OCoroutine w st =>
              touch a ;;;
              match st with
              | Finished =>
                  raise "RuntimeError" "cannot reuse already awaited coroutine"
              | Running => unsupported "a coroutine awaiting itself"
              | Fresh =>
                  λ s,
                    if in_loop s then
                      match
                        match w with
                        | Sleep => (inr Next, set_heap (<[a := OCoroutine w Running]> (heap s)) s)
                        | Body body env =>
                            run fuel' env body
                              (set_heap (<[a := OCoroutine w Running]> (heap s)) s)
                        end
                      with
                      | (r, s') =>
                          (match r with
                           | inr Next => inr VNone
                           | inr (Return x) => inr x
                           | inl f => inl f
                           end,
                           set_heap (<[a := OCoroutine w Finished]> (heap s')) s')
                      end
                    else (inl (Unsupported "awaiting where no event loop runs"), s)
              end
          | _ =>
              λ s, (inl match type_name (heap s) v with
                        | Some t =>
                            PyError "TypeError"
                              ("object " +:+ t
                               +:+ " can't be used in 'await' expression")
                        | None => Unsupported "awaiting this object"
                        end, s)
          end
      | _ =>
          λ s, (inl match type_name (heap s) v with
                    | Some t =>
                        PyError "TypeError"
                          ("object " +:+ t
                           +:+ " can't be used in 'await' expression")
                    | None => Unsupported "awaiting this value"
                    end, s)
      end
  end

with run (fuel : nat) (env : list nat) (ss : list stmt) {struct fuel}
    : R flow :=
  match fuel with
  | O => unsupported "calls nested too deep"
  | S fuel' =>
      (fix go (ss' : list stmt) : R flow :=
         match ss' with
         | [] => ret Next
         | s :: ss'' =>
             f <- exec fuel' env s ;;
             match f with
             | Next => go ss''
             | Return v => ret (Return v)
             end
         end) ss
  end.

(** ** Compiling and running a cell *)

Fixpoint awaits_in_comprehension (e : expr) : bool :=
  match e with
  | EName _ | EInt _ | EStr _ => false
  | EJoinedStr vs => existsb awaits_in_comprehension vs
  | EFormattedValue v | EAttribute v _ | EStarred v | EKeyword _ v | EAwait v =>
      awaits_in_comprehension v
  | ECall f a => awaits_in_comprehension f || existsb awaits_in_comprehension a
  | EList es | ETuple es => existsb awaits_in_comprehension es
  | EListComp elt _ it =>
      has_await elt || has_await it
  | EBinOp l _ r | ECompare l _ r | ESubscript l r =>
      awaits_in_comprehension l || awaits_in_comprehension r
  end.

(** Plain parameters first, those with a default last among them, then
    at most one star and one star-star parameter, which have none. *)
Fixpoint well_ordered (stage : nat) (ps : list param) : bool :=
  match ps with
  | [] => true
  | p :: ps' =>
      match p_kind p, p_default p with
      | Positional, None => (stage =? 0)%nat && well_ordered 0 ps'
      | Positional, Some _ => (stage <=? 1)%nat && well_ordered 1 ps'
      | VarPositional, None => (stage <=? 1)%nat && well_ordered 2 ps'
      | VarKeyword, None => (stage <=? 2)%nat && well_ordered 3 ps'
      | _, Some _ => false
      end
  end.

(** What the compiler refuses besides await and return out of place, or
    may refuse, and what has another meaning than the one followed: a
    parameter name given twice, parameters in another order, an await
    inside a comprehension. *)
Fixpoint uncovered (s : stmt) : bool :=
  match s with
  | SFunctionDef _ _ ps _ body =>
      negb (bool_decide (NoDup (map p_name ps))) || negb (well_ordered 0 ps)
      || existsb uncovered body
  | SIf _ body | SFor _ _ body => existsb uncovered body
  | _ => false
  end
  || existsb awaits_in_comprehension (stmt_exprs s).

(** The frames a Python call may nest are many more than this. *)
Definition depth : nat := 400.

Definition run_cell (c : cell) (s : state) : status * state :=
  if existsb uncovered (source c)
  then (Failed (Unsupported "syntax that is not followed"), s)
  else
    match compile (top_level_await s) (source c) with
    | Some msg => (Failed (PyError "SyntaxError" msg), s)
    | None =>
        match run depth [] (source c) s with
        | (inr _, s') => (Ok, s')
        | (inl f, s') => (Failed f, s')
        end
    end.

Definition followed (st : status) : bool :=
  match st with
  | Ok | Failed (PyError _ _) => true
  | Failed (Unresolved _ _) | Failed (Unsupported _) => false
  end.

(** The cells one after the other in one session.  Behind a cell that
    is not followed to its end the state of the session is not known,
    and no cell is followed any more. *)
Fixpoint run_cells (cs : list cell) (s : state)
    : list (string * status) * state :=
  match cs with
  | [] => ([], s)
  | c :: cs' =>
      let '(st, s') := run_cell c s in
      if followed st then
        let '(rest, s'') := run_cells cs' s' in
        ((cell_id c, st) :: rest, s'')
      else
        ((cell_id c, st)
         :: map (λ c', (cell_id c',
                        Failed (Unsupported "a session that is not followed")))
              cs',
         s')
  end.

(** A fresh notebook kernel: its event loop is running, await is
    accepted at the top level, and __name__ is "__main__". *)
Definition jupyter : state :=
  mkState [("__name__", VStr (Some "__main__"))] [] true true None [] [].

(** A fresh interpreter started on a script. *)
Definition script : state :=
  mkState [("__name__", VStr (Some "__main__"))] [] false false None [] [].

End Interp.


(** * The notebook's session, and what is said about it *)

(** ** What the file records *)

Definition recorded_error (c : cell) : option (string * string) :=
  head (omap (λ o, match o with OError en ev => Some (en, ev) | _ => None end)
          (outputs c)).

Definition recorded_streams (c : cell) : list string :=
  omap (λ o, match o with OStream n _ => Some n | _ => None end) (outputs c).


(** The status the model gives a cell is the one the file records: no
    error on either side, or the same exception with a message the
    recorded one starts with. *)
Definition agrees (r : string * status) (c : cell) : Prop :=
  fst r = cell_id c ∧
  match snd r, recorded_error c with
  | Ok, None => True
  | Failed (PyError en ev), Some (en', ev') =>
      en = en' ∧ String.prefix ev ev' = true
  | _, _ => False
  end.

Definition is_failure (r : string * status) : bool :=
  match snd r with Ok => false | Failed _ => true end.

(** The session of the notebook: its cells run top to bottom in one
    fresh notebook kernel. *)
Definition session : list (string * status) * kernel := run_notebook jupyter.
Definition statuses : list (string * status) := fst session.
Definition session_log : list kevent := klog (snd session).

(** The same session with the cells run: calls entered, arguments bound,
    operators and primitives applied. *)
Definition outcomes : list (string * status) :=
  fst (Interp.run_cells notebook Interp.jupyter).


(** ** Cells on their own *)

Definition compiles (c : cell) : bool :=
  match compile true (source c) with None => true | Some _ => false end.

(** The names bound by the cells above position [i] that compile. *)
Definition bound_before (i : nat) : list string :=
  flat_map cell_binds (List.filter compiles (take i notebook)).

(** Cell [c] at position [i] runs in a fresh kernel, and whatever name it
    refers to that an earlier cell binds, it binds itself. *)
Definition self_contained (i : nat) (c : cell) : Prop :=
  fst (run_cell i c jupyter) = Ok ∧
  ∀ x, x ∈ cell_refers c → x ∈ bound_before i → x ∈ cell_binds c.

Definition cells_self_contained : Prop :=
  ∀ i c, notebook !! i = Some c → self_contained i c.

(** A name the cell at position [i] refers to is one of the language, of
    the kernel, of the cell itself, or of a cell above. *)
Definition resolves_at (i : nat) (c : cell) (x : string) : Prop :=
  x ∈ builtin_names ∨ x = "__name__" ∨ x ∈ cell_binds c ∨ x ∈ bound_before i.

(** The names a cell takes from the cells above it. *)
Definition taken_from_above (i : nat) (c : cell) : list string :=
  remove_dups
    (filter (λ x, x ∈ bound_before i ∧ x ∉ cell_binds c) (cell_refers c)).

(** ** State across cells *)

(** The event touches no binding of another cell. *)
Definition stays_in_cell (ev : kevent) : Prop :=
  match ev with
  | Read r _ (FromCell o) => r = o
  | Needs r _ _ (FromCell o) => r = o
  | Bound r _ (Some (FromCell o)) => r = o
  | _ => True
  end.

Definition no_state_crosses : Prop := Forall stays_in_cell session_log.

(** In the order the cells stand in, no cell refers to a global that
    only cells below it bind: what it refers to and some cell of the list
    binds, the cell itself or one above it binds.  Cells that do not
    compile bind nothing. *)
Definition downwards (cells : list cell) : Prop :=
  Forall (λ ic,
    Forall (λ x, x ∈ flat_map cell_binds (List.filter compiles cells) →
                 x ∈ flat_map cell_binds
                       (List.filter compiles (take (S (fst ic)) cells)))
      (cell_refers (snd ic)))
    (imap pair cells).

(** The names whose binding by one cell is used by another. *)
Definition read_across (log : list kevent) : list string :=
  remove_dups (omap (λ ev,
    match ev with
    | Read r x (FromCell o) => if decide (r = o) then None else Some x
    | Needs r _ x (FromCell o) => if decide (r = o) then None else Some x
    | _ => None
    end) log).

(** The names one cell binds over the binding of another. *)
Definition rebound_across (log : list kevent) : list string :=
  remove_dups (omap (λ ev,
    match ev with
    | Bound r x (Some (FromCell o)) => if decide (r = o) then None else Some x
    | _ => None
    end) log).

(** The globals bound in the session that no other cell than the one
    binding them refers to. *)
Definition kept_to_cell (log : list kevent) : list string :=
  remove_dups (omap (λ ev,
    match ev with
    | Bound r x _ =>
        if bool_decide (Forall (λ jc, fst jc = r ∨ x ∉ cell_refers (snd jc))
                          (imap pair notebook))
        then Some x else None
    | _ => None
    end) log).

(** The globals bound in the session. *)
Definition bound_in (log : list kevent) : list string :=
  remove_dups (omap (λ ev, match ev with Bound _ x _ => Some x | _ => None end)
                 log).

(** ** What the notebook uses *)

Definition imported : list string := flat_map cell_imports notebook.

Definition used_attrs : list (string * string) :=
  remove_dups (flat_map cell_attrs notebook).

(** module.attr with an imported module as base *)
Definition primitives_used : list (string * string) :=
  filter (λ p, fst p ∈ imported) used_attrs.

(** object.attr for any other base *)
Definition methods_used : list string :=
  remove_dups (map snd (filter (λ p, fst p ∉ imported) used_attrs)).

Definition builtins_used : list string :=
  remove_dups (filter (λ x, x ∈ builtin_names) (flat_map cell_refers notebook)).

Definition defined_functions : list (string * bool) :=
  flat_map cell_defs notebook.

(** The names bound anywhere in the notebook by something else than an
    import: globals of cells and locals of functions. *)
Definition bound_otherwise : list string :=
  flat_map (λ c, flat_map (λ s, match s with SImport _ => [] | _ => stmt_binds s end)
                   (source c)
                 ++ flat_map stmt_locals (source c)) notebook.

Definition effects_used : list effect :=
  remove_dups
    (omap (λ p, primitive_effect (fst p) (snd p)) primitives_used
     ++ omap (λ m, assoc m methods) methods_used
     ++ omap (λ b, assoc b builtins) builtins_used).

(** Every stream the file records under the cell is standard output. *)
Definition only_stdout (c : cell) : Prop :=
  Forall (λ n, n = "stdout") (recorded_streams c).

Global Instance resolves_at_dec i c x : Decision (resolves_at i c x).
Proof. unfold resolves_at. apply _. Defined.

Global Instance stays_in_cell_dec ev : Decision (stays_in_cell ev).
Proof.
  destruct ev as [r x [|o]|r f x [|o]|r x|r x [[|o]|]|r m]; simpl; apply _.
Defined.

Global Instance downwards_dec cells : Decision (downwards cells).
Proof. unfold downwards. apply _. Defined.

Global Instance only_stdout_dec c : Decision (only_stdout c).
Proof. unfold only_stdout. apply _. Defined.

(** Closed, decidable statements about the notebook are settled by
    running their decision procedure. *)
Ltac by_running := apply (bool_decide_unpack _); vm_compute; exact I.

(** * More of the notebook's code *)

(** ** Reading a trace *)

(** The seconds slept, in all. *)
Definition slept_total (tr : list event) : Z :=
  fold_right (λ ev acc, match ev with Slept s => s + acc | Printed _ => acc end)
    0 tr.

(** The lines printed, in order. *)
Definition printed_lines (tr : list event) : list string :=
  omap (λ ev, match ev with Printed l => Some l | Slept _ => None end) tr.

(** sum of a list of integers *)
Definition total (xs : list Z) : Z := fold_right Z.add 0 xs.

Section MoreSnippets.
Context {F : Type} `{PyFloat F}.

(** The [j]-th integer random.randint(1, 5) gives from world [w] on. *)
Definition draw (w : world F) (j : nat) : Z :=
  1 + rand_src w (rand_ix w + j)%nat `mod` 5.

(** What one call routine(name) that draws [n] leaves in the trace. *)
Definition routine_events (name : string) (n : Z) : list event :=
  [ Printed (name +:+ " is sleeping for " +:+ pretty n +:+ " seconds.");
    Slept n;
    Printed (name +:+ " has woken up.") ].

(** io_bound as a callable *)
Definition io_bound_call (a : call_args Z) : M F unit :=
  match bind_params "io_bound" ["sleep_time"] (args a) (kwargs a) with
  | inl e => raise e
  | inr [sleep_time] => io_bound sleep_time
  | inr _ => raise (TypeError "io_bound()")
  end.

(** The line a timer called [name] prints for two clock readings. *)
Definition timing_line (name : string) (started ended : F) : string :=
  name +:+ " elapsed time: " +:+ frepr (fround (fsub ended started) 2).
End MoreSnippets.

(** ** Cell e1bcdd45: reference counts

    An object is known by its identity, its position in the heap.  A
    reference to it is a global name bound to it or an item of a list.
    The reference count of an object is the number of these; an object
    nothing refers to is freed, and what it referred to is let go of. *)

Module Refs.

Inductive pyobject :=
| Plain                       (* object() *)
| ListOf (items : list nat)   (* a list, holding references *)
| Freed.

Record heap := mkHeap {
  objects : list pyobject;
  names : list (string * nat)
}.

Inductive error :=
| NameError (name : string)
| AttributeError (attr : string)
| TypeError (msg : string)
| IndexError (msg : string)
| Dangling (name : string).   (* the name refers to no live object: a
                                 heap Python is never in *)

(** How often object [o] refers to [id]. *)
Definition held_by (id : nat) (o : pyobject) : nat :=
  match o with
  | ListOf items => length (List.filter (Nat.eqb id) items)
  | Plain | Freed => 0
  end.

Definition held_in (id : nat) (os : list pyobject) : nat :=
  fold_right (λ o acc, held_by id o + acc)%nat 0%nat os.

Definition named (id : nat) (ns : list (string * nat)) : nat :=
  length (List.filter (λ b, Nat.eqb id (snd b)) ns).

Definition refcount (h : heap) (id : nat) : nat :=
  (named id (names h) + held_in id (objects h))%nat.

(** sys.getrefcount(name): one more than the count, for the reference
    the call itself holds. *)
Definition lookup_name (x : string) (h : heap) : option nat :=
  snd <$> List.find (λ b, bool_decide (fst b = x)) (names h).

Definition getrefcount (x : string) (h : heap) : error + nat :=
  match lookup_name x h with
  | Some id => inr (S (refcount h id))
  | None => inl (NameError x)
  end.

(** Free what nothing refers to, and then what only the freed referred
    to, and so on. *)
Definition sweep (h : heap) : heap :=
  mkHeap (imap (λ id o, if Nat.eqb (refcount h id) 0 then Freed else o)
            (objects h))
         (names h).

Fixpoint collect_for (rounds : nat) (h : heap) : heap :=
  match rounds with
  | O => h
  | S rounds' => collect_for rounds' (sweep h)
  end.

Definition collect (h : heap) : heap := collect_for (length (objects h)) h.

(** name = <a new object> *)
Definition bind_new (x : string) (o : pyobject) (h : heap) : heap :=
  collect
    (mkHeap (objects h ++ [o])
       ((x, length (objects h))
        :: List.filter (λ b, negb (bool_decide (fst b = x))) (names h))).

(** obj = object() *)
Definition new_object (x : string) : heap → heap := bind_new x Plain.

(** lst = [] *)
Definition new_list (x : string) : heap → heap := bind_new x (ListOf []).

(** lst.append(obj) *)
Definition append (lst obj : string) (h : heap) : error + heap :=
  match lookup_name lst h with
  | None => inl (NameError lst)
  | Some l =>
      match objects h !! l with
      | Some (ListOf items) =>
          match lookup_name obj h with
          | None => inl (NameError obj)
          | Some o =>
              inr (mkHeap (<[l := ListOf (items ++ [o])]> (objects h))
                          (names h))
          end
      | Some Plain => inl (AttributeError "'object' object has no attribute 'append'")
      | Some Freed | None => inl (Dangling lst)
      end
  end.

(** The position a list index stands for: negative ones count from the
    end. *)
Definition position (len : nat) (index : Z) : option nat :=
  if index <? 0 then
    if - index <=? Z.of_nat len then Some (Z.to_nat (Z.of_nat len + index))
    else None
  else if index <? Z.of_nat len then Some (Z.to_nat index) else None.

(** The largest index-sized integer (and the longest list). *)
Definition ssize_max : Z := 2 ^ 63 - 1.

Definition index_sized (index : Z) : bool :=
  (- ssize_max - 1 <=? index) && (index <=? ssize_max).

(** del lst[index].  An index that is no index-sized integer is refused
    as such; being longer than any list, it is at no position. *)
Definition del_item (lst : string) (index : Z) (h : heap) : error + heap :=
  match lookup_name lst h with
  | None => inl (NameError lst)
  | Some l =>
      match objects h !! l with
      | Some (ListOf items) =>
          match position (length items) index with
          | Some i =>
              inr (collect (mkHeap (<[l := ListOf (delete i items)]> (objects h))
                                   (names h)))
          | None =>
              if index_sized index
              then inl (IndexError "list assignment index out of range")
              else inl (IndexError "cannot fit 'int' into an index-sized integer")
          end
      | Some Plain => inl (TypeError "'object' object doesn't support item deletion")
      | Some Freed | None => inl (Dangling lst)
      end
  end.

Global Instance error_bind : MBind (sum error) := λ A B k r,
  match r with inr a => k a | inl e => inl e end.

(** The cell, top to bottom: the lines it prints. *)
Definition refcount_line (label x : string) (h : heap) : error + string :=
  match getrefcount x h with
  | inr n => inr (label +:+ pretty n)
  | inl e => inl e
  end.

Definition cell_e1bcdd45_top (h : heap) : error + list string :=
  let h := new_object "obj" h in
  let h := new_list "lst" h in
  l1 ← refcount_line "obj: refcount = " "obj" h;
  l2 ← refcount_line "lst: refcount = " "lst" h;
  h ← append "lst" "obj" h;
  l3 ← refcount_line "lst: refcount = " "lst" h;
  l4 ← refcount_line "obj: refcount = " "obj" h;
  h ← del_item "lst" 0 h;
  l5 ← refcount_line "del lst[0]: refcount = " "lst" h;
  inr [ "Empty structures"; l1; l2 +:+ nl; "lst.append(obj)"; l3; l4 +:+ nl; l5 ].


(** Nothing is left to free: whatever is not freed is referred to. *)
Definition tidy (h : heap) : Prop :=
  ∀ id o, objects h !! id = Some o → o ≠ Freed → (0 < refcount h id)%nat.

Definition empty : heap := mkHeap [] [].

(** An empty list bound to lst. *)
Definition empty_list_heap : heap := new_list "lst" empty.

(** A list bound to lst that holds the object bound to obj. *)
Definition demo_heap : heap :=
  mkHeap [ListOf [1%nat]; Plain] [("lst", 0%nat); ("obj", 1%nat)].


End Refs.
(** * Facts about the builtins *)

Lemma py_sum_from (xs : list Z) (acc : Z) :
  fold_left Z.add xs acc = acc + py_sum xs.
Proof.
  unfold py_sum. revert acc.
  induction xs as [|x xs IH]; intros acc; simpl; [lia|].
  rewrite (IH (acc + x)), (IH (0 + x)). lia.
Qed.

Lemma py_sum_squares (nums : list Z) :
  py_sum (map (λ num, num ^ 2) nums) = sum_squares_over nums.
Proof.
  induction nums as [|n nums IH]; [reflexivity|].
  unfold py_sum in *. simpl fold_left. rewrite py_sum_from.
  unfold py_sum. rewrite IH. simpl. lia.
Qed.

Lemma range_len_nonneg start stop step : 0 <= range_len start stop step.
Proof.
  unfold range_len.
  destruct (Z.ltb_spec 0 step); [destruct (Z.ltb_spec start stop); [|lia]|].
  - assert (0 <= (stop - start - 1) / step) by (apply Z.div_pos; lia). lia.
  - destruct (Z.ltb_spec step 0); [|lia].
    destruct (Z.ltb_spec stop start); [|lia].
    assert (0 <= (start - stop - 1) / (- step)) by (apply Z.div_pos; lia). lia.
Qed.

(** An index is below the length exactly when its number is before stop. *)
Lemma range_len_index start stop step k :
  step ≠ 0 → 0 <= k →
  (k < range_len start stop step ↔
   if 0 <? step then start + k * step < stop else stop < start + k * step).
Proof.
  intros Hstep Hk. unfold range_len.
  destruct (Z.ltb_spec 0 step) as [Hpos|Hneg].
  - destruct (Z.ltb_spec start stop) as [Hlt|Hge].
    + split; intros Hk'.
      * assert (k <= (stop - start - 1) / step) as Hq by lia.
        assert (step * k <= stop - start - 1); [|lia].
        etransitivity; [apply Z.mul_le_mono_nonneg_l; [lia|exact Hq]|].
        apply Z.mul_div_le. lia.
      * assert (k <= (stop - start - 1) / step); [|lia].
        apply Z.div_le_lower_bound; lia.
    + split; [lia|]. intros. nia.
  - destruct (Z.ltb_spec step 0) as [Hlt0|]; [|lia].
    destruct (Z.ltb_spec stop start) as [Hlt|Hge].
    + split; intros Hk'.
      * assert (k <= (start - stop - 1) / (- step)) as Hq by lia.
        assert ((- step) * k <= start - stop - 1); [|lia].
        etransitivity; [apply Z.mul_le_mono_nonneg_l; [lia|exact Hq]|].
        apply Z.mul_div_le. lia.
      * assert (k <= (start - stop - 1) / (- step)); [|lia].
        apply Z.div_le_lower_bound; lia.
    + split; [lia|]. intros. nia.
Qed.

Lemma range_items_spec start stop step num :
  step ≠ 0 → (In num (range_items start stop step) ↔ in_range start stop step num).
Proof.
  intros Hstep. unfold range_items, in_range. rewrite in_map_iff. split.
  - intros (i & <- & Hi). apply in_seq in Hi. exists (Z.of_nat i).
    split; [lia|]. split; [reflexivity|].
    apply range_len_index; [done|lia|].
    pose proof (range_len_nonneg start stop step). lia.
  - intros (k & Hk & -> & Hb). exists (Z.to_nat k).
    split; [f_equal; lia|]. apply in_seq.
    apply range_len_index in Hb; [|done|done]. lia.
Qed.

Lemma range_items_NoDup start stop step :
  step ≠ 0 → List.NoDup (range_items start stop step).
Proof.
  intros Hstep. unfold range_items.
  apply Finite.Injective_map_NoDup; [|apply seq_NoDup].
  intros i j Hij. nia.
Qed.

Lemma range_items_empty start stop step :
  step ≠ 0 → range_empty start stop step → range_items start stop step = [].
Proof.
  intros Hstep He. unfold range_items, range_len, range_empty in *.
  destruct (Z.ltb_spec 0 step).
  - destruct (Z.ltb_spec start stop); [lia|reflexivity].
  - destruct (Z.ltb_spec step 0); [|reflexivity].
    destruct (Z.ltb_spec stop start); [lia|reflexivity].
Qed.

Lemma sum_squares_over_app (xs ys : list Z) :
  sum_squares_over (xs ++ ys) = sum_squares_over xs + sum_squares_over ys.
Proof.
  induction xs as [|x xs IH]; simpl; [reflexivity|]. rewrite IH. lia.
Qed.

(** Six times the sum of the squares of [n] consecutive integers from [a]. *)
Lemma sum_squares_consecutive (a : Z) (n : nat) :
  6 * sum_squares_over (map (λ i, a + Z.of_nat i * 1) (seq 0 n))
  = (a + Z.of_nat n - 1) * (a + Z.of_nat n) * (2 * (a + Z.of_nat n) - 1)
    - (a - 1) * a * (2 * a - 1).
Proof.
  induction n as [|n IH]; [simpl; lia|].
  rewrite seq_S, map_app, sum_squares_over_app. simpl. nia.
Qed.

(** * The functions of the notebook *)

Section SnippetFacts.
Context {F : Type} `{PyFloat F}.

Lemma cpu_bound_run (start end_ step : Z) (w : world F) :
  step ≠ 0 →
  cpu_bound start end_ step w
  = (Returned (sum_squares_over (range_items start end_ step)), w).
Proof.
  intros Hstep. unfold cpu_bound, bind, py_range, ret.
  destruct (Z.eqb_spec step 0); [done|].
  by rewrite py_sum_squares.
Qed.

(** A zero step is refused by range and cpu_bound raises. *)
Lemma cpu_bound_zero_step (start end_ : Z) (w : world F) :
  cpu_bound start end_ 0 w
  = (Raised (ValueError "range() arg 3 must not be zero"), w).
Proof. reflexivity. Qed.

(** With step 1 the sum has a closed form. *)
Lemma cpu_bound_step_one (start end_ : Z) (w : world F) :
  start <= end_ →
  ∃ r, cpu_bound start end_ 1 w = (Returned r, w) ∧
       6 * r = (end_ - 1) * end_ * (2 * end_ - 1)
               - (start - 1) * start * (2 * start - 1).
Proof.
  intros Hle. eexists. split; [apply cpu_bound_run; lia|].
  unfold range_items. rewrite sum_squares_consecutive.
  assert (Z.of_nat (Z.to_nat (range_len start end_ 1)) = end_ - start) as ->.
  { unfold range_len. simpl.
    destruct (Z.ltb_spec start end_); [rewrite Z.div_1_r|]; lia. }
  f_equal; f_equal; try f_equal; lia.
Qed.

(** The value the notebook shows under cell 0064bcd7. *)
Lemma cpu_bound_squares_cell (w : world F) :
  cpu_bound 1 10000000 1 w = (Returned 333333283333335000000, w).
Proof.
  destruct (cpu_bound_step_one 1 10000000 w) as (r & -> & Hr); [lia|].
  f_equal. f_equal. lia.
Qed.

(** C7: for a non-zero step, cpu_bound(start, end, step) returns the sum
    of num squared over the numbers of range(start, end, step): these
    are, each once, the numbers start + k*step (k = 0, 1, ...) before
    end in the direction of step; and it returns 0 when there is none.
    The world is left as it was. *)
Theorem cpu_bound_sum_of_squares (start end_ step : Z) (w : world F) :
  step ≠ 0 →
  cpu_bound start end_ step w
    = (Returned (sum_squares_over (range_items start end_ step)), w)
  ∧ (∀ num, In num (range_items start end_ step)
            ↔ in_range start end_ step num)
  ∧ List.NoDup (range_items start end_ step)
  ∧ (range_empty start end_ step →
     cpu_bound start end_ step w = (Returned 0, w)).
Proof.
  intros Hstep. split; [by apply cpu_bound_run|].
  split; [intros num; by apply range_items_spec|].
  split; [by apply range_items_NoDup|].
  intros He. rewrite cpu_bound_run by done.
  by rewrite range_items_empty.
Qed.

(** A sleep of a length time.sleep accepts returns after that long. *)
Lemma time_sleep_run (secs : Z) (w : world F) :
  0 <= secs <= sleep_max →
  time_sleep secs w
  = (Returned tt,
     mkWorld (time_src w) (time_ix w) (rand_src w) (rand_ix w)
       (trace w ++ [Slept secs])).
Proof.
  intros Hs. unfold time_sleep.
  assert (0 <= sleep_max) as Hmax by (by vm_compute).
  destruct (Z.ltb_spec secs (- sleep_max)); [lia|].
  destruct (Z.ltb_spec sleep_max secs); [lia|].
  destruct (Z.ltb_spec secs 0); [lia|]. reflexivity.
Qed.

(** C8: routine draws sleep_time in 1..5, prints it, sleeps for it and
    returns its tenth power, a number between 1 and 9765625. *)
Theorem routine_returns_tenth_power (name : string) (w : world F) :
  ∃ sleep_time : Z,
    sleep_time = 1 + rand_src w (rand_ix w) `mod` 5
    ∧ 1 <= sleep_time <= 5
    ∧ routine name w
      = (Returned (sleep_time ^ 10),
         mkWorld (time_src w) (time_ix w) (rand_src w) (S (rand_ix w))
           (trace w ++
            [Printed (name +:+ " is sleeping for " +:+ pretty sleep_time
                      +:+ " seconds.");
             Slept sleep_time;
             Printed (name +:+ " has woken up.")]))
    ∧ 1 <= sleep_time ^ 10 <= 9765625.
Proof.
  eexists. split; [reflexivity|].
  pose proof (Z.mod_pos_bound (rand_src w (rand_ix w)) 5 eq_refl) as Hm.
  set (n := 1 + rand_src w (rand_ix w) `mod` 5) in *.
  assert (1 <= n <= 5) as Hn by lia.
  split; [exact Hn|]. split.
  - unfold routine, bind.
    assert (random_randint 1 5 w
            = (Returned n, mkWorld (time_src w) (time_ix w) (rand_src w)
                             (S (rand_ix w)) (trace w))) as -> by reflexivity.
    unfold print, emit. cbv beta iota. rewrite time_sleep_run
      by (assert (5 <= sleep_max) by (by vm_compute); lia).
    unfold ret. cbn [time_src time_ix rand_src rand_ix trace].
    by rewrite <- !app_assoc.
  - assert (n = 1 ∨ n = 2 ∨ n = 3 ∨ n = 4 ∨ n = 5) as Hc by lia.
    destruct Hc as [->|[->|[->|[->| ->]]]]; simpl; lia.
Qed.

(** The wrapper reads the clock, runs func on the arguments it was
    given, and on return reads the clock again, prints one line and
    hands the result on. *)
Lemma wrapper_run {V R} (name : string)
    (func : call_args V → M F R) (a : call_args V) (w : world F) :
  match func a (snd (time_time w)) with
  | (Returned res, w') =>
      wrapper name func a w
      = (Returned res,
         mkWorld (time_src w') (S (time_ix w')) (rand_src w') (rand_ix w')
           (trace w' ++
            [Printed (name +:+ " elapsed time: " +:+
               frepr (fround (fsub (time_src w' (time_ix w'))
                                   (time_src w (time_ix w))) 2))]))
  | (Raised e, w') => wrapper name func a w = (Raised e, w')
  end.
Proof.
  unfold wrapper, bind, time_time; simpl.
  destruct (func a _) as [[res|e] w']; reflexivity.
Qed.

(** C6: named_timer(name)(func) hands its arguments to func unchanged
    and returns what that call returns (or raises what it raises); on
    return it has read the clock once more and printed one line. *)
Theorem named_timer_return_transparent {V R} (name : string)
    (func : call_args V → M F R) (a : call_args V) (w : world F) :
  let started := snd (time_time w) in
  match func a started with
  | (Returned res, w') =>
      named_timer name func a w
      = (Returned res,
         mkWorld (time_src w') (S (time_ix w')) (rand_src w') (rand_ix w')
           (trace w' ++
            [Printed (name +:+ " elapsed time: " +:+
               frepr (fround (fsub (time_src w' (time_ix w'))
                                   (time_src w (time_ix w))) 2))]))
  | (Raised e, w') => named_timer name func a w = (Raised e, w')
  end.
Proof. exact (wrapper_run name func a w). Qed.
End SnippetFacts.

(** The code of cell 0064bcd7, under a clock that advances 3.01 seconds
    over the call, shows what the file records. *)
Lemma cell_0064bcd7_reproduced (w : world Z) :
  time_src w (S (time_ix w)) - time_src w (time_ix w) = 301 →
  fst (cell_0064bcd7_top w) = Returned 333333283333335000000
  ∧ trace (snd (cell_0064bcd7_top w))
    = trace w ++ [Printed "Squares elapsed time: 3.01"]
  ∧ outputs cell_0064bcd7
    = [ OStream "stdout" ["Squares elapsed time: 3.01"];
        OExecuteResult (pretty 333333283333335000000) ].
Proof.
  intros Hclock. unfold cell_0064bcd7_top, named_timer, timer.
  pose proof (wrapper_run "Squares" cpu_bound_call
                (mkArgs [1; 10000000; 1] []) w) as Hrun.
  change (cpu_bound_call (mkArgs [1; 10000000; 1] []))
    with (cpu_bound (F:=Z) 1 10000000 1) in Hrun.
  rewrite cpu_bound_squares_cell in Hrun. rewrite Hrun.
  cbn [fst snd trace time_time time_src time_ix].
  split; [reflexivity|]. split; [|by vm_compute].
  cbn [fsub fround frepr Hundredths]. rewrite Hclock. reflexivity.
Qed.

Lemma cpu_bound_sum_of_squares_witness :
  2 ≠ 0
  ∧ cpu_bound 1 10 2 demo_world = (Returned 165, demo_world)
  ∧ cpu_bound 5 5 2 demo_world = (Returned 0, demo_world).
Proof.
  assert (2 ≠ 0) as Hstep by discriminate.
  destruct (cpu_bound_sum_of_squares 1 10 2 demo_world Hstep)
    as (Hrun & _ & _ & _).
  destruct (cpu_bound_sum_of_squares 5 5 2 demo_world Hstep)
    as (_ & _ & _ & Hempty).
  split; [exact Hstep|]. split; [exact Hrun|].
  apply Hempty. unfold range_empty. simpl. discriminate.
Defined.

(** * The kernel *)

Section KernelFacts.
Implicit Types (k : kernel) (i : nat).

(** A name that neither the kernel nor the language knows. *)
Lemma load_unbound i k x :
  globals k !! x = None → x ∉ builtin_names →
  load i [] x k
  = (inl (PyError "NameError" ("name '" +:+ x +:+ "' is not defined")), k).
Proof.
  intros Hg Hb. unfold load.
  destruct (decide (x ∈ [])) as [Hin|_]; [by apply elem_of_nil in Hin|].
  rewrite Hg. by destruct (decide (x ∈ builtin_names)).
Qed.

(** asyncio.run() refuses to start under a running event loop, and
    only then. *)
Lemma call_asyncio_run k :
  call (APrimitive "asyncio" "run") k
  = if loop_running k
    then (inl (PyError "RuntimeError"
                 "asyncio.run() cannot be called from a running event loop"), k)
    else (inr AObject, k).
Proof. reflexivity. Qed.

Lemma first_error_In (errs : list (option string)) (msg : string) :
  In (Some msg) errs → is_Some (first_error errs).
Proof.
  induction errs as [|e errs IH]; simpl; [done|].
  intros [->|Hin]; [by eexists|].
  destruct e; [by eexists|by apply IH].
Qed.

(** A plain def with an awaiting statement in its body compiles in no
    kernel. *)
Lemma await_in_def_rejected (top_level_await : bool) (n : string)
    (ps : list param) (r : option expr) (body : list stmt) (e : expr) :
  has_await e = true → In (SExpr e) body →
  is_Some (compile top_level_await [SFunctionDef false n ps r body]).
Proof.
  intros He Hin.
  assert (is_Some (syntax_error top_level_await InModule
                     (SFunctionDef false n ps r body))) as [m Hm].
  { cbn [syntax_error].
    apply (first_error_In _ "'await' outside async function").
    do 3 (apply in_or_app; right).
    apply in_map_iff. exists (SExpr e). split; [|done].
    cbn [syntax_error]. unfold await_allowed. by rewrite He. }
  unfold compile. cbn [map first_error List.fold_right].
  rewrite Hm. by eexists.
Qed.

(** A cell that does not compile leaves the kernel as it was. *)
Lemma run_cell_syntax_error i c k msg :
  compile (autoawait k) (source c) = Some msg →
  run_cell i c k = (Failed (PyError "SyntaxError" msg), k).
Proof. intros Hc. unfold run_cell. by rewrite Hc. Qed.
End KernelFacts.

(** * The notebook *)

(** The file numbers the runs of its cells 1 to 17, top to bottom. *)
Lemma executed_top_to_bottom :
  map execution_count notebook = seq 1 (length notebook).
Proof. reflexivity. Qed.

(** The code under cell 7564be76, run in the demo world, prints what the
    file records. *)
Lemma cell_7564be76_reproduced :
  let run := cell_7564be76_top demo_world in
  fst run = Returned [1; 59049; 1]
  ∧ omap (λ ev, match ev with Printed l => Some l | _ => None end)
      (trace (snd run))
    = [ "R3 is sleeping for 1 seconds."; "R3 has woken up.";
        "R2 is sleeping for 3 seconds."; "R2 has woken up.";
        "R1 is sleeping for 1 seconds."; "R1 has woken up.";
        "Results = [1, 59049, 1]"; "Elapsed time: 5.0" ]
  ∧ outputs cell_7564be76
    = [ OStream "stdout"
          (omap (λ ev, match ev with Printed l => Some l | _ => None end)
             (trace (snd run))) ].
Proof. vm_compute. done. Qed.

(** ** The cells run *)

Section RunFacts.
Import Interp.

(** asyncio.run refuses to start under a running event loop, whatever
    it is given, and leaves the session as it was. *)
Lemma asyncio_run_in_loop (fuel : nat) (v : value) (s : state) :
  in_loop s = true →
  call (S fuel) (VPrimitive "asyncio" "run") [v] [] s
  = (inl (PyError "RuntimeError"
            "asyncio.run() cannot be called from a running event loop"), s).
Proof. intros Hloop. destruct s. simpl in Hloop. subst. reflexivity. Qed.

(** Where no event loop is running it runs the coroutine it is given. *)
Lemma asyncio_run_outside_loop (fuel : nat) (c : nat) (w : work)
    (st : coroutine_state) (s : state) :
  in_loop s = false → heap s !! c = Some (OCoroutine w st) →
  call (S fuel) (VPrimitive "asyncio" "run") [VRef c] [] s
  = let '(r, s') := await fuel (VRef c) (set_in_loop true s) in
    (r, set_in_loop false s').
Proof.
  intros Hloop Hc. destruct s as [g h l t b rd u]. simpl in Hloop, Hc. subst l.
  change (call (S fuel) (VPrimitive "asyncio" "run") [VRef c] []
            (mkState g h false t b rd u))
    with (match h !! c with
          | Some (OCoroutine _ _) =>
              let '(r, s') := await fuel (VRef c)
                                (set_in_loop true (mkState g h false t b rd u)) in
              (r, set_in_loop false s')
          | _ => (inl (Unsupported "asyncio.run on no coroutine"),
                  mkState g h false t b rd u)
          end).
  by rewrite Hc.
Qed.

(** A cell that does not compile runs no statement. *)
Lemma run_cell_not_compiled (c : cell) (s : state) (msg : string) :
  existsb uncovered (source c) = false →
  compile (top_level_await s) (source c) = Some msg →
  run_cell c s = (Failed (PyError "SyntaxError" msg), s).
Proof. intros Hcov Hc. unfold run_cell. by rewrite Hcov, Hc. Qed.

(** A call with too few arguments is refused before the body runs. *)
Lemma missing_argument (c : closure) (n : string) :
  c_params c = [(n, Positional, None)] →
  bind_arguments c [] []
  = inl (PyError "TypeError"
           (c_qualname c +:+ "() missing 1 required positional argument: "
            +:+ quoted n)).
Proof. intros Hp. unfold bind_arguments. rewrite Hp. reflexivity. Qed.
End RunFacts.

(** Cells that are not the notebook's, to see the rules at work: calls
    with the wrong arguments, a negative sleep, an index beyond the
    list, a range with step 0, a string minus a number. *)
Definition probe_cells : list cell :=
  [ mkCell "p0" 1
      [ SImport "time";
        SFunctionDef false "g" [plain "a"] None [SReturn (N "a")];
        SAssign "lst" (EList []) ] [];
    mkCell "p1" 2 [ SExpr (ECall (N "g") []) ] [];
    mkCell "p2" 3 [ SExpr (ECall (N "g") [EInt 1; EInt 2; EInt 3]) ] [];
    mkCell "p3" 4 [ SExpr (ECall (attr "time" "sleep") [EInt (-1)]) ] [];
    mkCell "p4" 5 [ SDelete (ESubscript (N "lst") (EInt 7)) ] [];
    mkCell "p5" 6 [ SExpr (ECall (N "range") [EInt 1; EInt 2; EInt 0]) ] [];
    mkCell "p6" 7 [ SExpr (EBinOp (EStr "a") Sub (EInt 1)) ] [];
    mkCell "p7" 8 [ SExpr (ECall (N "g") [EInt 1]) ] [] ].

Lemma probe_cells_fail :
  map snd (fst (Interp.run_cells probe_cells Interp.jupyter))
  = [ Ok;
      Failed (PyError "TypeError"
                "g() missing 1 required positional argument: 'a'");
      Failed (PyError "TypeError"
                "g() takes 1 positional argument but 3 were given");
      Failed (PyError "ValueError" "sleep length must be non-negative");
      Failed (PyError "IndexError" "list assignment index out of range");
      Failed (PyError "ValueError" "range() arg 3 must not be zero");
      Failed (PyError "TypeError"
                "unsupported operand type(s) for -: 'str' and 'int'");
      Ok ].
Proof. by vm_compute. Qed.

(** The notebook without cell c1984ac3, which binds routine a second
    time: main then calls the first routine, which needs its name, and
    the last cell fails inside main. *)
Lemma first_routine_needs_its_name :
  last (fst (Interp.run_cells
               (List.filter (λ c, negb (bool_decide (cell_id c = "c1984ac3")))
                  notebook)
               Interp.jupyter))
  = Some ("a0c7de1b",
          Failed (PyError "TypeError"
                    "routine() missing 1 required positional argument: 'name'")).
Proof. by vm_compute. Qed.

(** The name-level kernel and the run give every cell the same status. *)
Lemma kernel_and_run_agree : statuses = outcomes.
Proof. by vm_compute. Qed.

(** C1: run top to bottom in a notebook kernel, with every call entered
    and every argument, operand and index checked, the cells end as the
    file records, and exactly two of them end with an error: cell
    47ecebca, the def of error_routine with an await in its body, with
    SyntaxError 'await' outside async function, and cell 12aadf65, which
    calls asyncio.run(main()) under the running event loop, with
    RuntimeError.  Every other cell is followed to its end and ends
    without an error. *)
Theorem two_error_outcomes :
  Forall2 agrees outcomes notebook
  ∧ List.filter is_failure outcomes
    = [ ("47ecebca",
         Failed (PyError "SyntaxError" "'await' outside async function"));
        ("12aadf65",
         Failed (PyError "RuntimeError"
                   "asyncio.run() cannot be called from a running event loop")) ]
  ∧ map fst (List.filter (λ r, negb (is_failure r)) outcomes)
    = [ "516564ee"; "7564be76"; "e1bcdd45"; "b75bba9d"; "0064bcd7";
        "2b82c36f"; "03aa4871"; "5d21eed4"; "03c13abf"; "80ca7b74";
        "c1984ac3"; "614beb1a"; "c32f87c9"; "c8699244"; "a0c7de1b" ]
  ∧ List.filter (λ c, bool_decide (is_Some (recorded_error c))) notebook
    = [ cell_47ecebca; cell_12aadf65 ]
  ∧ cell_defs cell_47ecebca = [("error_routine", false)]
  ∧ compile (Interp.top_level_await Interp.jupyter) (source cell_47ecebca)
    = Some "'await' outside async function"
  ∧ cell_attrs cell_12aadf65 = [("asyncio", "run")]
  ∧ Interp.in_loop Interp.jupyter = true.
Proof.
  split.
  { unfold outcomes. vm_compute Interp.run_cells. unfold notebook. simpl.
    repeat (constructor; [by vm_compute|]). constructor. }
  split; [by vm_compute|].
  split; [by vm_compute|].
  split; [by vm_compute|].
  repeat split; reflexivity.
Qed.

(** ** Cells and the names they share *)

Lemma notebook_positions (i : nat) (c : cell) :
  notebook !! i = Some c → (i, c) ∈ imap pair notebook.
Proof.
  intros Hc. apply elem_of_lookup_imap. by exists i, c.
Qed.

Lemma refers_resolved :
  Forall (λ ic, Forall (resolves_at (fst ic) (snd ic)) (cell_refers (snd ic)))
    (imap pair notebook).
Proof. by_running. Qed.

Lemma session_misses_no_name :
  Forall (λ r, match snd r with
               | Failed (PyError en _) => en ≠ "NameError"
               | Failed (Unresolved _ _) | Failed (Unsupported _) => False
               | Ok => True
               end) statuses.
Proof. vm_compute. repeat (constructor; [done|]). constructor. Qed.

Lemma only_first_takes_nothing :
  Forall (λ ic, taken_from_above (fst ic) (snd ic) = [] ↔ fst ic = 0%nat)
    (imap pair notebook).
Proof. by_running. Qed.

Lemma alone_in_fresh_kernel :
  List.filter (λ r, negb (is_failure r)) (run_alone jupyter)
  = [("516564ee", Ok); ("b75bba9d", Ok); ("c8699244", Ok)].
Proof. by vm_compute. Qed.

(** The cell at position 4, named_timer("Squares")(cpu_bound)(1, 10000000, 1),
    run alone in a fresh kernel stops at the name named_timer, which the
    cell above it binds: the cells are not self-contained. *)
Lemma cell_0064bcd7_not_self_contained :
  notebook !! 4%nat = Some cell_0064bcd7
  ∧ fst (run_cell 4 cell_0064bcd7 jupyter)
    = Failed (PyError "NameError" "name 'named_timer' is not defined")
  ∧ "named_timer" ∈ cell_refers cell_0064bcd7
  ∧ "named_timer" ∈ cell_binds cell_b75bba9d
  ∧ "named_timer" ∈ bound_before 4
  ∧ ("named_timer" ∉ cell_binds cell_0064bcd7)
  ∧ ¬ cells_self_contained.
Proof.
  split; [reflexivity|]. split; [by vm_compute|].
  split; [by_running|]. split; [by_running|].
  split; [by_running|]. split; [by_running|].
  intros Hall. destruct (Hall 4%nat cell_0064bcd7 eq_refl) as [Hrun _].
  vm_compute in Hrun. discriminate.
Qed.

(** C2, amended: run top to bottom in one notebook kernel, a cell finds
    every name it refers to: each is a builtin, the kernel's __name__,
    bound by the cell itself or bound by a cell above it, and the cell
    does not end on a missing name.  The cells depend on one another:
    only the first takes no name from a cell above. *)
Theorem cells_resolve_top_to_bottom (i : nat) (c : cell) :
  notebook !! i = Some c →
  (∀ x, x ∈ cell_refers c → resolves_at i c x)
  ∧ (∀ st, statuses !! i = Some (cell_id c, st) →
       match st with
       | Failed (PyError en _) => en ≠ "NameError"
       | Failed (Unresolved _ _) | Failed (Unsupported _) => False
       | Ok => True
       end)
  ∧ (taken_from_above i c = [] ↔ i = 0%nat).
Proof.
  intros Hc. pose proof (notebook_positions i c Hc) as Hic.
  split; [|split].
  - intros x Hx.
    pose proof (proj1 (Forall_forall _ _) refers_resolved _ Hic) as Hall.
    by apply (proj1 (Forall_forall _ _) Hall).
  - intros st Hst.
    apply (proj1 (Forall_forall _ _) session_misses_no_name (cell_id c, st)).
    by apply list_elem_of_lookup_2 in Hst.
  - apply (proj1 (Forall_forall _ _) only_first_takes_nothing _ Hic).
Qed.

Lemma cells_resolve_top_to_bottom_witness :
  resolves_at 4 cell_0064bcd7 "named_timer"
  ∧ (taken_from_above 4 cell_0064bcd7 = [] ↔ 4%nat = 0%nat).
Proof.
  destruct (cells_resolve_top_to_bottom 4 cell_0064bcd7 eq_refl)
    as (Hres & _ & Htaken).
  split; [apply Hres; by_running
         |exact Htaken].
Defined.

(** ** State across cells *)

(** Cell a0c7de1b, await main(), reads the function that cell c8699244
    bound, and cell c1984ac3 binds routine over the binding cell 7564be76
    made: state does cross from cell to cell. *)
Lemma main_and_routine_cross_cells :
  notebook !! 14%nat = Some cell_c8699244
  ∧ notebook !! 16%nat = Some cell_a0c7de1b
  ∧ Read 16 "main" (FromCell 14) ∈ session_log
  ∧ notebook !! 1%nat = Some cell_7564be76
  ∧ notebook !! 10%nat = Some cell_c1984ac3
  ∧ Bound 10 "routine" (Some (FromCell 1)) ∈ session_log
  ∧ ¬ no_state_crosses.
Proof.
  assert (Read 16 "main" (FromCell 14) ∈ session_log) as Hread.
  { apply list_elem_of_In. vm_compute. tauto. }
  assert (Bound 10 "routine" (Some (FromCell 1)) ∈ session_log) as Hbound.
  { apply list_elem_of_In. vm_compute. tauto. }
  repeat split; try reflexivity; try assumption.
  intros Hall.
  pose proof (proj1 (Forall_forall _ _) Hall _ Hread) as Hstay.
  simpl in Hstay. discriminate.
Qed.

(** Read bottom to top the notebook is not in order: the statement
    that state goes downwards only says something. *)
Lemma upwards_is_out_of_order : ¬ downwards (rev notebook).
Proof.
  intros Hd. apply (bool_decide_pack _) in Hd. vm_compute in Hd. exact Hd.
Qed.

(** The def of error_routine binds nothing: its cell does not compile. *)
Lemma error_routine_never_bound :
  compiles cell_47ecebca = false
  ∧ "error_routine" ∈ cell_binds cell_47ecebca
  ∧ globals (snd session) !! "error_routine" = None.
Proof. split; [reflexivity|]. split; [by_running|by vm_compute]. Qed.

(** C3, amended: state crosses the cells, downwards only.  In the order
    of the notebook no cell refers to a global that only cells below it
    bind.  Used by another cell than the one that bound them are the
    imported modules and named_timer, cpu_bound, io_bound, routine,
    coroutine and main; bound again by a later cell are start, t1, t2,
    threads, thread and routine; the other globals bound in the session
    (results, obj, lst, ro_res, coro_called, coro_awaited, f) are
    referred to by the cell that binds them only.  error_routine is
    never bound. *)
Theorem state_crosses_forwards :
  downwards notebook
  ∧ read_across session_log
    = [ "random"; "sys"; "cpu_bound"; "threading"; "named_timer"; "typing";
        "io_bound"; "inspect"; "main"; "routine"; "time"; "coroutine";
        "asyncio" ]
  ∧ rebound_across session_log
    = [ "t1"; "t2"; "threads"; "start"; "thread"; "routine" ]
  ∧ kept_to_cell session_log
    = [ "results"; "obj"; "lst"; "ro_res"; "coro_called"; "coro_awaited";
        "f" ]
  ∧ Forall (λ x, x ∈ read_across session_log
                 ∨ x ∈ rebound_across session_log
                 ∨ x ∈ kept_to_cell session_log) (bound_in session_log)
  ∧ ("error_routine" ∉ bound_in session_log)
  ∧ globals (snd session) !! "error_routine" = None.
Proof.
  split; [by_running|]. split; [by vm_compute|]. split; [by vm_compute|].
  split; [by vm_compute|]. split; [by_running|]. split; [by_running|].
  by vm_compute.
Qed.

(** ** What the notebook is made of *)

(** C4: the notebook imports asyncio, inspect, random, sys, time,
    threading and typing, all of the standard library, in its first cell
    and nowhere else; no other name stands for a module.  What its cells
    and functions invoke are attributes of these modules, builtins,
    three methods of lists and threads, and the functions the notebook
    defines; none of them places work on a scheduler, cancels work or
    guards a shared resource. *)
Theorem standard_library_only :
  imported
  = ["asyncio"; "inspect"; "random"; "sys"; "time"; "threading"; "typing"]
  ∧ Forall (λ m, m ∈ stdlib_module_names) imported
  ∧ map cell_imports (drop 1 notebook) = replicate 16 []
  ∧ Forall (λ m, m ∉ bound_otherwise) imported
  ∧ primitives_used
    = [ ("random", "randint"); ("sys", "getrefcount");
        ("typing", "Callable"); ("threading", "Thread"); ("time", "time");
        ("time", "sleep"); ("inspect", "isroutine");
        ("inspect", "iscoroutine"); ("asyncio", "sleep"); ("asyncio", "run") ]
  ∧ Forall (λ p, is_Some (primitive_effect (fst p) (snd p))) primitives_used
  ∧ methods_used = ["append"; "start"; "join"]
  ∧ builtins_used = ["object"; "round"; "sum"; "range"; "int"; "str"; "print"]
  ∧ defined_functions
    = [ ("routine", false); ("named_timer", false); ("timer", false);
        ("wrapper", false); ("cpu_bound", false); ("io_bound", false);
        ("routine", false); ("coroutine", true); ("f", true);
        ("error_routine", false); ("main", true) ]
  ∧ Forall (λ c, Forall (λ x, x ∈ builtin_names ∨ x = "__name__"
                              ∨ x ∈ imported
                              ∨ x ∈ flat_map cell_binds notebook)
                   (cell_refers c)) notebook
  ∧ effects_used = [Random; Clock; Delay; EventLoop; Thread; Pure; Stdout]
  ∧ Forall (λ e, e ∉ effects_used) [Schedule; Cancel; Sync].
Proof.
  split; [reflexivity|]. split; [by_running|]. split; [reflexivity|].
  split; [by_running|]. split; [by vm_compute|]. split; [by_running|].
  split; [by vm_compute|]. split; [by vm_compute|]. split; [reflexivity|].
  split; [by_running|]. split; [by vm_compute|]. by_running.
Qed.

(** ** What a cell shows *)



(** * More about the workloads *)

Lemma map_seq_offset {A} (f : nat → A) (a n : nat) :
  map f (seq a n) = map (λ i, f (a + i)%nat) (seq 0 n).
Proof.
  revert f a. induction n as [|n IH]; intros f a; [reflexivity|].
  cbn [seq map]. rewrite Nat.add_0_r. f_equal.
  rewrite (IH f (S a)), (IH (λ i, f (a + i)%nat) 1%nat).
  apply map_ext. intros i. f_equal. lia.
Qed.

(** A range that stops on one of its own numbers has that many items. *)
Lemma range_len_aligned (start step k : Z) :
  step ≠ 0 → 0 <= k → range_len start (start + k * step) step = k.
Proof.
  intros Hstep Hk. unfold range_len.
  destruct (Z.ltb_spec 0 step) as [Hpos|Hneg].
  - destruct (Z.ltb_spec start (start + k * step)) as [Hlt|Hge]; [|nia].
    assert (0 < k) by nia.
    replace (start + k * step - start - 1) with ((step - 1) + (k - 1) * step)
      by lia.
    rewrite Z.div_add by lia. rewrite Z.div_small by lia. lia.
  - destruct (Z.ltb_spec step 0) as [Hlt0|]; [|lia].
    destruct (Z.ltb_spec (start + k * step) start) as [Hlt|Hge]; [|nia].
    assert (0 < k) by nia.
    replace (start - (start + k * step) - 1)
      with ((- step - 1) + (k - 1) * (- step)) by lia.
    rewrite Z.div_add by lia. rewrite Z.div_small by lia. lia.
Qed.

Lemma range_len_split (start mid stop step k : Z) :
  step ≠ 0 → 0 <= k → mid = start + k * step →
  (if 0 <? step then mid <= stop else stop <= mid) →
  range_len start stop step = k + range_len mid stop step.
Proof.
  intros Hstep Hk -> Hside.
  destruct (Z.eq_dec k 0) as [->|Hk0].
  { rewrite Z.mul_0_l, Z.add_0_r. lia. }
  unfold range_len.
  destruct (Z.ltb_spec 0 step) as [Hpos|Hneg].
  - destruct (Z.ltb_spec (start + k * step) stop) as [Hlt|Hge].
    + destruct (Z.ltb_spec start stop) as [_|?]; [|nia].
      replace (stop - start - 1)
        with ((stop - (start + k * step) - 1) + k * step) by lia.
      rewrite Z.div_add by lia. lia.
    + assert (stop = start + k * step) as -> by lia.
      pose proof (range_len_aligned start step k Hstep Hk) as Hal.
      unfold range_len in Hal.
      destruct (Z.ltb_spec 0 step); [|lia]. rewrite Hal. lia.
  - destruct (Z.ltb_spec step 0) as [Hlt0|]; [|lia].
    destruct (Z.ltb_spec stop (start + k * step)) as [Hlt|Hge].
    + destruct (Z.ltb_spec stop start) as [_|?]; [|nia].
      replace (start - stop - 1)
        with ((start + k * step - stop - 1) + k * (- step)) by lia.
      rewrite Z.div_add by lia. lia.
    + assert (stop = start + k * step) as -> by lia.
      pose proof (range_len_aligned start step k Hstep Hk) as Hal.
      unfold range_len in Hal.
      destruct (Z.ltb_spec 0 step); [lia|].
      destruct (Z.ltb_spec step 0); [|lia]. rewrite Hal. lia.
Qed.

(** Cut at one of its numbers, a range is its two parts one after the
    other. *)
Lemma range_items_split (start mid stop step k : Z) :
  step ≠ 0 → 0 <= k → mid = start + k * step →
  (if 0 <? step then mid <= stop else stop <= mid) →
  range_items start stop step
  = range_items start mid step ++ range_items mid stop step.
Proof.
  intros Hstep Hk Hmid Hside. unfold range_items.
  rewrite (range_len_split start mid stop step k) by done.
  assert (range_len start mid step = k) as ->
    by (subst mid; by apply range_len_aligned).
  pose proof (range_len_nonneg mid stop step) as Hn.
  rewrite Z2Nat.inj_add by lia. rewrite seq_app, map_app. f_equal.
  rewrite map_seq_offset. apply map_ext. intros i. subst mid.
  rewrite Nat.add_0_l, Nat2Z.inj_add, Z2Nat.id by lia. lia.
Qed.

Lemma sum_squares_over_nonneg (nums : list Z) : 0 <= sum_squares_over nums.
Proof. induction nums as [|n nums IH]; simpl; nia. Qed.

Lemma slept_total_app (tr1 tr2 : list event) :
  slept_total (tr1 ++ tr2) = slept_total tr1 + slept_total tr2.
Proof.
  induction tr1 as [|[l|s] tr1 IH]; simpl; [lia|exact IH|rewrite IH; lia].
Qed.

Lemma printed_lines_app (tr1 tr2 : list event) :
  printed_lines (tr1 ++ tr2) = printed_lines tr1 ++ printed_lines tr2.
Proof. unfold printed_lines. apply omap_app. Qed.

Section MoreSnippetFacts.
Context {F : Type} `{PyFloat F}.

(** ** cpu_bound *)

(** X1: cpu_bound raises exactly when step is 0 (the ValueError of range),
    whatever start and end are, and it never touches the world: no
    output, no clock reading, no random draw. *)
Theorem cpu_bound_raises_iff_zero_step (start end_ step : Z) (w : world F) :
  snd (cpu_bound start end_ step w) = w
  ∧ ((∃ e, fst (cpu_bound start end_ step w) = Raised e) ↔ step = 0)
  ∧ (step = 0 →
     fst (cpu_bound start end_ step w)
     = Raised (ValueError "range() arg 3 must not be zero")).
Proof.
  destruct (Z.eq_dec step 0) as [->|Hstep].
  - rewrite cpu_bound_zero_step. simpl. split; [done|]. split; [|done].
    split; [done|]. intros _. by eexists.
  - rewrite cpu_bound_run by done. simpl. split; [done|]. split; [|done].
    split; [|done]. intros [e He]. discriminate.
Qed.

(** X2: with step 1 and start <= end, six times the result of
    cpu_bound(start, end, 1) is
    (end-1)*end*(2*end-1) - (start-1)*start*(2*start-1). *)
Theorem cpu_bound_consecutive_closed_form (start end_ : Z) (w : world F) :
  start <= end_ →
  ∃ r, cpu_bound start end_ 1 w = (Returned r, w) ∧
       6 * r = (end_ - 1) * end_ * (2 * end_ - 1)
               - (start - 1) * start * (2 * start - 1).
Proof.
  intros Hle. exists (sum_squares_over (range_items start end_ 1)).
  split; [apply cpu_bound_run; lia|].
  unfold range_items. rewrite sum_squares_consecutive.
  assert (Z.of_nat (Z.to_nat (range_len start end_ 1)) = end_ - start) as ->.
  { pose proof (range_len_aligned start 1 (end_ - start)) as Hlen.
    rewrite Z.mul_1_r in Hlen.
    replace (start + (end_ - start)) with end_ in Hlen by lia.
    rewrite Hlen by lia. lia. }
  f_equal; f_equal; try f_equal; lia.
Qed.

(** X3: cut at one of the numbers of the range, the work splits: the
    result over start..end is the result over start..mid plus the
    result over mid..end, steps alike. *)
Theorem cpu_bound_split (start mid end_ step k : Z) (w : world F) :
  step ≠ 0 → 0 <= k → mid = start + k * step →
  (if 0 <? step then mid <= end_ else end_ <= mid) →
  ∃ r1 r2,
    cpu_bound start mid step w = (Returned r1, w)
    ∧ cpu_bound mid end_ step w = (Returned r2, w)
    ∧ cpu_bound start end_ step w = (Returned (r1 + r2), w).
Proof.
  intros Hstep Hk Hmid Hside. eexists _, _.
  split; [by apply cpu_bound_run|]. split; [by apply cpu_bound_run|].
  rewrite cpu_bound_run by done.
  rewrite (range_items_split start mid end_ step k) by done.
  by rewrite sum_squares_over_app.
Qed.

(** X4: cpu_bound never returns a negative number. *)
Theorem cpu_bound_never_negative (start end_ step : Z) (w : world F) :
  match fst (cpu_bound start end_ step w) with
  | Returned r => 0 <= r
  | Raised _ => step = 0
  end.
Proof.
  destruct (Z.eq_dec step 0) as [->|Hstep].
  - by rewrite cpu_bound_zero_step.
  - rewrite cpu_bound_run by done. apply sum_squares_over_nonneg.
Qed.

(** ** routine, called in sequence *)

Lemma draw_bounds (w : world F) (j : nat) : 1 <= draw w j <= 5.
Proof.
  unfold draw.
  pose proof (Z.mod_pos_bound (rand_src w (rand_ix w + j)%nat) 5 eq_refl). lia.
Qed.

Lemma routine_run (name : string) (w : world F) :
  routine name w
  = (Returned (draw w 0 ^ 10),
     mkWorld (time_src w) (time_ix w) (rand_src w) (S (rand_ix w))
       (trace w ++ routine_events name (draw w 0))).
Proof.
  pose proof (draw_bounds w 0) as Hn. unfold draw in *.
  rewrite Nat.add_0_r in *.
  set (n := 1 + rand_src w (rand_ix w) `mod` 5) in *.
  unfold routine, bind.
  assert (random_randint 1 5 w
          = (Returned n, mkWorld (time_src w) (time_ix w) (rand_src w)
                           (S (rand_ix w)) (trace w))) as -> by reflexivity.
  unfold print, emit. cbv beta iota. rewrite time_sleep_run
    by (assert (5 <= sleep_max) by (by vm_compute); lia).
  unfold ret. cbn [time_src time_ix rand_src rand_ix trace].
  unfold routine_events. by rewrite <- !app_assoc.
Qed.

Lemma for_each_routine (names : list string) (w : world F) :
  for_each routine names w
  = (Returned (map (λ j, draw w j ^ 10) (seq 0 (length names))),
     mkWorld (time_src w) (time_ix w) (rand_src w)
       (rand_ix w + length names)
       (trace w ++
        concat (zip_with routine_events names
                  (map (draw w) (seq 0 (length names)))))).
Proof.
  revert w. induction names as [|name names IH]; intros w.
  - simpl. unfold ret. rewrite Nat.add_0_r, app_nil_r. by destruct w.
  - cbn [for_each length]. unfold bind at 1. rewrite routine_run.
    unfold bind at 1. rewrite IH. unfold ret.
    cbn [time_src time_ix rand_src rand_ix trace].
    assert (∀ j, draw (mkWorld (time_src w) (time_ix w) (rand_src w)
                         (S (rand_ix w))
                         (trace w ++ routine_events name (draw w 0))) j
                 = draw w (S j)) as Hdraw.
    { intros j. unfold draw. cbn [rand_src rand_ix]. do 3 f_equal. lia. }
    set (w1 := mkWorld (time_src w) (time_ix w) (rand_src w) (S (rand_ix w))
                 (trace w ++ routine_events name (draw w 0))) in *.
    assert (map (draw w1) (seq 0 (length names))
            = map (draw w) (seq 1 (length names))) as ->.
    { rewrite (map_seq_offset _ 1). apply map_ext. intros j. apply Hdraw. }
    assert (map (λ j, draw w1 j ^ 10) (seq 0 (length names))
            = map (λ j, draw w j ^ 10) (seq 1 (length names))) as ->.
    { rewrite (map_seq_offset _ 1). apply map_ext. intros j.
      by rewrite Hdraw. }
    cbn [seq map zip_with concat length]. rewrite <- app_assoc.
    replace (S (rand_ix w) + length names)%nat
      with (rand_ix w + S (length names))%nat by lia.
    reflexivity.
Qed.

Lemma total_draws_bounds (w : world F) (a n : nat) :
  Z.of_nat n <= total (map (draw w) (seq a n)) <= 5 * Z.of_nat n.
Proof.
  revert a. induction n as [|n IH]; intros a; [simpl; lia|].
  cbn [seq map total fold_right]. fold (total (map (draw w) (seq (S a) n))).
  pose proof (draw_bounds w a). pose proof (IH (S a)). lia.
Qed.

Lemma slept_total_routines (names : list string) (draws : list Z) :
  length names = length draws →
  slept_total (concat (zip_with routine_events names draws)) = total draws.
Proof.
  revert draws. induction names as [|name names IH]; intros [|d draws] Hlen;
    try discriminate; [reflexivity|].
  cbn [zip_with concat]. rewrite slept_total_app, IH by (simpl in Hlen; lia).
  simpl. lia.
Qed.

(** X5: routine called for a list of names, one call after the other,
    gives one result per name, the tenth power of a draw between 1 and 5,
    in the order of the names; each call prints, sleeps, prints before
    the next one starts, so the seconds slept add up: their total is the
    sum of the draws, between one and five seconds per name.  The clock
    is not read. *)
Theorem routines_in_sequence (names : list string) (w : world F) :
  let draws := map (draw w) (seq 0 (length names)) in
  ∃ w', for_each routine names w = (Returned (map (λ n, n ^ 10) draws), w')
    ∧ Forall (λ n, 1 <= n <= 5) draws
    ∧ rand_ix w' = (rand_ix w + length names)%nat
    ∧ time_ix w' = time_ix w
    ∧ trace w' = trace w ++ concat (zip_with routine_events names draws)
    ∧ slept_total (trace w') = slept_total (trace w) + total draws
    ∧ Z.of_nat (length names) <= total draws <= 5 * Z.of_nat (length names).
Proof.
  intros draws. eexists. rewrite for_each_routine.
  split; [unfold draws; by rewrite map_map|].
  split. { apply Forall_forall. intros n Hn. apply list_elem_of_In in Hn.
           apply in_map_iff in Hn as (j & <- & _). apply draw_bounds. }
  split; [reflexivity|]. split; [reflexivity|]. split; [reflexivity|].
  split; [|apply total_draws_bounds].
  cbn [trace]. rewrite slept_total_app, slept_total_routines; [done|].
  unfold draws. by rewrite length_map, length_seq.
Qed.
Lemma for_each_map {A B C} (g : B → M F C) (f : A → B) (xs : list A)
    (w : world F) :
  for_each (λ x, g (f x)) xs w = for_each g (map f xs) w.
Proof.
  revert w. induction xs as [|x xs IH]; intros w; [reflexivity|].
  cbn [for_each map]. unfold bind.
  destruct (g (f x) w) as [[y|e] w1]; [|reflexivity]. by rewrite IH.
Qed.

(** X6: in every world the code under the def of cell 7564be76 calls
    routine for R3, R2 and R1 in this order, prints the list of the three
    results and then the elapsed time, between the two clock readings
    it makes; the three sleeps add up to something between 3 and 15
    seconds. *)
Theorem sequential_cell_in_any_world (w : world F) :
  ∃ w',
    cell_7564be76_top w
    = (Returned [draw w 0 ^ 10; draw w 1 ^ 10; draw w 2 ^ 10], w')
    ∧ trace w'
      = trace w
        ++ routine_events "R3" (draw w 0)
        ++ routine_events "R2" (draw w 1)
        ++ routine_events "R1" (draw w 2)
        ++ [ Printed ("Results = " +:+
                      repr_list [draw w 0 ^ 10; draw w 1 ^ 10; draw w 2 ^ 10]);
             Printed ("Elapsed time: " +:+
                      frepr (fround (fsub (time_src w (S (time_ix w)))
                                          (time_src w (time_ix w))) 2)) ]
    ∧ 3 <= slept_total (trace w') - slept_total (trace w) <= 15
    ∧ time_ix w' = S (S (time_ix w))
    ∧ rand_ix w' = (rand_ix w + 3)%nat.
Proof.
  eexists. unfold cell_7564be76_top. unfold bind at 1. cbn [time_time].
  unfold bind at 1.
  change (py_range 3 0 (-1) ?w0) with (@ret F (list Z) [3; 2; 1] w0).
  unfold ret at 1. unfold bind at 1.
  rewrite (for_each_map routine (λ i, "R" +:+ pretty i)).
  rewrite for_each_routine.
  change (map (λ i : Z, "R" +:+ pretty i) [3; 2; 1]) with ["R3"; "R2"; "R1"].
  cbn [length seq map zip_with concat].
  unfold bind, print, emit, time_time, ret.
  cbn [time_src time_ix rand_src rand_ix trace].
  assert (∀ j, draw (mkWorld (time_src w) (S (time_ix w)) (rand_src w)
                        (rand_ix w) (trace w)) j = draw w j) as Hdraw
    by reflexivity.
  rewrite !Hdraw.
  split; [reflexivity|]. split.
  { rewrite app_nil_r, <- !app_assoc. reflexivity. }
  split; [|done].
  cbn [trace]. rewrite !slept_total_app.
  cbn [slept_total fold_right routine_events].
  pose proof (draw_bounds w 0). pose proof (draw_bounds w 1).
  pose proof (draw_bounds w 2). lia.
Qed.

(** ** named_timer, stacked and around io_bound *)

(** X7: two timers on one function (what uncommenting the decorator
    above cpu_bound or io_bound gives) still return what the function
    returns; the inner line is printed first, then the outer one, each
    from its own pair of clock readings; when the function raises,
    neither line is printed. *)
Theorem named_timer_stacked {V R} (outer inner : string)
    (func : call_args V → M F R) (a : call_args V) (w : world F) :
  match func a (snd (time_time (snd (time_time w)))) with
  | (Returned res, w') =>
      named_timer outer (named_timer inner func) a w
      = (Returned res,
         mkWorld (time_src w') (S (S (time_ix w'))) (rand_src w') (rand_ix w')
           (trace w' ++
            [ Printed (timing_line inner (time_src w (S (time_ix w)))
                         (time_src w' (time_ix w')));
              Printed (timing_line outer (time_src w (time_ix w))
                         (time_src w' (S (time_ix w')))) ]))
  | (Raised e, w') =>
      named_timer outer (named_timer inner func) a w = (Raised e, w')
  end.
Proof.
  unfold named_timer, timer.
  pose proof (wrapper_run inner func a (snd (time_time w))) as Hin.
  pose proof (wrapper_run outer (wrapper inner func) a w) as Hout.
  destruct (func a _) as [[res|e] w'].
  - rewrite Hin in Hout. rewrite Hout.
    cbn [time_src time_ix rand_src rand_ix trace time_time snd].
    unfold timing_line. by rewrite <- app_assoc.
  - rewrite Hin in Hout. exact Hout.
Qed.

(** What time.sleep does with an integer length: the call fails when
    the length in nanoseconds does not fit 64 bits or is negative. *)
Lemma time_sleep_cases (secs : Z) (w : world F) :
  time_sleep secs w
  = if bool_decide (secs < - sleep_max ∨ sleep_max < secs)
    then (Raised (OverflowError "timestamp too large to convert to C _PyTime_t"), w)
    else if bool_decide (secs < 0)
    then (Raised (ValueError "sleep length must be non-negative"), w)
    else (Returned tt,
          mkWorld (time_src w) (time_ix w) (rand_src w) (rand_ix w)
            (trace w ++ [Slept secs])).
Proof.
  unfold time_sleep. generalize sleep_max. intros m.
  destruct (Z.ltb_spec secs (- m)), (Z.ltb_spec m secs), (Z.ltb_spec secs 0);
    cbn [orb]; repeat case_bool_decide; first [lia | reflexivity].
Qed.

(** X8: a timed io_bound(sleep_time) reads the clock and calls
    time.sleep.  For a length from 0 to 9223372036 seconds it sleeps
    that long, reads the clock again and prints its line; a longer
    length, or one below -9223372036, raises OverflowError and any
    other negative length ValueError, in both cases after the first
    clock reading, without sleeping and without printing a line. *)
Theorem timed_io_bound (name : string) (sleep_time : Z) (w : world F) :
  sleep_max = 9223372036
  ∧ named_timer name io_bound_call (mkArgs [sleep_time] []) w
    = if bool_decide (sleep_time < - sleep_max ∨ sleep_max < sleep_time)
      then (Raised (OverflowError "timestamp too large to convert to C _PyTime_t"),
            mkWorld (time_src w) (S (time_ix w)) (rand_src w) (rand_ix w)
              (trace w))
      else if bool_decide (sleep_time < 0)
      then (Raised (ValueError "sleep length must be non-negative"),
            mkWorld (time_src w) (S (time_ix w)) (rand_src w) (rand_ix w)
              (trace w))
      else (Returned tt,
            mkWorld (time_src w) (S (S (time_ix w))) (rand_src w) (rand_ix w)
              (trace w ++
               [ Slept sleep_time;
                 Printed (timing_line name (time_src w (time_ix w))
                            (time_src w (S (time_ix w)))) ])).
Proof.
  split; [reflexivity|].
  unfold named_timer, timer.
  pose proof (wrapper_run name io_bound_call (mkArgs [sleep_time] []) w) as Hrun.
  change (io_bound_call (mkArgs [sleep_time] []))
    with (time_sleep (F:=F) sleep_time) in Hrun at 1.
  rewrite time_sleep_cases in Hrun.
  repeat case_bool_decide.
  - exact Hrun.
  - exact Hrun.
  - rewrite Hrun. cbn [time_src time_ix rand_src rand_ix trace time_time snd].
    unfold timing_line. by rewrite <- app_assoc.
Qed.
End MoreSnippetFacts.

Lemma cpu_bound_consecutive_closed_form_witness :
  1 <= 10000000
  ∧ ∃ r, cpu_bound 1 10000000 1 demo_world = (Returned r, demo_world) ∧
         6 * r = (10000000 - 1) * 10000000 * (2 * 10000000 - 1)
                 - (1 - 1) * 1 * (2 * 1 - 1).
Proof.
  assert (1 <= 10000000) as Hle by discriminate.
  split; [exact Hle|].
  exact (cpu_bound_consecutive_closed_form 1 10000000 demo_world Hle).
Defined.

(** The two threads of cell 2b82c36f share the work of cell 0064bcd7. *)
Lemma cpu_bound_split_witness :
  ∃ r1 r2,
    cpu_bound 1 100000 1 demo_world = (Returned r1, demo_world)
    ∧ cpu_bound 100000 10000000 1 demo_world = (Returned r2, demo_world)
    ∧ cpu_bound 1 10000000 1 demo_world = (Returned (r1 + r2), demo_world).
Proof.
  apply (cpu_bound_split 1 100000 10000000 1 99999 demo_world).
  - discriminate.
  - discriminate.
  - reflexivity.
  - simpl. discriminate.
Defined.

(** * Reference counts *)

Section RefFacts.
Import Refs.


(** Putting [o'] where [o] was moves the count by their difference. *)
Lemma held_in_insert (id l : nat) (o o' : pyobject) (os : list pyobject) :
  os !! l = Some o →
  (held_in id (<[l := o']> os) + held_by id o
   = held_in id os + held_by id o')%nat.
Proof.
  revert l. induction os as [|x os IH]; intros [|l] Hl; try discriminate.
  - injection Hl as ->. simpl. lia.
  - simpl in *. specialize (IH l Hl). lia.
Qed.

Lemma held_by_snoc (id o : nat) (items : list nat) :
  held_by id (ListOf (items ++ [o]))
  = (held_by id (ListOf items) + if Nat.eqb id o then 1 else 0)%nat.
Proof.
  simpl. rewrite List.filter_app, length_app. simpl.
  by destruct (Nat.eqb id o).
Qed.













(** Where nothing is left to free, collecting changes nothing. *)
Lemma imap_id_lookup {A} (f : nat → A → A) (l : list A) :
  (∀ i x, l !! i = Some x → f i x = x) → imap f l = l.
Proof.
  revert f. induction l as [|x l IH]; intros f Hf; [done|].
  rewrite imap_cons. f_equal; [by apply (Hf 0%nat)|].
  apply IH. intros i y Hy. by apply (Hf (S i)).
Qed.

Lemma sweep_tidy (h : heap) : tidy h → sweep h = h.
Proof.
  intros Ht. destruct h as [os ns]. unfold sweep. cbn [objects names].
  f_equal. apply imap_id_lookup. intros i o Ho.
  destruct (Nat.eqb_spec (refcount (mkHeap os ns) i) 0) as [Hz|]; [|done].
  destruct o; try done; exfalso;
    (assert (0 < refcount (mkHeap os ns) i)%nat by (by eapply Ht); lia).
Qed.

Lemma collect_tidy (h : heap) : tidy h → collect h = h.
Proof.
  intros Ht. unfold collect. generalize (length (objects h)) as rounds.
  induction rounds as [|n IH]; [done|]. simpl. by rewrite sweep_tidy.
Qed.

(** ** lst.append(obj) and del lst[index] *)

Lemma append_run (h : heap) (lst obj : string) (l o : nat) (items : list nat) :
  lookup_name lst h = Some l → objects h !! l = Some (ListOf items) →
  lookup_name obj h = Some o →
  append lst obj h
  = inr (mkHeap (<[l := ListOf (items ++ [o])]> (objects h)) (names h))
  ∧ ∀ id, refcount (mkHeap (<[l := ListOf (items ++ [o])]> (objects h))
                      (names h)) id
          = (refcount h id + if Nat.eqb id o then 1 else 0)%nat.
Proof.
  intros Hlst Hl Hobj. unfold append. rewrite Hlst, Hl, Hobj.
  split; [done|]. intros id. unfold refcount. cbn [objects names].
  pose proof (held_in_insert id l (ListOf items) (ListOf (items ++ [o]))
                (objects h) Hl) as Hins.
  rewrite held_by_snoc in Hins. lia.
Qed.

(** X11: lst.append(obj), for a name bound to a list and a bound name,
    adds exactly one reference: the count of the object appended goes up
    by one, every other count (that of the list too) stays, and no name
    changes. *)
Theorem append_adds_one_reference (h : heap) (lst obj : string) (l o : nat)
    (items : list nat) :
  lookup_name lst h = Some l → objects h !! l = Some (ListOf items) →
  lookup_name obj h = Some o →
  ∃ h', append lst obj h = inr h'
    ∧ names h' = names h
    ∧ objects h' !! l = Some (ListOf (items ++ [o]))
    ∧ ∀ id, refcount h' id
            = (refcount h id + if Nat.eqb id o then 1 else 0)%nat.
Proof.
  intros Hlst Hl Hobj.
  destruct (append_run h lst obj l o items Hlst Hl Hobj) as [Hrun Hcount].
  eexists. split; [exact Hrun|]. split; [done|]. split; [|exact Hcount].
  cbn [objects]. apply list_lookup_insert_eq. by eapply lookup_lt_Some.
Qed.

Lemma held_by_delete (id i o : nat) (items : list nat) :
  items !! i = Some o →
  (held_by id (ListOf (delete i items)) + (if Nat.eqb id o then 1 else 0)
   = held_by id (ListOf items))%nat.
Proof.
  revert i. induction items as [|x items IH]; intros [|i] Hi; try discriminate.
  - injection Hi as ->. simpl. destruct (Nat.eqb id o); simpl; lia.
  - specialize (IH i Hi). simpl in *. destruct (Nat.eqb id x); simpl; lia.
Qed.

Lemma position_Some (len : nat) (index : Z) (i : nat) :
  position len index = Some i → (i < len)%nat.
Proof.
  unfold position.
  destruct (Z.ltb_spec index 0).
  - destruct (Z.leb_spec (- index) (Z.of_nat len)); [|done].
    intros [= <-]. lia.
  - destruct (Z.ltb_spec index (Z.of_nat len)); [|done].
    intros [= <-]. lia.
Qed.

Lemma position_last (len : nat) : position (S len) (Z.of_nat len) = Some len.
Proof.
  unfold position.
  destruct (Z.ltb_spec (Z.of_nat len) 0); [lia|].
  destruct (Z.ltb_spec (Z.of_nat len) (Z.of_nat (S len))); [|lia].
  by rewrite Nat2Z.id.
Qed.

Lemma position_minus_one (len : nat) : position (S len) (-1) = Some len.
Proof.
  unfold position. change (-1 <? 0) with true. cbv iota.
  destruct (Z.leb_spec (- -1) (Z.of_nat (S len))); [|lia].
  f_equal. lia.
Qed.

(** X12: for a list no longer than the longest list there is,
    del lst[index] raises IndexError exactly when index lies outside
    -len .. len-1: 'list assignment index out of range' when index is an
    index-sized (signed 64-bit) integer, and 'cannot fit 'int' into an
    index-sized integer' when it is not.  So it raises for every index
    on an empty list. *)
Theorem del_item_index_error (h : heap) (lst : string) (index : Z) (l : nat)
    (items : list nat) :
  lookup_name lst h = Some l → objects h !! l = Some (ListOf items) →
  Z.of_nat (length items) <= ssize_max →
  ssize_max = 9223372036854775807
  ∧ (- Z.of_nat (length items) <= index < Z.of_nat (length items) →
     ∃ h', del_item lst index h = inr h')
  ∧ (¬ (- Z.of_nat (length items) <= index < Z.of_nat (length items)) →
     del_item lst index h
     = inl (IndexError
              (if bool_decide (- ssize_max - 1 <= index <= ssize_max)
               then "list assignment index out of range"
               else "cannot fit 'int' into an index-sized integer")))
  ∧ (¬ (- ssize_max - 1 <= index <= ssize_max) →
     ¬ (- Z.of_nat (length items) <= index < Z.of_nat (length items)))
  ∧ (items = [] →
     ¬ (- Z.of_nat (length items) <= index < Z.of_nat (length items))).
Proof.
  intros Hlst Hl Hlen.
  split; [reflexivity|]. split; [|split; [|split]].
  - intros Hin. unfold del_item, position. rewrite Hlst, Hl.
    destruct (Z.ltb_spec index 0).
    + destruct (Z.leb_spec (- index) (Z.of_nat (length items))); [|lia].
      by eexists.
    + destruct (Z.ltb_spec index (Z.of_nat (length items))); [|lia].
      by eexists.
  - intros Hout. unfold del_item, position, index_sized. rewrite Hlst, Hl.
    assert ((if index <? 0
             then if - index <=? Z.of_nat (length items)
                  then Some (Z.to_nat (Z.of_nat (length items) + index))
                  else None
             else if index <? Z.of_nat (length items)
                  then Some (Z.to_nat index) else None) = None) as ->.
    { destruct (Z.ltb_spec index 0).
      - destruct (Z.leb_spec (- index) (Z.of_nat (length items))); [lia|done].
      - destruct (Z.ltb_spec index (Z.of_nat (length items))); [lia|done]. }
    generalize ssize_max. intros m.
    destruct (Z.leb_spec (- m - 1) index), (Z.leb_spec index m);
      cbn [andb]; case_bool_decide; first [lia | reflexivity].
  - lia.
  - intros ->. simpl. lia.
Qed.

Lemma del_item_run (h : heap) (lst : string) (index : Z) (l i o : nat)
    (items : list nat) :
  tidy h →
  lookup_name lst h = Some l → objects h !! l = Some (ListOf items) →
  position (length items) index = Some i → items !! i = Some o →
  (2 <= refcount h o)%nat →
  del_item lst index h
  = inr (mkHeap (<[l := ListOf (delete i items)]> (objects h)) (names h))
  ∧ ∀ id, (refcount (mkHeap (<[l := ListOf (delete i items)]> (objects h))
                       (names h)) id
           + (if Nat.eqb id o then 1 else 0)
           = refcount h id)%nat.
Proof.
  intros Htidy Hlst Hl Hpos Hi Hstill.
  set (h0 := mkHeap (<[l := ListOf (delete i items)]> (objects h)) (names h)).
  assert (∀ id, (refcount h0 id + (if Nat.eqb id o then 1 else 0)
                 = refcount h id)%nat) as Hcount.
  { intros id. unfold refcount, h0. cbn [objects names].
    pose proof (held_in_insert id l (ListOf items) (ListOf (delete i items))
                  (objects h) Hl) as Hins.
    pose proof (held_by_delete id i o items Hi). lia. }
  split; [|exact Hcount].
  unfold del_item. rewrite Hlst, Hl, Hpos. fold h0. f_equal.
  apply collect_tidy. intros id x Hx Hfreed.
  specialize (Hcount id).
  destruct (decide (id = l)) as [->|Hne].
  - assert (0 < refcount h l)%nat by (by eapply Htidy).
    destruct (Nat.eqb_spec l o) as [Heq|Hneq];
      [rewrite <- Heq in Hstill|]; lia.
  - unfold h0 in Hx. cbn [objects] in Hx.
    rewrite list_lookup_insert_ne in Hx by done.
    assert (0 < refcount h id)%nat by (by eapply Htidy).
    destruct (Nat.eqb_spec id o) as [Heq|Hneq];
      [rewrite <- Heq in Hstill|]; lia.
Qed.

(** X13: del lst[index] at a position of the list lets go of one
    reference: when the object there is still referred to from elsewhere
    (and nothing was left to free), the heap afterwards is the heap
    before with the item taken out of the list and nothing else changed:
    every name and every other object is what it was, so no object is
    freed; the count of the item goes down by one and every other count
    stays. *)
Theorem del_item_drops_one_reference (h : heap) (lst : string) (index : Z)
    (l i o : nat) (items : list nat) :
  tidy h →
  lookup_name lst h = Some l → objects h !! l = Some (ListOf items) →
  position (length items) index = Some i → items !! i = Some o →
  (2 <= refcount h o)%nat →
  ∃ h', del_item lst index h = inr h'
    ∧ names h' = names h
    ∧ objects h' = <[l := ListOf (delete i items)]> (objects h)
    ∧ objects h' !! l = Some (ListOf (delete i items))
    ∧ (∀ id, id ≠ l → objects h' !! id = objects h !! id)
    ∧ (∀ id x, objects h !! id = Some x → x ≠ Freed →
         ∃ x', objects h' !! id = Some x' ∧ x' ≠ Freed)
    ∧ ∀ id, (refcount h' id + (if Nat.eqb id o then 1 else 0)
             = refcount h id)%nat.
Proof.
  intros Htidy Hlst Hl Hpos Hi Hstill.
  destruct (del_item_run h lst index l i o items Htidy Hlst Hl Hpos Hi Hstill)
    as [Hrun Hcount].
  assert (l < length (objects h))%nat as Hlt by (by eapply lookup_lt_Some).
  eexists. split; [exact Hrun|]. split; [done|]. split; [done|].
  cbn [objects]. split; [by apply list_lookup_insert_eq|].
  split; [|split; [|exact Hcount]].
  - intros id Hne. by apply list_lookup_insert_ne.
  - intros id x Hx Hlive. destruct (decide (id = l)) as [->|Hne].
    + eexists. split; [by apply list_lookup_insert_eq|done].
    + exists x. split; [|done]. by rewrite list_lookup_insert_ne.
Qed.

(** X14: appending an object and deleting the last item again is a round
    trip: where nothing was left to free, lst.append(obj) followed by
    del lst[len] (or del lst[-1]), len being the length before, gives
    back the very same heap, so every count is what it was.  On an empty
    list this is del lst[0], as in the cell. *)
Theorem append_then_del_round_trip (h : heap) (lst obj : string) (l o : nat)
    (items : list nat) :
  tidy h →
  lookup_name lst h = Some l → objects h !! l = Some (ListOf items) →
  lookup_name obj h = Some o →
  (append lst obj h ≫= del_item lst (Z.of_nat (length items))) = inr h
  ∧ (append lst obj h ≫= del_item lst (-1)) = inr h.
Proof.
  intros Htidy Hlst Hl Hobj.
  destruct (append_run h lst obj l o items Hlst Hl Hobj) as [Hrun _].
  rewrite Hrun. cbn [mbind error_bind].
  assert (l < length (objects h))%nat as Hlt by (by eapply lookup_lt_Some).
  assert (∀ index, position (length (items ++ [o])) index = Some (length items) →
          del_item lst index
            (mkHeap (<[l := ListOf (items ++ [o])]> (objects h)) (names h))
          = inr h) as Hdel.
  { intros index Hpos. unfold del_item.
    assert (lookup_name lst (mkHeap (<[l := ListOf (items ++ [o])]> (objects h))
                               (names h)) = Some l) as -> by exact Hlst.
    cbn [objects names]. rewrite list_lookup_insert_eq by done.
    rewrite Hpos.
    replace (delete (length items) (items ++ [o])) with items
      by (by rewrite delete_middle, app_nil_r).
    rewrite list_insert_insert_eq, list_insert_id by done.
    replace (mkHeap (objects h) (names h)) with h by (by destruct h).
    by rewrite collect_tidy. }
  rewrite length_app, Nat.add_1_r in Hdel.
  split; apply Hdel; [apply position_last|apply position_minus_one].
Qed.

(** ** The cell *)













(** From the empty heap the cell prints what the file records. *)
Lemma refcount_cell_reproduced :
  ∃ printed text,
    cell_e1bcdd45_top empty = inr printed
    ∧ outputs cell_e1bcdd45 = [OStream "stdout" text]
    ∧ String.concat nl printed = String.concat nl text.
Proof. eexists _, _. by vm_compute. Qed.

Lemma demo_heap_tidy : tidy demo_heap.
Proof.
  intros [|[|id]] o Ho Hfreed; simpl in Ho; try discriminate;
    unfold refcount; simpl; lia.
Defined.

Lemma append_adds_one_reference_witness :
  ∃ h', append "lst" "obj" demo_heap = inr h'
    ∧ names h' = names demo_heap
    ∧ objects h' !! 0%nat = Some (ListOf ([1%nat] ++ [1%nat]))
    ∧ ∀ id, refcount h' id
            = (refcount demo_heap id + if Nat.eqb id 1 then 1 else 0)%nat.
Proof.
  exact (append_adds_one_reference demo_heap "lst" "obj" 0 1 [1%nat]
           eq_refl eq_refl eq_refl).
Defined.

(** On an empty list del lst[0], the statement of the cell without the
    append before it, raises; so does an index of 2 ^ 64. *)
Lemma del_item_index_error_witness :
  del_item "lst" 0 empty_list_heap
  = inl (IndexError "list assignment index out of range")
  ∧ del_item "lst" (2 ^ 64) empty_list_heap
    = inl (IndexError "cannot fit 'int' into an index-sized integer").
Proof.
  assert (Z.of_nat (length (@nil nat)) <= ssize_max) as Hlen by (by vm_compute).
  split.
  - destruct (del_item_index_error empty_list_heap "lst" 0 0 []
                eq_refl eq_refl Hlen) as (_ & _ & Hout & _).
    apply Hout. simpl. lia.
  - destruct (del_item_index_error empty_list_heap "lst" (2 ^ 64) 0 []
                eq_refl eq_refl Hlen) as (_ & _ & Hout & _).
    apply Hout. simpl. lia.
Defined.

Lemma del_item_drops_one_reference_witness :
  ∃ h', del_item "lst" 0 demo_heap = inr h'
    ∧ names h' = names demo_heap
    ∧ objects h' = <[0%nat := ListOf (delete 0%nat [1%nat])]> (objects demo_heap)
    ∧ objects h' !! 0%nat = Some (ListOf (delete 0%nat [1%nat]))
    ∧ (∀ id, id ≠ 0%nat → objects h' !! id = objects demo_heap !! id)
    ∧ (∀ id x, objects demo_heap !! id = Some x → x ≠ Freed →
         ∃ x', objects h' !! id = Some x' ∧ x' ≠ Freed)
    ∧ ∀ id, (refcount h' id + (if Nat.eqb id 1 then 1 else 0)
             = refcount demo_heap id)%nat.
Proof.
  refine (del_item_drops_one_reference demo_heap "lst" 0 0 0 1 [1%nat]
            demo_heap_tidy eq_refl eq_refl eq_refl eq_refl _).
  unfold refcount. simpl. lia.
Defined.

Lemma append_then_del_round_trip_witness :
  (append "lst" "obj" demo_heap ≫= del_item "lst" (Z.of_nat (length [1%nat])))
  = inr demo_heap
  ∧ (append "lst" "obj" demo_heap ≫= del_item "lst" (-1)) = inr demo_heap.
Proof.
  exact (append_then_del_round_trip demo_heap "lst" "obj" 0 1 [1%nat]
           demo_heap_tidy eq_refl eq_refl eq_refl).
Defined.

End RefFacts.
